(** * Juston: the news-analysis pipeline ([news_analysis/news_analyzer.py])

    A shallow embedding of the [NewsAnalyzer] class: date normalisation,
    translation with retries, sentiment scoring, symbol linking, the
    source fetcher and the MongoDB-backed article store, followed by the
    properties established about them.

    Conventions.
    - A Python [str] is a list of Unicode code points ([text]).
    - The third-party libraries ([re], [datetime], [googletrans], [vader],
      [textblob], [requests], [bs4], [pymongo]) are the environment: what
      can be computed from their documentation is defined here ([re],
      [datetime]); the rest is a field of the record [environment].
    - Python floats are exact rationals ([Q]); rounding is not modelled.
    - Exceptions are explicit: a call returns an [outcome]. *)

From Stdlib Require Import ZArith NArith QArith Lia List String Ascii Bool.
From Stdlib Require Import Sorted Permutation.
From stdpp Require Import gmap strings list.

Local Open Scope Z_scope.
Set Warnings "-register-all".

(** ** Python values and exceptions *)

(** A Python [str]: its code points. *)
Abbreviation text := (list N).

(** The code points of an ASCII literal of the source. *)
Definition py (s : string) : text :=
  (fun a : ascii => N_of_ascii a) <$> list_ascii_of_string s.

(** The exception classes the module meets; all derive from [Exception]. *)
Inductive exn : Type :=
| ValueError
| TypeError
| AttributeError
| OverflowError
| RequestException
| PyMongoError
| OtherException.

Inductive outcome (A : Type) : Type :=
| Return (a : A)
| Raise (e : exn).
Arguments Return {A} a.
Arguments Raise {A} e.

(** ** Unicode tables

    Inside ASCII the character classes are fixed; outside, they are whatever
    the interpreter's Unicode database says. *)
Record unicode_db : Type := {
  uni_isspace : N -> bool;
  uni_isdecimal : N -> bool;
  uni_decimal_value : N -> Z;
  uni_lower : text -> N -> text -> text
}.

Section Characters.
Variable U : unicode_db.

Definition is_ascii (c : N) : bool := (c <? 128)%N.

(** [str.isspace] on one character, also the class [\s]. *)
Definition isspace (c : N) : bool :=
  if is_ascii c
  then ((9 <=? c)%N && (c <=? 13)%N) || ((28 <=? c)%N && (c <=? 32)%N)
  else uni_isspace U c.

(** The class [\d] of a [str] pattern: the decimal digits. *)
Definition isdigit (c : N) : bool :=
  if is_ascii c then (48 <=? c)%N && (c <=? 57)%N else uni_isdecimal U c.

Definition digit_value (c : N) : Z :=
  if is_ascii c then Z.of_N c - 48 else uni_decimal_value U c.

(** [int(s)] on a string of decimal digits. *)
Definition int (s : text) : Z :=
  fold_left (fun acc c => 10 * acc + digit_value c) s 0.

Definition ascii_lower (c : N) : N :=
  if (65 <=? c)%N && (c <=? 90)%N then (c + 32)%N else c.

(** [str.lower]: each character is mapped in its context (the capital
    sigma is the one character whose image depends on it). *)
Fixpoint lower_from (before : text) (s : text) : text :=
  match s with
  | [] => []
  | c :: rest =>
      (if is_ascii c then [ascii_lower c] else uni_lower U before c rest)
        ++ lower_from (before ++ [c]) rest
  end.

Definition lower (s : text) : text := lower_from [] s.

Fixpoint lstrip (s : text) : text :=
  match s with
  | [] => []
  | c :: rest => if isspace c then lstrip rest else s
  end.

(** [str.strip()] *)
Definition strip (s : text) : text := rev (lstrip (rev (lstrip s))).

Definition is_empty (s : text) : bool :=
  match s with [] => true | _ => false end.

(** [not text or text.strip() == ''] *)
Definition blank (s : text) : bool := is_empty s || is_empty (strip s).

(** [needle in haystack] for strings. *)
Fixpoint startswith (s prefix : text) : bool :=
  match prefix, s with
  | [], _ => true
  | p :: prefix', c :: s' => (p =? c)%N && startswith s' prefix'
  | _ :: _, [] => false
  end.

Fixpoint contains (needle haystack : text) : bool :=
  startswith haystack needle ||
  match haystack with
  | [] => false
  | _ :: rest => contains needle rest
  end.
End Characters.

(** ** The [re] module: a backtracking matcher

    Patterns are data; [exec] is the usual backtracking search (ordered
    alternatives, greedy counted repetition), in continuation-passing
    style.  The continuation receives what is left of the subject and the
    groups closed so far. *)
Inductive regex : Type :=
| Eps
| Chr (p : N -> bool)
| Cat (r1 r2 : regex)
| Alt (r1 r2 : regex)
| Rep (lo extra : nat) (r : regex)
| Plus (p : N -> bool)
| Group (r : regex).

Definition or_else {A} (x : option A) (y : option A) : option A :=
  match x with Some _ => x | None => y end.

Fixpoint exec {A} (r : regex) (s : text) (caps : list text)
    (k : text -> list text -> option A) {struct r} : option A :=
  match r with
  | Eps => k s caps
  | Chr p =>
      match s with
      | c :: s' => if p c then k s' caps else None
      | [] => None
      end
  | Cat r1 r2 => exec r1 s caps (fun s1 caps1 => exec r2 s1 caps1 k)
  | Alt r1 r2 => or_else (exec r1 s caps k) (exec r2 s caps k)
  | Rep lo extra r1 =>
      let upto :=
        fix upto (n : nat) (s : text) (caps : list text) : option A :=
          match n with
          | O => k s caps
          | S n' => or_else (exec r1 s caps (upto n')) (k s caps)
          end in
      let exactly :=
        fix exactly (n : nat) (s : text) (caps : list text) : option A :=
          match n with
          | O => upto extra s caps
          | S n' => exec r1 s caps (exactly n')
          end in
      exactly lo s caps
  | Plus p =>
      let star :=
        fix star (s : text) : option A :=
          match s with
          | c :: s' => if p c then or_else (star s') (k s caps) else k s caps
          | [] => k s caps
          end in
      match s with
      | c :: s' => if p c then star s' else None
      | [] => None
      end
  | Group r1 =>
      exec r1 s caps
        (fun s' caps' => k s' (caps' ++ [take (length s - length s')%nat s]))
  end.

(** A match anchored at the start of [s]: the groups and the unread rest. *)
Definition match_at (r : regex) (s : text) : option (list text * text) :=
  exec r s [] (fun rest caps => Some (caps, rest)).

(** [re.search(r, s).groups()], or [None]. *)
Fixpoint re_search (r : regex) (s : text) : option (list text) :=
  match match_at r s with
  | Some (caps, _) => Some caps
  | None =>
      match s with
      | [] => None
      | _ :: s' => re_search r s'
      end
  end.

(** The matches of [re.findall], left to right and not overlapping; [skip]
    counts the characters still covered by the previous match. *)
Fixpoint findall_from (r : regex) (skip : nat) (s : text) {struct s}
  : list (list text) :=
  match skip, s with
  | S n, _ :: s' => findall_from r n s'
  | S _, [] => []
  | O, [] =>
      match match_at r [] with
      | Some (caps, _) => [caps]
      | None => []
      end
  | O, _ :: s' =>
      match match_at r s with
      | Some (caps, rest) =>
          caps :: findall_from r (Nat.pred (length s - length rest)) s'
      | None => findall_from r 0 s'
      end
  end.

(** [re.findall] for a pattern with one group: the group of each match. *)
Definition re_findall (r : regex) (s : text) : list text :=
  (fun caps => nth 0 caps []) <$> findall_from r 0 s.

Definition lit (c : string) : regex :=
  match py c with
  | [x] => Chr (N.eqb x)
  | _ => Chr (fun _ => false)
  end.

Definition one_of (cs : string) : regex :=
  Chr (fun c => existsb (N.eqb c) (py cs)).

(** ** The [datetime] class (naive, proleptic Gregorian) *)
Record datetime : Type := {
  year : Z; month : Z; day : Z;
  hour : Z; minute : Z; second : Z; microsecond : Z
}.

Definition is_leap (y : Z) : bool :=
  (y mod 4 =? 0) && (negb (y mod 100 =? 0) || (y mod 400 =? 0)).

Definition days_in_month (y m : Z) : Z :=
  if m =? 2 then (if is_leap y then 29 else 28)
  else if (m =? 4) || (m =? 6) || (m =? 9) || (m =? 11) then 30
  else 31.

Definition valid_datetime (d : datetime) : bool :=
  (1 <=? year d) && (year d <=? 9999) &&
  (1 <=? month d) && (month d <=? 12) &&
  (1 <=? day d) && (day d <=? days_in_month (year d) (month d)) &&
  (0 <=? hour d) && (hour d <=? 23) &&
  (0 <=? minute d) && (minute d <=? 59) &&
  (0 <=? second d) && (second d <=? 59) &&
  (0 <=? microsecond d) && (microsecond d <=? 999999).

(** [datetime.datetime(y, m, d)]: the constructor checks its fields. *)
Definition datetime_new (y m d : Z) : outcome datetime :=
  let v := {| year := y; month := m; day := d;
              hour := 0; minute := 0; second := 0; microsecond := 0 |} in
  if valid_datetime v then Return v else Raise ValueError.

Definition days_before_year (y : Z) : Z :=
  let p := y - 1 in p * 365 + p / 4 - p / 100 + p / 400.

Fixpoint days_before_month_aux (y : Z) (n : nat) : Z :=
  match n with
  | O => 0
  | S n' => days_before_month_aux y n' + days_in_month y (Z.of_nat n)
  end.

Definition days_before_month (y m : Z) : Z :=
  days_before_month_aux y (Z.to_nat (m - 1)).

(** [toordinal()]: day 1 is 0001-01-01. *)
Definition toordinal (d : datetime) : Z :=
  days_before_year (year d) + days_before_month (year d) (month d) + day d.

(** Microseconds since midnight of day 0. *)
Definition to_micros (d : datetime) : Z :=
  ((toordinal d * 24 + hour d) * 60 + minute d) * 60 * 1000000
  + second d * 1000000 + microsecond d.

Definition micros_per_day : Z := 86400 * 1000000.

Definition datetime_min : datetime :=
  {| year := 1; month := 1; day := 1;
     hour := 0; minute := 0; second := 0; microsecond := 0 |}.

Definition datetime_max : datetime :=
  {| year := 9999; month := 12; day := 31;
     hour := 23; minute := 59; second := 59; microsecond := 999999 |}.

(** ** Dictionaries with values of several types *)
Inductive pyval : Type :=
| PNone
| PInt (z : Z)
| PFloat (q : Q)
| PStr (s : text)
| PDate (d : datetime)
| PList (l : list pyval)
| PDict (d : gmap string pyval).


(** ** Articles, sources and the environment *)

(** An article [dict] as the pipeline builds it: six keys from the fetcher,
    the others added by [process_news_article] ([None]: key absent). *)
Record article : Type := {
  title : text;
  url : text;
  published_date : datetime;
  source : string;
  language : string;
  content : text;
  title_en : option pyval;
  content_en : option pyval;
  sentiment : option (gmap string pyval);
  symbols : option (list text);
  processed_at : option datetime;
  error : option text
}.

(** An entry of [self.news_sources]. *)
Record news_source : Type := {
  src_name : string;
  src_url : text;
  src_language : string;
  src_type : string
}.

(** What [requests.get] does: it raises a [RequestException] (no
    connection, timeout) or hands back a response. *)
Inductive http_reply : Type :=
| ConnectionFailed
| Response (status_code : Z) (body : text).

(** The collaborators of [NewsAnalyzer].  The services that may answer
    differently on each call are indexed by the number of the call. *)
Record environment : Type := {
  unicode : unicode_db;
  (* datetime.datetime.strptime(s, fmt) *)
  strptime : text -> string -> outcome datetime;
  (* datetime.datetime.now(), n-th reading *)
  clock : nat -> datetime;
  (* str(e) *)
  str_exn : exn -> text;
  (* self.translator.translate(chunk, src, dest).text, n-th call *)
  translate : nat -> text -> string -> string -> outcome text;
  (* self.sentiment_analyzer.polarity_scores(text): compound, pos, neg, neu *)
  polarity_scores : text -> outcome (Q * Q * Q * Q);
  (* TextBlob(text).sentiment: polarity, subjectivity *)
  textblob_sentiment : text -> outcome (Q * Q);
  (* requests.get(url, ...), n-th call *)
  requests_get : nat -> text -> http_reply;
  (* BeautifulSoup: elements are kept as their markup *)
  soup_select : text -> string -> list text;
  soup_select_one : text -> string -> option text;
  elem_text : text -> text;
  elem_href : text -> option text;
  (* the text of an article page, as _fetch_article_content extracts it *)
  page_content : text -> outcome text;
  (* the n-th operation on the collection raises PyMongoError *)
  mongo_fault : nat -> bool
}.

Inductive level : Type := INFO | WARNING | ERROR.

(** What a call leaves behind, oldest first. *)
Inductive event : Type :=
| Sleep (seconds : Z)
| Log (l : level) (message : string) (arg : text)
| HttpGet (target : text)
| Translate (chunk : text).

(** The mutable state: the [news] collection and the counters that index
    the environment. *)
Record world : Type := {
  news_collection : list article;
  db_ops : nat;
  http_calls : nat;
  translate_calls : nat;
  clock_reads : nat;
  trace : list event
}.

(** ** A state-and-exception monad *)
Definition M (A : Type) : Type := world -> outcome A * world.

Definition ret {A} (a : A) : M A := fun w => (Return a, w).

Definition bind {A B} (m : M A) (f : A -> M B) : M B :=
  fun w =>
    match m w with
    | (Return a, w') => f a w'
    | (Raise e, w') => (Raise e, w')
    end.

Definition lift {A} (o : outcome A) : M A := fun w => (o, w).

(** [try: m  except <classes>: handler], [catches] telling the classes;
    several [except] clauses of one [try] are one handler that tells the
    classes apart. *)
Definition try_except {A} (m : M A) (catches : exn -> bool)
    (handler : exn -> M A) : M A :=
  fun w =>
    match m w with
    | (Raise e, w') => if catches e then handler e w' else (Raise e, w')
    | r => r
    end.

Declare Scope py_scope.
Delimit Scope py_scope with py.
Notation "x <- m ;; k" := (bind m (fun x => k))
  (at level 100, m at next level, right associativity) : py_scope.
Notation "m ;; k" := (bind m (fun _ => k))
  (at level 100, right associativity) : py_scope.
Local Open Scope py_scope.

Definition emit (e : event) : M unit :=
  fun w =>
    (Return tt,
     {| news_collection := news_collection w; db_ops := db_ops w;
        http_calls := http_calls w; translate_calls := translate_calls w;
        clock_reads := clock_reads w; trace := trace w ++ [e] |}).

Definition log (l : level) (message : string) (arg : text) : M unit :=
  emit (Log l message arg).

Definition sleep (seconds : Z) : M unit := emit (Sleep seconds).

Definition except_Exception (e : exn) : bool := true.

Definition except_ValueError (e : exn) : bool :=
  match e with ValueError => true | _ => false end.

Definition except_RequestException (e : exn) : bool :=
  match e with RequestException => true | _ => false end.

Definition except_PyMongoError (e : exn) : bool :=
  match e with PyMongoError => true | _ => false end.

Section NewsAnalyzer.
Variable E : environment.

Definition datetime_now : M datetime :=
  fun w =>
    (Return (clock E (clock_reads w)),
     {| news_collection := news_collection w; db_ops := db_ops w;
        http_calls := http_calls w; translate_calls := translate_calls w;
        clock_reads := S (clock_reads w); trace := trace w |}).

(** *** translate_text *)

Definition translator_translate (chunk : text) (src dest : string) : M text :=
  fun w =>
    (translate E (translate_calls w) chunk src dest,
     {| news_collection := news_collection w; db_ops := db_ops w;
        http_calls := http_calls w; translate_calls := S (translate_calls w);
        clock_reads := clock_reads w; trace := trace w ++ [Translate chunk] |}).

(** [range(0, n, step)] *)
Definition range_step (n step : nat) : list nat :=
  (fun k => k * step)%nat <$> seq 0 ((n + step - 1) / step)%nat.

(** [[text[i:i+4999] for i in range(0, len(text), 4999)]] *)
Definition chunks_of (s : text) : list text :=
  (fun i => take 4999 (drop i s)) <$> range_step (length s) 4999.

Fixpoint translate_chunks (chunks : list text) (src dest : string)
  : M (list text) :=
  match chunks with
  | [] => ret []
  | chunk :: rest =>
      t <- translator_translate chunk src dest ;;
      sleep 1 ;;
      ts <- translate_chunks rest src dest ;;
      ret (t :: ts)
  end.

(** [' '.join(parts)] *)
Fixpoint join_spaces (parts : list text) : text :=
  match parts with
  | [] => []
  | [p] => p
  | p :: rest => p ++ py " " ++ join_spaces rest
  end.

Definition max_retries : Z := 3.

(** The body of the [try] in [translate_text]. *)
Definition translate_once (s : text) (src dest : string) : M text :=
  if blank (unicode E) s then ret []
  else if (length s <? 5000)%nat then translator_translate s src dest
  else
    translated_chunks <- translate_chunks (chunks_of s) src dest ;;
    ret (join_spaces translated_chunks).

(** The [for attempt in range(max_retries)] loop; a loop that ends without
    a [return] makes the function return [None]. *)
Fixpoint translate_loop (attempts : list Z) (retry_delay : Z)
    (s : text) (src dest : string) : M (option text) :=
  match attempts with
  | [] => ret None
  | attempt :: rest =>
      fun w =>
        match translate_once s src dest w with
        | (Return t, w') => (Return (Some t), w')
        | (Raise e, w') =>
            (log ERROR "Error translating text (attempt {}/{}): " (str_exn E e) ;;
             if attempt <? max_retries - 1 then
               log INFO "Retrying translation in {} seconds..." [] ;;
               sleep retry_delay ;;
               translate_loop rest (retry_delay * 2) s src dest
             else
               log ERROR "Failed to translate text after {} attempts" [] ;;
               ret (Some s)) w'
        end
  end.

Definition translate_text (s : text) (src dest : string) : M (option text) :=
  translate_loop [0; 1; 2] 2 s src dest.

(** *** analyze_sentiment *)

Definition neutral_scores : gmap string pyval :=
  {[ "compound" := PFloat 0; "positive" := PFloat 0;
     "negative" := PFloat 0; "neutral" := PFloat 1 ]}.

Definition analyze_sentiment_try (s : text) : outcome (gmap string pyval) :=
  if blank (unicode E) s then Return neutral_scores
  else
    match polarity_scores E s with
    | Raise e => Raise e
    | Return (compound, pos, neg, neu) =>
        match textblob_sentiment E s with
        | Raise e => Raise e
        | Return (textblob_polarity, textblob_subjectivity) =>
            Return {[ "compound" := PFloat compound;
                      "positive" := PFloat pos;
                      "negative" := PFloat neg;
                      "neutral" := PFloat neu;
                      "polarity" := PFloat textblob_polarity;
                      "subjectivity" := PFloat textblob_subjectivity ]}
        end
    end.

Definition analyze_sentiment (s : text) : M (gmap string pyval) :=
  match analyze_sentiment_try s with
  | Return scores => ret scores
  | Raise e =>
      log ERROR "Error analyzing sentiment: " (str_exn E e) ;;
      ret {[ "compound" := PFloat 0; "positive" := PFloat 0;
             "negative" := PFloat 0; "neutral" := PFloat 1;
             "polarity" := PFloat 0; "subjectivity" := PFloat 0;
             "error" := PStr (str_exn E e) ]}
  end.

(** *** _parse_date *)

Definition date_formats : list string :=
  [ "%Y-%m-%d"; "%d-%m-%Y"; "%b %d, %Y"; "%d %b %Y";
    "%B %d, %Y"; "%d %B %Y"; "%Y/%m/%d"; "%d/%m/%Y" ].

(** The loop over the formats: [ValueError] moves on to the next one. *)
Fixpoint try_formats (s : text) (formats : list string)
  : outcome (option datetime) :=
  match formats with
  | [] => Return None
  | date_format :: rest =>
      match strptime E s date_format with
      | Return d => Return (Some d)
      | Raise e =>
          if except_ValueError e then try_formats s rest else Raise e
      end
  end.

Definition digit : regex := Chr (isdigit (unicode E)).

(** [(\d{1,2})[/-](\d{1,2})[/-](\d{2,4})] *)
Definition date_pattern : regex :=
  Cat (Group (Rep 1 1 digit))
    (Cat (one_of "/-")
       (Cat (Group (Rep 1 1 digit))
          (Cat (one_of "/-") (Group (Rep 2 2 digit))))).

(** The body of the [try] in [_parse_date].  A date the constructor
    refuses is a [ValueError], like any other it ends in the handler. *)
Definition parse_date_try (now : datetime) (date_str : text)
  : outcome datetime :=
  if blank (unicode E) date_str then Return now
  else
    match try_formats (strip (unicode E) date_str) date_formats with
    | Raise e => Raise e
    | Return (Some d) => Return d
    | Return None =>
        match re_search date_pattern date_str with
        | Some [day; month; year] =>
            let year :=
              if (length year =? 2)%nat then py "20" ++ year else year in
            datetime_new (int (unicode E) year) (int (unicode E) month)
                         (int (unicode E) day)
        | Some _ => Raise ValueError
        | None => Return now
        end
    end.

(** [now] is what [datetime.datetime.now()] answers during the call. *)
Definition _parse_date (now : datetime) (date_str : text) : outcome datetime :=
  match parse_date_try now date_str with
  | Return d => Return d
  | Raise e => if except_Exception e then Return now else Raise e
  end.

(** *** _extract_stock_symbols *)

(** [(\d{4})\.SR] *)
Definition symbol_pattern : regex :=
  Cat (Group (Rep 4 0 digit)) (Cat (lit ".") (Cat (lit "S") (lit "R"))).

Definition stock_name_mapping : list (text * text) :=
  [ (py "aramco", py "2222.SR");
    (py "saudi aramco", py "2222.SR");
    (py "sabic", py "2010.SR");
    (py "al rajhi", py "1120.SR");
    (py "rajhi bank", py "1120.SR");
    (py "stc", py "7010.SR");
    (py "saudi telecom", py "7010.SR");
    (py "samba", py "1090.SR");
    (py "ncb", py "1180.SR");
    (py "national commercial bank", py "1180.SR");
    (py "maaden", py "1211.SR");
    (py "saudi arabian mining", py "1211.SR");
    (py "almarai", py "2280.SR") ].
End NewsAnalyzer.

(** String comparison: by code point, a proper prefix first. *)
Fixpoint text_leb (a b : text) : bool :=
  match a, b with
  | [], _ => true
  | _ :: _, [] => false
  | x :: a', y :: b' => (x <? y)%N || ((x =? y)%N && text_leb a' b')
  end.

Fixpoint insert_sorted (x : text) (l : list text) : list text :=
  match l with
  | [] => [x]
  | y :: l' => if text_leb x y then x :: l else y :: insert_sorted x l'
  end.

(** [sorted(l)] for a list of strings. *)
Definition sorted (l : list text) : list text := foldr insert_sorted [] l.

(** [list(set(l))]: the distinct elements (in an order [sorted] forgets). *)
Definition list_set (l : list text) : list text := remove_dups l.

(** [needle] occurs in [s]; and in any letter case. *)
Definition occurs (needle s : text) : Prop :=
  exists pre post, s = pre ++ needle ++ post.

Definition occurs_any_case (needle s : text) : Prop :=
  exists pre w post, s = pre ++ w ++ post /\ ascii_lower <$> w = needle.

Section SymbolLinker.
Variable E : environment.

Definition names_found (text_lower : text) : list text :=
  snd <$> List.filter (fun entry => contains (fst entry) text_lower)
            stock_name_mapping.

(** Nothing in the body can raise on a [str]: the [except] clause of the
    source, which returns the empty list, is never entered. *)
Definition _extract_stock_symbols (s : text) : list text :=
  let symbols := re_findall (symbol_pattern E) s in
  let symbols := (fun symbol => symbol ++ py ".SR") <$> symbols in
  let text_lower := lower (unicode E) s in
  let symbols := symbols ++ names_found text_lower in
  sorted (list_set symbols).
End SymbolLinker.

Section Pipeline.
Variable E : environment.

(** *** fetch_news_from_source *)

(** [requests.get(target, ...)] followed by [raise_for_status()]: an error
    status raises [HTTPError], a [RequestException]. *)
Definition http_get (target : text) : M text :=
  fun w =>
    let w' :=
      {| news_collection := news_collection w; db_ops := db_ops w;
         http_calls := S (http_calls w); translate_calls := translate_calls w;
         clock_reads := clock_reads w; trace := trace w ++ [HttpGet target] |} in
    match requests_get E (http_calls w) target with
    | ConnectionFailed => (Raise RequestException, w')
    | Response status_code body =>
        if (400 <=? status_code) && (status_code <? 600)
        then (Raise RequestException, w')
        else (Return body, w')
    end.

Definition _fetch_article_content (target : text) : M text :=
  try_except
    (if is_empty target then ret []
     else
       body <- http_get target ;;
       lift (page_content E body))
    except_Exception
    (fun e =>
       log ERROR "Error fetching article content from {}: " target ;;
       ret []).

(** The selectors and the site prefix of each known source: the five
    branches of the source differ in nothing else. *)
Record strategy : Type := {
  list_selector : string;
  title_selector : string;
  site : text;
  date_selector : string
}.

Definition source_strategy (name : string) : option strategy :=
  if String.eqb name "Argaam" then
    Some {| list_selector := "div.article-box"; title_selector := "h3.title a";
            site := py "https://www.argaam.com"; date_selector := "span.date" |}
  else if String.eqb name "Saudi Exchange" then
    Some {| list_selector := "div.news-item";
            title_selector := "h3.news-title a";
            site := py "https://www.saudiexchange.sa";
            date_selector := "span.news-date" |}
  else if String.eqb name "Arab News" then
    Some {| list_selector := "div.article-item";
            title_selector := "h3.article-title a";
            site := py "https://www.arabnews.com";
            date_selector := "span.article-date" |}
  else if String.eqb name "CNBC Arabia" then
    Some {| list_selector := "div.news-card";
            title_selector := "h3.card-title a";
            site := py "https://www.cnbcarabia.com";
            date_selector := "span.card-date" |}
  else if String.eqb name "Aleqtisadiah" then
    Some {| list_selector := "div.article-item";
            title_selector := "h2.article-title a";
            site := py "https://www.aleqt.com";
            date_selector := "span.article-date" |}
  else None.

(** One turn of the loop over [news_elements]; [None] is the [continue]. *)
Definition extract_article (src : news_source) (st : strategy)
    (element : text) : M (option article) :=
  match soup_select_one E element (title_selector st) with
  | None => ret None
  | Some title_elem =>
      let title := strip (unicode E) (elem_text E title_elem) in
      let url := default [] (elem_href E title_elem) in
      let url :=
        if negb (is_empty url) && negb (startswith url (py "http"))
        then site st ++ url else url in
      let date_str :=
        match soup_select_one E element (date_selector st) with
        | Some date_elem => strip (unicode E) (elem_text E date_elem)
        | None => []
        end in
      article_content <- _fetch_article_content url ;;
      (* the clock is read here, once, for the call of _parse_date *)
      now <- datetime_now E ;;
      published <- lift (_parse_date E now date_str) ;;
      ret (Some {| title := title; url := url; published_date := published;
                   source := src_name src; language := src_language src;
                   content := article_content;
                   title_en := None; content_en := None; sentiment := None;
                   symbols := None; processed_at := None; error := None |})
  end.

Fixpoint extract_articles (src : news_source) (st : strategy)
    (news_elements : list text) : M (list article) :=
  match news_elements with
  | [] => ret []
  | element :: rest =>
      found <- try_except (extract_article src st element) except_Exception
                 (fun e =>
                    log ERROR "Error extracting article from {}: "
                      (py (src_name src)) ;;
                    ret None) ;;
      articles <- extract_articles src st rest ;;
      ret (match found with Some a => a :: articles | None => articles end)
  end.

(** The body of the [try] in [fetch_news_from_source]. *)
Definition fetch_once (src : news_source) : M (list article) :=
  log INFO "Fetching news from {}" (py (src_name src)) ;;
  body <- http_get (src_url src) ;;
  articles <-
    match source_strategy (src_name src) with
    | Some st => extract_articles src st (soup_select E body (list_selector st))
    | None => ret []
    end ;;
  log INFO "Fetched {} articles from {}" (py (src_name src)) ;;
  ret articles.

Fixpoint fetch_loop (attempts : list Z) (retry_delay : Z) (src : news_source)
  : M (option (list article)) :=
  match attempts with
  | [] => ret None
  | attempt :: rest =>
      fun w =>
        match fetch_once src w with
        | (Return articles, w') => (Return (Some articles), w')
        | (Raise e, w') =>
            if except_RequestException e then
              (log ERROR "Error fetching news from {} (attempt {}/{}): "
                 (py (src_name src)) ;;
               if attempt <? max_retries - 1 then
                 log INFO "Retrying in {} seconds..." [] ;;
                 sleep retry_delay ;;
                 fetch_loop rest (retry_delay * 2) src
               else
                 log ERROR "Failed to fetch news from {} after {} attempts"
                   (py (src_name src)) ;;
                 ret (Some [])) w'
            else (Raise e, w')
        end
  end.

Definition fetch_news_from_source (src : news_source)
  : M (option (list article)) :=
  fetch_loop [0; 1; 2] 2 src.

(** *** process_news_article *)

Definition opt_str (o : option text) : pyval :=
  match o with Some s => PStr s | None => PNone end.

(** [a + ' ' + b] *)
Definition concat_with_space (a b : pyval) : outcome text :=
  match a, b with
  | PStr x, PStr y => Return (x ++ py " " ++ y)
  | _, _ => Raise TypeError
  end.

Definition process_news_article (a : article) : M article :=
  let with_translation (t c : pyval) : article :=
    {| title := title a; url := url a; published_date := published_date a;
       source := source a; language := language a; content := content a;
       title_en := Some t; content_en := Some c; sentiment := sentiment a;
       symbols := symbols a; processed_at := processed_at a;
       error := error a |} in
  let translated : M (article * pyval * pyval) :=
    if String.eqb (language a) "ar" then
      log INFO "Translating article: " (title a) ;;
      t <- translate_text E (title a) "ar" "en" ;;
      c <- translate_text E (content a) "ar" "en" ;;
      ret (with_translation (opt_str t) (opt_str c), opt_str t, opt_str c)
    else
      ret (with_translation (PStr (title a)) (PStr (content a)),
           PStr (title a), PStr (content a)) in
  fun w =>
    match translated w with
    | (Raise e, w') =>
        (Return
           {| title := title a; url := url a;
              published_date := published_date a; source := source a;
              language := language a; content := content a;
              title_en := title_en a; content_en := content_en a;
              sentiment := sentiment a; symbols := symbols a;
              processed_at := processed_at a;
              error := Some (str_exn E e) |}, w')
    | (Return (a1, t, c), w1) =>
        match concat_with_space t c with
        | Raise e =>
            (Return
               {| title := title a1; url := url a1;
                  published_date := published_date a1; source := source a1;
                  language := language a1; content := content a1;
                  title_en := title_en a1; content_en := content_en a1;
                  sentiment := sentiment a1; symbols := symbols a1;
                  processed_at := processed_at a1;
                  error := Some (str_exn E e) |}, w1)
        | Return text_for_analysis =>
            (log INFO "Analyzing sentiment for article: " (title a) ;;
             scores <- analyze_sentiment E text_for_analysis ;;
             now <- datetime_now E ;;
             ret {| title := title a1; url := url a1;
                    published_date := published_date a1; source := source a1;
                    language := language a1; content := content a1;
                    title_en := title_en a1; content_en := content_en a1;
                    sentiment := Some scores;
                    symbols := Some (_extract_stock_symbols E text_for_analysis);
                    processed_at := Some now; error := error a1 |}) w1
        end
    end.
End Pipeline.

Fixpoint text_eqb (a b : text) : bool :=
  match a, b with
  | [], [] => true
  | x :: a', y :: b' => (x =? y)%N && text_eqb a' b'
  | _, _ => false
  end.

(** Descending, stable insertion: the order of [sort(key, DESCENDING)]
    (among equal keys the stored order is kept). *)
Fixpoint insert_desc {A} (key : A -> Z) (x : A) (l : list A) : list A :=
  match l with
  | [] => [x]
  | y :: l' => if key x <? key y then y :: insert_desc key x l' else x :: l
  end.

Definition sort_desc {A} (key : A -> Z) (l : list A) : list A :=
  foldr (insert_desc key) [] l.

(** The sort key of a document: its [published_date]. *)
Definition date_key (doc : article) : Z := to_micros (published_date doc).

Section ArticleStore.
Variable E : environment.

(** Every operation on the collection takes the next fault index. *)
Definition mongo {A} (run : list article -> A * list article) : M A :=
  fun w =>
    if mongo_fault E (db_ops w) then
      (Raise PyMongoError,
       {| news_collection := news_collection w; db_ops := S (db_ops w);
          http_calls := http_calls w; translate_calls := translate_calls w;
          clock_reads := clock_reads w; trace := trace w |})
    else
      let (result, stored) := run (news_collection w) in
      (Return result,
       {| news_collection := stored; db_ops := S (db_ops w);
          http_calls := http_calls w; translate_calls := translate_calls w;
          clock_reads := clock_reads w; trace := trace w |}).

(** [self.news_collection.find_one({'url': u})] *)
Definition find_one_by_url (u : text) : M (option article) :=
  mongo (fun stored =>
           (List.find (fun doc => text_eqb (url doc) u) stored, stored)).

(** [self.news_collection.insert_one(doc).inserted_id]: the driver gives
    the document a fresh [ObjectId], here its rank in the collection. *)
Definition insert_one (doc : article) : M (option nat) :=
  mongo (fun stored => (Some (length stored), stored ++ [doc])).

(** *** store_news_in_db *)

Fixpoint store_loop (articles : list article) (stored_count : Z) : M Z :=
  match articles with
  | [] => ret stored_count
  | a :: rest =>
      existing <- find_one_by_url (url a) ;;
      match existing with
      | Some _ =>
          log INFO "Article already exists: " (title a) ;;
          store_loop rest stored_count
      | None =>
          inserted_id <- insert_one a ;;
          match inserted_id with
          | Some _ =>
              log INFO "Stored article: " (title a) ;;
              store_loop rest (stored_count + 1)
          | None =>
              log WARNING "Failed to store article: " (title a) ;;
              store_loop rest stored_count
          end
      end
  end.

Definition store_news_in_db (articles : list article) : M Z :=
  match articles with
  | [] => ret 0
  | _ =>
      try_except
        (stored_count <- store_loop articles 0 ;;
         log INFO "Stored {} new articles in database" [] ;;
         ret stored_count)
        except_Exception
        (fun e =>
           if except_PyMongoError e then
             log ERROR "MongoDB error storing news: " (str_exn E e) ;;
             ret 0
           else
             log ERROR "Error storing news in database: " (str_exn E e) ;;
             ret 0)
  end.

(** *** get_news_for_symbol *)

(** [end_date - datetime.timedelta(days=days)], as microseconds; outside
    the range of [datetime] the subtraction raises [OverflowError]. *)
Definition minus_days (end_date : datetime) (days : Z) : outcome Z :=
  let start := to_micros end_date - days * micros_per_day in
  if (to_micros datetime_min <=? start) && (start <=? to_micros datetime_max)
  then Return start else Raise OverflowError.

Definition has_symbol (symbol : text) (doc : article) : bool :=
  match symbols doc with
  | Some l => existsb (text_eqb symbol) l
  | None => false
  end.

(** The query [{'symbols': symbol, 'published_date': {'$gte': start_date,
    '$lte': end_date}}] on one document. *)
Definition matches_query (symbol : text) (start_date end_date : Z)
    (doc : article) : bool :=
  has_symbol symbol doc &&
  (start_date <=? date_key doc) && (date_key doc <=? end_date).

(** [cursor.limit(n)]; [limit(0)] is no limit. *)
Definition limit_to {A} (limit : nat) (l : list A) : list A :=
  match limit with O => l | _ => take limit l end.

(** [find(query).sort('published_date', DESCENDING).limit(limit)] *)
Definition find_news (symbol : text) (start_date end_date : Z) (limit : nat)
  : M (list article) :=
  mongo (fun stored =>
    let hits := List.filter (matches_query symbol start_date end_date) stored in
    (limit_to limit (sort_desc date_key hits), stored)).

Definition get_news_for_symbol (symbol : text) (days : Z) (limit : nat)
  : M (list article) :=
  try_except
    (end_date <- datetime_now E ;;
     start_date <- lift (minus_days end_date days) ;;
     news_articles <- find_news symbol start_date (to_micros end_date) limit ;;
     log INFO "Retrieved {} news articles for symbol {}" symbol ;;
     ret news_articles)
    except_Exception
    (fun e =>
       if except_PyMongoError e then
         log ERROR "MongoDB error retrieving news for symbol {}: " symbol ;;
         ret []
       else
         log ERROR "Error retrieving news for symbol {}: " symbol ;;
         ret []).

(** *** get_sentiment_summary *)

Definition as_number (v : pyval) : outcome Q :=
  match v with
  | PInt z => Return (inject_Z z)
  | PFloat q => Return q
  | _ => Raise TypeError
  end.

(** [sum(scores)] *)
Fixpoint py_sum (scores : list pyval) (acc : Q) : outcome Q :=
  match scores with
  | [] => Return acc
  | v :: rest =>
      match as_number v with
      | Return q => py_sum rest (acc + q)%Q
      | Raise e => Raise e
      end
  end.

(** [sum(scores) / len(scores) if scores else 0.0] *)
Definition average (scores : list pyval) : outcome Q :=
  match scores with
  | [] => Return 0%Q
  | _ =>
      match py_sum scores 0 with
      | Return total => Return (total / inject_Z (Z.of_nat (length scores)))%Q
      | Raise e => Raise e
      end
  end.

(** [article.get('sentiment', {}).get(key, 0.0)] *)
Definition score (key : string) (doc : article) : pyval :=
  default (PFloat 0) (default ∅ (sentiment doc) !! key).

Definition trend (avg_compound : Q) : text :=
  if Qle_bool (5 # 100) avg_compound then py "positive"
  else if Qle_bool avg_compound (- (5 # 100)) then py "negative"
  else py "neutral".

Definition latest_entry (doc : article) : pyval :=
  PDict {[ "title" := PStr (title doc);
           "url" := PStr (url doc);
           "published_date" := PDate (published_date doc);
           "source" := PStr (py (source doc));
           "sentiment" := score "compound" doc ]}.

(** The three dictionaries [get_sentiment_summary] can return. *)
Definition summary_without_articles (symbol : text) (days : Z)
  : gmap string pyval :=
  {[ "symbol" := PStr symbol;
     "period_days" := PInt days;
     "article_count" := PInt 0;
     "average_sentiment" :=
       PDict {[ "compound" := PFloat 0; "positive" := PFloat 0;
                "negative" := PFloat 0; "neutral" := PFloat 0 ]};
     "sentiment_trend" := PStr (py "neutral") ]}.

Definition summary_of (symbol : text) (days : Z) (news_articles : list article)
    (avg_compound avg_positive avg_negative avg_neutral : Q)
  : gmap string pyval :=
  {[ "symbol" := PStr symbol;
     "period_days" := PInt days;
     "article_count" := PInt (Z.of_nat (length news_articles));
     "average_sentiment" :=
       PDict {[ "compound" := PFloat avg_compound;
                "positive" := PFloat avg_positive;
                "negative" := PFloat avg_negative;
                "neutral" := PFloat avg_neutral ]};
     "sentiment_trend" := PStr (trend avg_compound);
     "latest_articles" := PList (latest_entry <$> take 5 news_articles) ]}.

Definition summary_error (symbol : text) (days : Z) (e : exn)
  : gmap string pyval :=
  {[ "symbol" := PStr symbol;
     "period_days" := PInt days;
     "article_count" := PInt 0;
     "error" := PStr (str_exn E e) ]}.

Definition summary_try (symbol : text) (days : Z) : M (gmap string pyval) :=
  news_articles <- get_news_for_symbol symbol days 100 ;;
  match news_articles with
  | [] => ret (summary_without_articles symbol days)
  | _ =>
      avg_compound <- lift (average (score "compound" <$> news_articles)) ;;
      avg_positive <- lift (average (score "positive" <$> news_articles)) ;;
      avg_negative <- lift (average (score "negative" <$> news_articles)) ;;
      avg_neutral <- lift (average (score "neutral" <$> news_articles)) ;;
      log INFO "Generated sentiment summary for symbol {}: " symbol ;;
      ret (summary_of symbol days news_articles
             avg_compound avg_positive avg_negative avg_neutral)
  end.

Definition get_sentiment_summary (symbol : text) (days : Z)
  : M (gmap string pyval) :=
  try_except (summary_try symbol days) except_Exception
    (fun e =>
       log ERROR "Error generating sentiment summary for symbol {}: " symbol ;;
       ret (summary_error symbol days e)).
End ArticleStore.

(** ** A reference [strptime] (English month names)

    The directives are the patterns of CPython's [_strptime]; the subject
    must be matched to its end, and the fields must make a date. *)
Section Strptime.
Variable U : unicode_db.

Definition char_range (lo hi : string) : regex :=
  match py lo, py hi with
  | [a], [b] => Chr (fun c => (a <=? c)%N && (c <=? b)%N)
  | _, _ => Chr (fun _ => false)
  end.

(** A word, letters compared without case. *)
Definition word (w : string) : regex :=
  foldr (fun c r => Cat (Chr (fun x => (ascii_lower x =? c)%N)) r) Eps (py w).

Definition any_of (rs : list regex) : regex :=
  match rs with
  | [] => Chr (fun _ => false)
  | r :: rest => foldl Alt r rest
  end.

Definition a_month : list string :=
  [ "jan"; "feb"; "mar"; "apr"; "may"; "jun";
    "jul"; "aug"; "sep"; "oct"; "nov"; "dec" ].

Definition f_month : list string :=
  [ "january"; "february"; "march"; "april"; "may"; "june"; "july";
    "august"; "september"; "october"; "november"; "december" ].

(** The full names, longest first, as the module orders its alternatives. *)
Definition f_month_by_length : list string :=
  [ "september"; "february"; "november"; "december"; "january"; "october";
    "august"; "march"; "april"; "june"; "july"; "may" ].

Definition directive (d : ascii) : option regex :=
  let dg := Chr (isdigit U) in
  if Ascii.eqb d "d" then
    Some (any_of [ Cat (lit "3") (char_range "0" "1");
                   Cat (char_range "1" "2") dg;
                   Cat (lit "0") (char_range "1" "9");
                   char_range "1" "9";
                   Cat (lit " ") (char_range "1" "9") ])
  else if Ascii.eqb d "m" then
    Some (any_of [ Cat (lit "1") (char_range "0" "2");
                   Cat (lit "0") (char_range "1" "9");
                   char_range "1" "9" ])
  else if Ascii.eqb d "Y" then Some (Cat dg (Cat dg (Cat dg dg)))
  else if Ascii.eqb d "b" then Some (any_of (word <$> a_month))
  else if Ascii.eqb d "B" then Some (any_of (word <$> f_month_by_length))
  else None.

Definition ascii_space (c : ascii) : bool := isspace U (N_of_ascii c).

Fixpoint format_regex (fmt : list ascii) (after_space : bool)
  : option (regex * list ascii) :=
  match fmt with
  | [] => Some (Eps, [])
  | c :: rest =>
      if Ascii.eqb c "%" then
        match rest with
        | d :: rest' =>
            match directive d, format_regex rest' false with
            | Some r, Some (r', ds) => Some (Cat (Group r) r', d :: ds)
            | _, _ => None
            end
        | [] => None
        end
      else if ascii_space c then
        match format_regex rest true with
        | Some (r', ds) =>
            Some (if after_space then r' else Cat (Plus (isspace U)) r', ds)
        | None => None
        end
      else
        match format_regex rest false with
        | Some (r', ds) => Some (Cat (Chr (N.eqb (N_of_ascii c))) r', ds)
        | None => None
        end
  end.

Fixpoint index_of (w : text) (names : list string) (i : Z) : option Z :=
  match names with
  | [] => None
  | n :: rest => if text_eqb w (py n) then Some i else index_of w rest (i + 1)
  end.

(** The value of one field; [None] is the [ValueError] of a month name
    the tables do not know. *)
Definition field_value (d : ascii) (found : text) : option Z :=
  if Ascii.eqb d "b" then index_of (ascii_lower <$> found) a_month 1
  else if Ascii.eqb d "B" then index_of (ascii_lower <$> found) f_month 1
  else Some (int U (lstrip U found)).

Fixpoint read_fields (ds : list ascii) (caps : list text) (y m d : Z)
  : option (Z * Z * Z) :=
  match ds, caps with
  | dir :: ds', found :: caps' =>
      match field_value dir found with
      | None => None
      | Some v =>
          if Ascii.eqb dir "Y" then read_fields ds' caps' v m d
          else if Ascii.eqb dir "d" then read_fields ds' caps' y m v
          else read_fields ds' caps' y v d
      end
  | _, _ => Some (y, m, d)
  end.

Definition strptime_en (s : text) (fmt : string) : outcome datetime :=
  match format_regex (list_ascii_of_string fmt) false with
  | None => Raise ValueError
  | Some (r, ds) =>
      match match_at r s with
      | Some (caps, []) =>
          match read_fields ds caps 1900 1 1 with
          | Some (y, m, d) => datetime_new y m d
          | None => Raise ValueError
          end
      | _ => Raise ValueError
      end
  end.
End Strptime.

(** An interpreter that knows ASCII only. *)
Definition ascii_only : unicode_db :=
  {| uni_isspace := fun _ => false;
     uni_isdecimal := fun _ => false;
     uni_decimal_value := fun _ => 0;
     uni_lower := fun _ c _ => [c] |}.

Definition noon : datetime :=
  {| year := 2024; month := 5; day := 17;
     hour := 12; minute := 0; second := 0; microsecond := 0 |}.

(** An environment with the network down and the database healthy:
    translation and HTTP requests fail, nothing else does. *)
Definition offline : environment :=
  {| unicode := ascii_only;
     strptime := strptime_en ascii_only;
     clock := fun _ => noon;
     str_exn := fun _ => py "error";
     translate := fun _ _ _ _ => Raise OtherException;
     polarity_scores := fun _ => Return (0, 0, 0, 1)%Q;
     textblob_sentiment := fun _ => Return (0, 0)%Q;
     requests_get := fun _ _ => ConnectionFailed;
     soup_select := fun _ _ => [];
     soup_select_one := fun _ _ => None;
     elem_text := fun t => t;
     elem_href := fun _ => None;
     page_content := fun t => Return t;
     mongo_fault := fun _ => false |}.

Definition fresh (stored : list article) : world :=
  {| news_collection := stored; db_ops := 0; http_calls := 0;
     translate_calls := 0; clock_reads := 0; trace := [] |}.

(** The events of a trace, by kind. *)
Definition sleeps (t : list event) : list Z :=
  omap (fun e => match e with Sleep n => Some n | _ => None end) t.

Definition requests (t : list event) : list text :=
  omap (fun e => match e with HttpGet u => Some u | _ => None end) t.

Definition translations (t : list event) : list text :=
  omap (fun e => match e with Translate c => Some c | _ => None end) t.

Definition logged (t : list event) : list (level * string * text) :=
  omap (fun e => match e with Log l m a => Some (l, m, a) | _ => None end) t.

(** Every call of the translation service raises. *)
Definition translation_down (E : environment) : Prop :=
  forall n chunk src dest, exists e, translate E n chunk src dest = Raise e.

(** Every request raises, or is answered with an error status. *)
Definition request_fails (r : http_reply) : bool :=
  match r with
  | ConnectionFailed => true
  | Response status_code _ => (400 <=? status_code) && (status_code <? 600)
  end.

Definition source_down (E : environment) (src : news_source) : Prop :=
  forall n, request_fails (requests_get E n (src_url src)) = true.

(** ** Vocabulary of the statements and sample data *)

(** The first piece handed to the service. *)
Definition first_chunk (s : text) : text :=
  if (length s <? 5000)%nat then s else take 4999 s.

Definition after_translate (w : world) (chunk : text) : world :=
  {| news_collection := news_collection w; db_ops := db_ops w;
     http_calls := http_calls w; translate_calls := S (translate_calls w);
     clock_reads := clock_reads w; trace := trace w ++ [Translate chunk] |}.

Definition add_events (w : world) (es : list event) : world :=
  {| news_collection := news_collection w; db_ops := db_ops w;
     http_calls := http_calls w; translate_calls := translate_calls w;
     clock_reads := clock_reads w; trace := trace w ++ es |}.

Definition arabic_sample : text :=
  [1571; 1585; 1575; 1605; 1603; 1608]%N.

Definition arabic_article : article :=
  {| title := arabic_sample; url := py "https://www.aleqt.com/1";
     published_date := noon; source := "Aleqtisadiah"; language := "ar";
     content := arabic_sample; title_en := None; content_en := None;
     sentiment := None; symbols := None; processed_at := None;
     error := None |}.

Definition after_request (w : world) (target : text) : world :=
  {| news_collection := news_collection w; db_ops := db_ops w;
     http_calls := S (http_calls w); translate_calls := translate_calls w;
     clock_reads := clock_reads w; trace := trace w ++ [HttpGet target] |}.

Definition aleqtisadiah : news_source :=
  {| src_name := "Aleqtisadiah"; src_url := py "https://www.aleqt.com/tags/31";
     src_language := "ar"; src_type := "financial" |}.

(** What the last-resort pattern yields once no format has parsed. *)
Definition regex_fallback (E : environment) (now : datetime) (s : text)
  : datetime :=
  match re_search (date_pattern E) s with
  | Some [day; month; year] =>
      let year := if (length year =? 2)%nat then py "20" ++ year else year in
      match datetime_new (int (unicode E) year) (int (unicode E) month)
                         (int (unicode E) day) with
      | Return d => d
      | Raise _ => now
      end
  | _ => now
  end.

(** The shape [NNNN.SR] at the head of a string. *)
Definition four_digits (U : unicode_db) (d : text) : Prop :=
  length d = 4%nat /\ forallb (isdigit U) d = true.

Definition dot_SR : text := py ".SR".

Definition text_le (a b : text) : Prop := text_leb a b = true.

Definition urls (l : list article) : list text := url <$> l.

Definition after_db (w : world) (stored : list article) : world :=
  {| news_collection := stored; db_ops := S (db_ops w);
     http_calls := http_calls w; translate_calls := translate_calls w;
     clock_reads := clock_reads w; trace := trace w |}.




Definition plain_article (t u : string) : article :=
  {| title := py t; url := py u; published_date := noon; source := "Argaam";
     language := "en"; content := py t; title_en := None; content_en := None;
     sentiment := None; symbols := None; processed_at := None;
     error := None |}.

Definition stored_before : article :=
  plain_article "Aramco results" "https://www.argaam.com/a/1".

Definition new_article : article :=
  plain_article "Sabic outlook" "https://www.argaam.com/a/2".

(** The same url under another title. *)
Definition new_article_again : article :=
  plain_article "Sabic outlook (update)" "https://www.argaam.com/a/2".

Definition third_article : article :=
  plain_article "STC dividend" "https://www.argaam.com/a/3".

(** A database whose fourth operation fails. *)
Definition flaky_db : environment :=
  {| unicode := unicode offline; strptime := strptime offline;
     clock := clock offline; str_exn := str_exn offline;
     translate := translate offline;
     polarity_scores := polarity_scores offline;
     textblob_sentiment := textblob_sentiment offline;
     requests_get := requests_get offline;
     soup_select := soup_select offline;
     soup_select_one := soup_select_one offline;
     elem_text := elem_text offline; elem_href := elem_href offline;
     page_content := page_content offline;
     mongo_fault := fun n => (n =? 3)%nat |}.

(** [a] may come before [b] in a result: it is not older. *)
Definition not_older (a b : article) : Prop := date_key b <= date_key a.

(** What [get_news_for_symbol] hands back, as a function of the world. *)
Definition retrieved (E : environment) (symbol : text) (days : Z) (limit : nat)
    (w : world) : list article :=
  let end_date := clock E (clock_reads w) in
  match minus_days end_date days with
  | Raise _ => []
  | Return start_date =>
      if mongo_fault E (db_ops w) then []
      else
        limit_to limit
          (sort_desc date_key
             (List.filter (matches_query symbol start_date (to_micros end_date))
                (news_collection w)))
  end.

(** The number behind a score, and the arithmetic mean. *)
Definition value (v : pyval) : Q :=
  match as_number v with Return q => q | Raise _ => 0%Q end.

Definition total (l : list Q) : Q := fold_right Qplus 0%Q l.

Definition mean (l : list Q) : Q :=
  (total l / inject_Z (Z.of_nat (length l)))%Q.

Definition numeric (v : pyval) : Prop := exists q, as_number v = Return q.

Definition score_keys : list string :=
  ["compound"; "positive"; "negative"; "neutral"]%string.

(** The stored articles of a symbol that lie within the window of a call. *)
Definition in_window (E : environment) (symbol : text) (days : Z) (w : world)
  : list article :=
  let end_date := clock E (clock_reads w) in
  match minus_days end_date days with
  | Raise _ => []
  | Return start_date =>
      List.filter (matches_query symbol start_date (to_micros end_date))
        (news_collection w)
  end.

Definition day_of_may (d : Z) : datetime :=
  {| year := 2024; month := 5; day := d;
     hour := 9; minute := 30; second := 0; microsecond := 0 |}.

Definition scored_article (u : string) (d : Z) (compound pos neg neu : Q)
  : article :=
  {| title := py "Aramco"; url := py u; published_date := day_of_may d;
     source := "Argaam"; language := "en"; content := py "2222.SR";
     title_en := Some (PStr (py "Aramco"));
     content_en := Some (PStr (py "2222.SR"));
     sentiment :=
       Some {[ "compound" := PFloat compound; "positive" := PFloat pos;
               "negative" := PFloat neg; "neutral" := PFloat neu ]};
     symbols := Some [py "2222.SR"]; processed_at := Some noon;
     error := None |}.

(** Three articles of the last week about 2222.SR, and an older one. *)
Definition tuesday_article : article :=
  scored_article "https://www.argaam.com/a/11" 14
    (2 # 10) (3 # 10) (1 # 10) (6 # 10).

Definition thursday_article : article :=
  scored_article "https://www.argaam.com/a/12" 16
    (- (4 # 10)) (1 # 10) (5 # 10) (4 # 10).

Definition wednesday_article : article :=
  scored_article "https://www.argaam.com/a/13" 15
    (6 # 10) (5 # 10) 0 (5 # 10).

Definition old_article : article :=
  scored_article "https://www.argaam.com/a/10" 2
    (- (9 # 10)) 0 (9 # 10) (1 # 10).

Definition week : list article :=
  [tuesday_article; thursday_article; wednesday_article; old_article].




(** A network that fails once, then answers; a translation service that
    echoes its input. *)
Definition recovering : environment :=
  {| unicode := ascii_only;
     strptime := strptime_en ascii_only;
     clock := fun _ => noon;
     str_exn := fun _ => py "error";
     translate := fun _ chunk _ _ => Return chunk;
     polarity_scores := fun _ => Return (0, 0, 0, 1)%Q;
     textblob_sentiment := fun _ => Return (0, 0)%Q;
     requests_get :=
       fun n _ => if (n =? 0)%nat then ConnectionFailed
                  else Response 200 (py "<html>");
     soup_select :=
       fun _ selector =>
         if String.eqb selector "div.article-item" then [py "<item>"] else [];
     soup_select_one :=
       fun _ selector =>
         if String.eqb selector "h2.article-title a"
         then Some (py " Market update ")
         else if String.eqb selector "span.article-date"
              then Some (py "5 March 2024")
              else None;
     elem_text := fun t => t;
     elem_href := fun _ => Some (py "/news/1");
     page_content := fun _ => Return (py "Body text");
     mongo_fault := fun _ => false |}.

(** A stored document whose compound score is not a number. *)
Definition odd_article : article :=
  {| title := py "Aramco"; url := py "https://www.argaam.com/a/14";
     published_date := day_of_may 16; source := "Argaam"; language := "en";
     content := py "2222.SR"; title_en := None; content_en := None;
     sentiment := Some {[ "compound" := PStr (py "n/a") ]};
     symbols := Some [py "2222.SR"]; processed_at := None; error := None |}.

(** An entry of the dictionary a call returns. *)
Definition field (key : string) (run : outcome (gmap string pyval) * world)
  : option pyval :=
  match fst run with
  | Return summary => summary !! key
  | Raise _ => None
  end.

(** The next character, if any, is not a digit. *)
Definition no_digit_ahead (U : unicode_db) (s : text) : Prop :=
  match s with
  | [] => True
  | c :: _ => isdigit U c = false
  end.

Definition is_separator (c : N) : Prop := c = 47%N \/ c = 45%N.

(** A day, a month and a year between separators, after text without
    digits; the year is not followed by a digit it could still take. *)
Definition date_shape (U : unicode_db) (pre dd mm yy post : text)
    (sep1 sep2 : N) : Prop :=
  forallb (fun c => negb (isdigit U c)) pre = true /\
  forallb (isdigit U) dd = true /\ (length dd = 1 \/ length dd = 2)%nat /\
  is_separator sep1 /\
  forallb (isdigit U) mm = true /\ (length mm = 1 \/ length mm = 2)%nat /\
  is_separator sep2 /\
  forallb (isdigit U) yy = true /\ (2 <= length yy <= 4)%nat /\
  (length yy = 4%nat \/ no_digit_ahead U post).

(** ** Further vocabulary *)

(** Slices of at most [c] characters, as [chunks_of] cuts them. *)
Definition chunks_by (c : nat) (s : text) : list text :=
  (fun i => take c (drop i s)) <$> range_step (length s) c.

(** The answer of the first of three calls that succeeds and the pauses
    made before it; the original text after three failures. *)
Definition after_retries (s : text) (r0 r1 r2 : outcome text)
  : text * list Z :=
  match r0 with
  | Return t => (t, [])
  | Raise _ =>
      match r1 with
      | Return t => (t, [2])
      | Raise _ =>
          match r2 with
          | Return t => (t, [2; 4])
          | Raise _ => (s, [2; 4])
          end
      end
  end.

(** A translation service that fails on its first call only. *)
Definition slow_start : environment :=
  {| unicode := unicode offline; strptime := strptime offline;
     clock := clock offline; str_exn := str_exn offline;
     translate :=
       fun n _ _ _ =>
         if (n =? 0)%nat then Raise OtherException else Return (py "Results");
     polarity_scores := polarity_scores offline;
     textblob_sentiment := textblob_sentiment offline;
     requests_get := requests_get offline;
     soup_select := soup_select offline;
     soup_select_one := soup_select_one offline;
     elem_text := elem_text offline; elem_href := elem_href offline;
     page_content := page_content offline;
     mongo_fault := mongo_fault offline |}.

(** A call leaves a part of the world as it found it. *)
Definition untouched {X A} (part : world -> X) (m : M A) : Prop :=
  forall w, part (snd (m w)) = part w.

(** The four scores read by [get_sentiment_summary] are numbers. *)
Definition well_scored (a : article) : Prop :=
  forall key, In key score_keys -> numeric (score key a).

(** What the fetch gives every article it returns. *)
Definition fetched_from (src : news_source) (a : article) : Prop :=
  source a = src_name src /\ language a = src_language src /\
  (url a = [] \/ startswith (url a) (py "http") = true) /\
  title_en a = None /\ content_en a = None /\ sentiment a = None /\
  symbols a = None /\ processed_at a = None /\ error a = None.

(** A database that fails every operation. *)
Definition db_down : environment :=
  {| unicode := unicode offline; strptime := strptime offline;
     clock := clock offline; str_exn := str_exn offline;
     translate := translate offline;
     polarity_scores := polarity_scores offline;
     textblob_sentiment := textblob_sentiment offline;
     requests_get := requests_get offline;
     soup_select := soup_select offline;
     soup_select_one := soup_select_one offline;
     elem_text := elem_text offline; elem_href := elem_href offline;
     page_content := page_content offline;
     mongo_fault := fun _ => true |}.

(** ** collect_and_analyze_news *)

(** The sources configured by [__init__], in its order. *)
Definition argaam : news_source :=
  {| src_name := "Argaam";
     src_url := py "https://www.argaam.com/en/company/companies-prices";
     src_language := "en"; src_type := "financial" |}.

Definition saudi_exchange : news_source :=
  {| src_name := "Saudi Exchange";
     src_url :=
       py "https://www.saudiexchange.sa/wps/portal/tadawul/market-participants/news";
     src_language := "en"; src_type := "exchange" |}.

Definition arab_news : news_source :=
  {| src_name := "Arab News";
     src_url := py "https://www.arabnews.com/tags/saudi-stock-exchange";
     src_language := "en"; src_type := "general" |}.

Definition cnbc_arabia : news_source :=
  {| src_name := "CNBC Arabia";
     src_url := py "https://www.cnbcarabia.com/market/saudi";
     src_language := "ar"; src_type := "financial" |}.

Definition news_sources : list news_source :=
  [argaam; saudi_exchange; arab_news; cnbc_arabia; aleqtisadiah].

(** The [results] dictionary. *)
Record results : Type := {
  total_articles : Z;
  processed_articles : Z;
  stored_articles : Z;
  sources : gmap string Z;
  errors : list text
}.

Definition no_results : results :=
  {| total_articles := 0; processed_articles := 0; stored_articles := 0;
     sources := ∅; errors := [] |}.

Definition set_source (name : string) (n : Z) (r : results) : results :=
  {| total_articles := total_articles r;
     processed_articles := processed_articles r;
     stored_articles := stored_articles r;
     sources := <[name := n]> (sources r); errors := errors r |}.

Definition add_total (n : Z) (r : results) : results :=
  {| total_articles := total_articles r + n;
     processed_articles := processed_articles r;
     stored_articles := stored_articles r;
     sources := sources r; errors := errors r |}.

Definition add_processed (n : Z) (r : results) : results :=
  {| total_articles := total_articles r;
     processed_articles := processed_articles r + n;
     stored_articles := stored_articles r;
     sources := sources r; errors := errors r |}.

Definition set_stored (n : Z) (r : results) : results :=
  {| total_articles := total_articles r;
     processed_articles := processed_articles r;
     stored_articles := n;
     sources := sources r; errors := errors r |}.

Definition append_error (error_msg : text) (r : results) : results :=
  {| total_articles := total_articles r;
     processed_articles := processed_articles r;
     stored_articles := stored_articles r;
     sources := sources r; errors := errors r ++ [error_msg] |}.

(** The dictionary is updated in place and is returned by the handlers
    too: it is a second piece of state, which an exception leaves as it
    is. *)
Definition J (A : Type) : Type := results -> world -> outcome A * results * world.

Definition jret {A} (a : A) : J A := fun r w => (Return a, r, w).

Definition jbind {A B} (m : J A) (k : A -> J B) : J B :=
  fun r w =>
    match m r w with
    | (Return a, r', w') => k a r' w'
    | (Raise e, r', w') => (Raise e, r', w')
    end.

Definition call {A} (m : M A) : J A :=
  fun r w => let (out, w') := m w in (out, r, w').

Definition update (f : results -> results) : J unit :=
  fun r w => (Return tt, f r, w).

Definition the_results : J results := fun r w => (Return r, r, w).

Definition jtry {A} (m : J A) (catches : exn -> bool) (handler : exn -> J A)
  : J A :=
  fun r w =>
    match m r w with
    | (Raise e, r', w') => if catches e then handler e r' w' else (Raise e, r', w')
    | done => done
    end.

Declare Scope job_scope.
Delimit Scope job_scope with job.
Notation "x <- m ;; k" := (jbind m (fun x => k))
  (at level 100, m at next level, right associativity) : job_scope.
Notation "m ;; k" := (jbind m (fun _ => k))
  (at level 100, right associativity) : job_scope.

Section Collector.
Variable E : environment.
Local Open Scope job_scope.

(** One turn of the loop over the sources; what it returns is what
    [all_articles.extend] adds.  [len(None)] raises [TypeError]. *)
Definition collect_source (src : news_source) : J (list article) :=
  jtry
    (call (log INFO "Collecting news from {}" (py (src_name src))) ;;
     fetched <- call (fetch_news_from_source E src) ;;
     match fetched with
     | None => call (lift (Raise TypeError))
     | Some articles =>
         update (set_source (src_name src) (Z.of_nat (length articles))) ;;
         update (add_total (Z.of_nat (length articles))) ;;
         jret articles
     end)
    except_Exception
    (fun e =>
       let error_msg :=
         py "Error collecting news from " ++ py (src_name src) ++ py ": "
         ++ str_exn E e in
       call (log ERROR "{}" error_msg) ;;
       update (append_error error_msg) ;;
       jret []).

Fixpoint collect_loop (srcs : list news_source) (all_articles : list article)
  : J (list article) :=
  match srcs with
  | [] => jret all_articles
  | src :: rest =>
      articles <- collect_source src ;;
      collect_loop rest (all_articles ++ articles)
  end.

(** One turn of the loop over the articles; what it returns is what
    [processed_articles.append] adds. *)
Definition process_one (a : article) : J (list article) :=
  jtry
    (processed_article <- call (process_news_article E a) ;;
     update (add_processed 1) ;;
     jret [processed_article])
    except_Exception
    (fun e =>
       let error_msg :=
         py "Error processing article " ++ title a ++ py ": " ++ str_exn E e in
       call (log ERROR "{}" error_msg) ;;
       update (append_error error_msg) ;;
       jret []).

Fixpoint process_loop (all_articles processed_articles : list article)
  : J (list article) :=
  match all_articles with
  | [] => jret processed_articles
  | a :: rest =>
      processed <- process_one a ;;
      process_loop rest (processed_articles ++ processed)
  end.

Definition collect_job : J results :=
  jtry
    (all_articles <- collect_loop news_sources [] ;;
     processed_articles <- process_loop all_articles [] ;;
     stored_count <- call (store_news_in_db E processed_articles) ;;
     update (set_stored stored_count) ;;
     call (log INFO "News collection and analysis completed: {}" []) ;;
     the_results)
    except_Exception
    (fun e =>
       let error_msg :=
         py "Error in news collection and analysis: " ++ str_exn E e in
       call (log ERROR "{}" error_msg) ;;
       update (append_error error_msg) ;;
       the_results).

Definition collect_and_analyze_news : M results :=
  fun w =>
    let '(out, _, w') := collect_job no_results w in (out, w').
End Collector.

(** The number of articles a run reports for a source. *)
Definition count_of (r : results) (src : news_source) : Z :=
  default 0 (sources r !! src_name src).

(** * Properties *)

(** ** Translator *)

Lemma chunks_of_cons (s : text) :
  s <> [] -> exists rest, chunks_of s = take 4999 s :: rest.
Proof.
  intros Hs. unfold chunks_of, range_step.
  assert (Hn : (1 <= (length s + 4999 - 1) / 4999)%nat).
  { apply Nat.div_le_lower_bound; [lia|].
    destruct s; [congruence|]. cbn [length]. lia. }
  destruct ((length s + 4999 - 1) / 4999)%nat as [|k] eqn:Hk; [lia|].
  cbn [seq fmap list_fmap]. rewrite Nat.mul_0_l. cbn [drop].
  eexists. reflexivity.
Qed.

Lemma blank_false_nonempty (U : unicode_db) (s : text) :
  blank U s = false -> s <> [].
Proof. intros H ->. discriminate. Qed.

Lemma translate_once_down (E : environment) (s : text) (src dest : string)
    (w : world) :
  translation_down E -> blank (unicode E) s = false ->
  exists e,
    translate_once E s src dest w = (Raise e, after_translate w (first_chunk s)).
Proof.
  intros Hdown Hblank. unfold translate_once, first_chunk. rewrite Hblank.
  destruct (length s <? 5000)%nat.
  - unfold translator_translate.
    destruct (Hdown (translate_calls w) s src dest) as [e ->]. eauto.
  - destruct (chunks_of_cons s (blank_false_nonempty _ _ Hblank)) as [rest ->].
    cbn [translate_chunks]. unfold bind at 1 2. unfold translator_translate.
    destruct (Hdown (translate_calls w) (take 4999 s) src dest) as [e ->]. eauto.
Qed.

Lemma translate_loop_total (E : environment) (s : text) (src dest : string) :
  forall (attempts : list Z) (retry_delay : Z) (w : world),
    attempts <> [] -> last attempts = Some 2 ->
    exists t w', translate_loop E attempts retry_delay s src dest w
                 = (Return (Some t), w').
Proof.
  induction attempts as [|attempt rest IH]; intros retry_delay w Hne Hlast;
    [congruence|].
  cbn [translate_loop].
  destruct (translate_once E s src dest w) as [[t|e] w1]; [eauto|].
  unfold bind at 1. unfold log at 1, emit at 1.
  destruct (attempt <? max_retries - 1) eqn:Hlt.
  - destruct rest as [|a2 rest'].
    + cbn in Hlast. injection Hlast as ->. discriminate.
    + unfold bind at 1. unfold log at 1, emit at 1.
      unfold bind at 1. unfold sleep at 1, emit at 1.
      apply IH; [congruence|]. exact Hlast.
  - unfold bind at 1. unfold log at 1, emit at 1. unfold ret. eauto.
Qed.

Lemma omap_app {A B} (f : A -> option B) (l1 l2 : list A) :
  omap f (l1 ++ l2) = omap f l1 ++ omap f l2.
Proof.
  induction l1 as [|x l1 IH]; [reflexivity|].
  cbn. destruct (f x); cbn; rewrite IH; reflexivity.
Qed.

Lemma run_emit {A} (e : event) (k : unit -> M A) (w : world) :
  bind (emit e) k w = k tt (add_events w [e]).
Proof. reflexivity. Qed.

Lemma run_log {A} l m a (k : unit -> M A) (w : world) :
  bind (log l m a) k w = k tt (add_events w [Log l m a]).
Proof. reflexivity. Qed.

Lemma run_sleep {A} n (k : unit -> M A) (w : world) :
  bind (sleep n) k w = k tt (add_events w [Sleep n]).
Proof. reflexivity. Qed.

Lemma trace_add_events w es : trace (add_events w es) = trace w ++ es.
Proof. reflexivity. Qed.

Lemma trace_after_translate w c :
  trace (after_translate w c) = trace w ++ [Translate c].
Proof. reflexivity. Qed.

Lemma collection_add_events w es :
  news_collection (add_events w es) = news_collection w.
Proof. reflexivity. Qed.

Lemma collection_after_translate w c :
  news_collection (after_translate w c) = news_collection w.
Proof. reflexivity. Qed.

Create Rewrite HintDb world.
#[local] Hint Rewrite trace_add_events trace_after_translate
  collection_add_events collection_after_translate @omap_app : world.

Lemma translate_text_down (E : environment) (s : text) (src dest : string)
    (w : world) :
  translation_down E -> blank (unicode E) s = false ->
  exists w',
    translate_text E s src dest w = (Return (Some s), w') /\
    translations (trace w')
      = translations (trace w) ++ [first_chunk s; first_chunk s; first_chunk s] /\
    sleeps (trace w') = sleeps (trace w) ++ [2; 4] /\
    news_collection w' = news_collection w.
Proof.
  intros Hdown Hblank. unfold translate_text. cbn [translate_loop].
  destruct (translate_once_down E s src dest w Hdown Hblank) as [e1 ->].
  rewrite run_log.
  change (0 <? max_retries - 1) with true. cbv iota.
  rewrite run_log, run_sleep.
  match goal with |- context [translate_once E s src dest ?w1] =>
    destruct (translate_once_down E s src dest w1 Hdown Hblank) as [e2 ->] end.
  rewrite run_log.
  change (1 <? max_retries - 1) with true. cbv iota.
  rewrite run_log, run_sleep.
  match goal with |- context [translate_once E s src dest ?w1] =>
    destruct (translate_once_down E s src dest w1 Hdown Hblank) as [e3 ->] end.
  rewrite run_log.
  change (2 <? max_retries - 1) with false. cbv iota.
  rewrite run_log. unfold ret.
  eexists. split; [reflexivity|].
  unfold translations, sleeps.
  autorewrite with world. cbn [omap list_omap].
  rewrite !app_nil_r, <- !app_assoc. auto.
Qed.

Lemma process_arabic_down (E : environment) (a : article) (w : world) :
  language a = "ar"%string -> translation_down E ->
  blank (unicode E) (content a) = false ->
  exists a' w',
    process_news_article E a w = (Return a', w') /\
    content_en a' = Some (PStr (content a)) /\
    content a' = content a.
Proof.
  intros Hlang Hdown Hblank. unfold process_news_article. rewrite Hlang.
  change (String.eqb "ar" "ar") with true. cbv iota.
  rewrite run_log.
  unfold bind at 1.
  destruct (translate_loop_total E (title a) "ar" "en" [0; 1; 2] 2
              (add_events w [Log INFO "Translating article: " (title a)]))
    as (t & w1 & Ht); [congruence | reflexivity |].
  unfold translate_text at 1. rewrite Ht.
  unfold bind at 1.
  destruct (translate_text_down E (content a) "ar" "en" w1 Hdown Hblank)
    as (w2 & Hc & _).
  rewrite Hc. unfold ret at 1. cbn [opt_str concat_with_space].
  rewrite run_log. unfold bind at 1.
  unfold analyze_sentiment.
  destruct (analyze_sentiment_try E _) as [scores|e].
  - unfold ret at 1. unfold bind at 1, datetime_now at 1, ret.
    do 2 eexists. split; [reflexivity|]. split; reflexivity.
  - rewrite run_log. unfold ret at 1. unfold bind at 1, datetime_now at 1, ret.
    do 2 eexists. split; [reflexivity|]. split; reflexivity.
Qed.

(** C6. [translate_text] never raises and never returns [None]; blank
    input gives the empty string without calling the service; when every
    call of the service fails, three attempts are made (pauses of 2 and 4
    seconds) and the original text comes back, so that the [content_en] of
    an Arabic article with some content is its [content]. *)
Theorem translate_text_fallback (E : environment) (s : text)
    (src dest : string) (a : article) (w : world) :
  (exists t w', translate_text E s src dest w = (Return (Some t), w')) /\
  (blank (unicode E) s = true ->
   translate_text E s src dest w = (Return (Some []), w)) /\
  (blank (unicode E) s = false -> translation_down E ->
   exists w',
     translate_text E s src dest w = (Return (Some s), w') /\
     length (translations (trace w')) = (length (translations (trace w)) + 3)%nat /\
     sleeps (trace w') = sleeps (trace w) ++ [2; 4]) /\
  (language a = "ar"%string -> content a = s ->
   blank (unicode E) s = false -> translation_down E ->
   exists a' w',
     process_news_article E a w = (Return a', w') /\
     content_en a' = Some (PStr (content a'))).
Proof.
  split; [|split; [|split]].
  - apply translate_loop_total; [congruence | reflexivity].
  - intros Hblank. unfold translate_text. cbn [translate_loop].
    unfold translate_once. rewrite Hblank. reflexivity.
  - intros Hblank Hdown.
    destruct (translate_text_down E s src dest w Hdown Hblank)
      as (w' & Hrun & Htr & Hsl & _).
    exists w'. split; [exact Hrun|]. split; [|exact Hsl].
    rewrite Htr, length_app. reflexivity.
  - intros Hlang <- Hblank Hdown.
    destruct (process_arabic_down E a w Hlang Hdown Hblank)
      as (a' & w' & Hrun & Hen & Hc).
    exists a', w'. split; [exact Hrun|]. rewrite Hc. exact Hen.
Qed.

Lemma offline_translation_down : translation_down offline.
Proof. intros n chunk src dest. exists OtherException. reflexivity. Qed.

Lemma translate_text_fallback_witness :
  exists a' w',
    process_news_article offline arabic_article (fresh []) = (Return a', w') /\
    content_en a' = Some (PStr (content a')).
Proof.
  destruct (translate_text_fallback offline arabic_sample "ar" "en"
              arabic_article (fresh [])) as (_ & _ & _ & H).
  apply H.
  - reflexivity.
  - reflexivity.
  - reflexivity.
  - exact offline_translation_down.
Defined.

(** ** SourceFetcher *)

Lemma trace_after_request w u :
  trace (after_request w u) = trace w ++ [HttpGet u].
Proof. reflexivity. Qed.

Lemma http_calls_after_request w u :
  http_calls (after_request w u) = S (http_calls w).
Proof. reflexivity. Qed.

Lemma http_calls_add_events w es :
  http_calls (add_events w es) = http_calls w.
Proof. reflexivity. Qed.

#[local] Hint Rewrite trace_after_request http_calls_after_request
  http_calls_add_events : world.

Lemma http_get_down (E : environment) (src : news_source) (w : world) :
  source_down E src ->
  http_get E (src_url src) w
  = (Raise RequestException, after_request w (src_url src)).
Proof.
  intros Hdown. unfold http_get. specialize (Hdown (http_calls w)).
  destruct (requests_get E (http_calls w) (src_url src)) as [|code body];
    [reflexivity|].
  cbn [request_fails] in Hdown. rewrite Hdown. reflexivity.
Qed.

Lemma fetch_once_down (E : environment) (src : news_source) (w : world) :
  source_down E src ->
  fetch_once E src w
  = (Raise RequestException,
     after_request
       (add_events w [Log INFO "Fetching news from {}" (py (src_name src))])
       (src_url src)).
Proof.
  intros Hdown. unfold fetch_once. rewrite run_log.
  unfold bind at 1. rewrite (http_get_down E src _ Hdown). reflexivity.
Qed.

(** C7. When every request to a source fails (no answer, or an error
    status), [fetch_news_from_source] makes exactly three requests, pauses
    2 and then 4 seconds between them, and returns the empty list: it does
    not raise. *)
Theorem fetch_retry_bound (E : environment) (src : news_source) (w : world) :
  source_down E src ->
  exists w',
    fetch_news_from_source E src w = (Return (Some []), w') /\
    requests (trace w')
      = requests (trace w) ++ [src_url src; src_url src; src_url src] /\
    http_calls w' = (http_calls w + 3)%nat /\
    sleeps (trace w') = sleeps (trace w) ++ [2; 4].
Proof.
  intros Hdown. unfold fetch_news_from_source. cbn [fetch_loop].
  rewrite (fetch_once_down E src w Hdown).
  cbn [except_RequestException]. rewrite run_log.
  change (0 <? max_retries - 1) with true. cbv iota.
  rewrite run_log, run_sleep.
  rewrite (fetch_once_down E src _ Hdown).
  cbn [except_RequestException]. rewrite run_log.
  change (1 <? max_retries - 1) with true. cbv iota.
  rewrite run_log, run_sleep.
  rewrite (fetch_once_down E src _ Hdown).
  cbn [except_RequestException]. rewrite run_log.
  change (2 <? max_retries - 1) with false. cbv iota.
  rewrite run_log. unfold ret.
  eexists. split; [reflexivity|].
  unfold requests, sleeps. autorewrite with world. cbn [omap list_omap].
  rewrite !app_nil_r, <- !app_assoc.
  split; [reflexivity|]. split; [lia|reflexivity].
Qed.

Lemma fetch_retry_bound_witness :
  exists w',
    fetch_news_from_source offline aleqtisadiah (fresh []) = (Return (Some []), w') /\
    length (requests (trace w')) = 3%nat /\
    sleeps (trace w') = [2; 4].
Proof.
  destruct (fetch_retry_bound offline aleqtisadiah (fresh []))
    as (w' & Hrun & Hreq & _ & Hsl).
  - intros n. reflexivity.
  - exists w'. split; [exact Hrun|]. rewrite Hreq, Hsl. split; reflexivity.
Defined.

(** ** SentimentScorer *)

(** C3. On blank text [analyze_sentiment] returns the four neutral scores
    and nothing else: the dictionary has no [polarity] and no
    [subjectivity] entry. *)
Theorem analyze_sentiment_blank (E : environment) (s : text) (w : world) :
  blank (unicode E) s = true ->
  exists scores,
    analyze_sentiment E s w = (Return scores, w) /\
    scores !! "compound" = Some (PFloat 0) /\
    scores !! "positive" = Some (PFloat 0) /\
    scores !! "negative" = Some (PFloat 0) /\
    scores !! "neutral" = Some (PFloat 1) /\
    scores !! "polarity" = None /\
    scores !! "subjectivity" = None /\
    size scores = 4%nat.
Proof.
  intros Hblank. exists neutral_scores.
  unfold analyze_sentiment, analyze_sentiment_try. rewrite Hblank.
  split; [reflexivity|]. repeat split; vm_compute; reflexivity.
Qed.

Lemma analyze_sentiment_blank_witness :
  exists scores,
    analyze_sentiment offline (py "  ") (fresh []) = (Return scores, fresh []) /\
    scores !! "polarity" = None /\ scores !! "subjectivity" = None.
Proof.
  destruct (analyze_sentiment_blank offline (py "  ") (fresh []))
    as (scores & Hrun & _ & _ & _ & _ & Hp & Hs & _).
  - reflexivity.
  - exists scores. auto.
Defined.

(** The other default of the same function, taken when a scorer raises,
    does give both entries the value zero. *)
Lemma analyze_sentiment_scorer_raises (E : environment) (s : text) (w : world)
    (e : exn) :
  blank (unicode E) s = false -> polarity_scores E s = Raise e ->
  exists scores w',
    analyze_sentiment E s w = (Return scores, w') /\
    scores !! "neutral" = Some (PFloat 1) /\
    scores !! "polarity" = Some (PFloat 0) /\
    scores !! "subjectivity" = Some (PFloat 0).
Proof.
  intros Hblank Hraise.
  unfold analyze_sentiment, analyze_sentiment_try. rewrite Hblank, Hraise.
  rewrite run_log. unfold ret. do 2 eexists. split; [reflexivity|].
  repeat split; vm_compute; reflexivity.
Qed.

(** ** DateNormalizer *)

Lemma datetime_new_valid (y m d : Z) (v : datetime) :
  datetime_new y m d = Return v -> valid_datetime v = true.
Proof.
  unfold datetime_new. intros H.
  destruct (valid_datetime _) eqn:Hv; [|discriminate].
  injection H as <-. exact Hv.
Qed.

Lemma try_formats_found (E : environment) (s : text) (formats : list string)
    (d : datetime) :
  try_formats E s formats = Return (Some d) ->
  exists f, In f formats /\ strptime E s f = Return d.
Proof.
  induction formats as [|f rest IH]; cbn [try_formats]; [discriminate|].
  destruct (strptime E s f) as [d'|e] eqn:Hf.
  - intros H. injection H as <-. exists f. split; [left; reflexivity|exact Hf].
  - destruct (except_ValueError e); [|discriminate].
    intros H. destruct (IH H) as (f' & Hin & Hf').
    exists f'. split; [right; exact Hin|exact Hf'].
Qed.

Lemma try_formats_first (E : environment) (s : text)
    (before after : list string) (f : string) (d : datetime) :
  (forall f', In f' before -> strptime E s f' = Raise ValueError) ->
  strptime E s f = Return d ->
  try_formats E s (before ++ f :: after) = Return (Some d).
Proof.
  induction before as [|b before IH]; intros Hbefore Hf; cbn [app try_formats].
  - rewrite Hf. reflexivity.
  - rewrite (Hbefore b (or_introl eq_refl)). cbn [except_ValueError].
    apply IH; [|exact Hf]. intros f' Hin. apply Hbefore. right. exact Hin.
Qed.

Lemma try_formats_none (E : environment) (s : text) (formats : list string) :
  (forall f, In f formats -> strptime E s f = Raise ValueError) ->
  try_formats E s formats = Return None.
Proof.
  induction formats as [|f rest IH]; intros Hall; cbn [try_formats];
    [reflexivity|].
  rewrite (Hall f (or_introl eq_refl)). cbn [except_ValueError].
  apply IH. intros f' Hin. apply Hall. right. exact Hin.
Qed.

Lemma regex_fallback_valid (E : environment) (now : datetime) (s : text) :
  valid_datetime now = true -> valid_datetime (regex_fallback E now s) = true.
Proof.
  intros Hnow. unfold regex_fallback.
  destruct (re_search (date_pattern E) s) as [[|dd [|mm [|yy [|]]]]|]; try exact Hnow.
  destruct (datetime_new _ _ _) eqn:Hnew; [|exact Hnow].
  exact (datetime_new_valid _ _ _ _ Hnew).
Qed.

(** *** The last-resort pattern *)

Lemma one_of_separator (c : N) :
  is_separator c -> existsb (N.eqb c) (py "/-") = true.
Proof. intros [-> | ->]; reflexivity. Qed.

Lemma separator_no_digit (U : unicode_db) (c : N) (rest : text) :
  is_separator c -> no_digit_ahead U (c :: rest).
Proof. intros [-> | ->]; reflexivity. Qed.

Lemma length_minus_1 {A} (a : A) (l : list A) :
  (length (a :: l) - length l = 1)%nat.
Proof. cbn [length]. lia. Qed.

Lemma length_minus_2 {A} (a b : A) (l : list A) :
  (length (a :: b :: l) - length l = 2)%nat.
Proof. cbn [length]. lia. Qed.

Lemma length_minus_3 {A} (a b c : A) (l : list A) :
  (length (a :: b :: c :: l) - length l = 3)%nat.
Proof. cbn [length]. lia. Qed.

Lemma length_minus_4 {A} (a b c d : A) (l : list A) :
  (length (a :: b :: c :: d :: l) - length l = 4)%nat.
Proof. cbn [length]. lia. Qed.

(** The greedy [\d{1,2}] takes the digits in front of it, when what
    follows accepts the rest. *)
Lemma exec_digits_1_2 {A} (E : environment) (ds rest : text)
    (caps : list text) (k : text -> list text -> option A) (x : A) :
  forallb (isdigit (unicode E)) ds = true ->
  (length ds = 1 \/ length ds = 2)%nat ->
  no_digit_ahead (unicode E) rest ->
  k rest (caps ++ [ds]) = Some x ->
  exec (Group (Rep 1 1 (digit E))) (ds ++ rest) caps k = Some x.
Proof.
  intros Hdig Hlen Hnext Hk. unfold digit.
  destruct ds as [|a [|b [|c ds]]]; cbn [length] in Hlen; try lia;
    cbn [forallb] in Hdig.
  - apply andb_prop in Hdig as [Ha _].
    cbn [app exec]. rewrite Ha.
    destruct rest as [|c rest]; cbn [or_else].
    + rewrite length_minus_1. exact Hk.
    + cbn in Hnext. rewrite Hnext. cbn [or_else].
      rewrite length_minus_1. exact Hk.
  - apply andb_prop in Hdig as [Ha Hdig]. apply andb_prop in Hdig as [Hb _].
    cbn [app exec]. rewrite Ha, Hb.
    rewrite length_minus_2.
    change (take 2 (a :: b :: rest)) with [a; b]. rewrite Hk. reflexivity.
Qed.

(** The greedy [\d{2,4}]. *)
Lemma exec_digits_2_4 {A} (E : environment) (ds rest : text)
    (caps : list text) (k : text -> list text -> option A) (x : A) :
  forallb (isdigit (unicode E)) ds = true ->
  (2 <= length ds <= 4)%nat ->
  (length ds = 4%nat \/ no_digit_ahead (unicode E) rest) ->
  k rest (caps ++ [ds]) = Some x ->
  exec (Group (Rep 2 2 (digit E))) (ds ++ rest) caps k = Some x.
Proof.
  intros Hdig Hlen Hnext Hk. unfold digit.
  destruct ds as [|a [|b [|c [|d [|e ds]]]]]; cbn [length] in Hlen, Hnext;
    try lia; cbn [forallb] in Hdig;
    repeat (apply andb_prop in Hdig as [? Hdig]).
  - destruct Hnext as [Hnext|Hnext]; [lia|].
    cbn [app exec]. rewrite H, H0.
    destruct rest as [|c rest]; cbn [or_else].
    + rewrite length_minus_2. exact Hk.
    + cbn in Hnext. rewrite Hnext. cbn [or_else].
      rewrite length_minus_2. exact Hk.
  - destruct Hnext as [Hnext|Hnext]; [lia|].
    cbn [app exec]. rewrite H, H0, H1.
    destruct rest as [|d rest]; cbn [or_else].
    + rewrite length_minus_3.
      change (take 3 [a; b; c]) with [a; b; c]. rewrite Hk. reflexivity.
    + cbn in Hnext. rewrite Hnext. cbn [or_else].
      rewrite length_minus_3.
      change (take 3 (a :: b :: c :: d :: rest)) with [a; b; c].
      rewrite Hk. reflexivity.
  - cbn [app exec]. rewrite H, H0, H1, H2.
    rewrite length_minus_4.
    change (take 4 (a :: b :: c :: d :: rest)) with [a; b; c; d].
    rewrite Hk. reflexivity.
Qed.

Lemma exec_cat {A} (r1 r2 : regex) (s : text) (caps : list text)
    (k : text -> list text -> option A) :
  exec (Cat r1 r2) s caps k
  = exec r1 s caps (fun s1 caps1 => exec r2 s1 caps1 k).
Proof. reflexivity. Qed.

Lemma exec_separator {A} (c : N) (s : text) (caps : list text)
    (k : text -> list text -> option A) :
  is_separator c -> exec (one_of "/-") (c :: s) caps k = k s caps.
Proof.
  intros Hc. unfold one_of. cbn [exec]. rewrite (one_of_separator c Hc).
  reflexivity.
Qed.

Lemma date_pattern_here (E : environment) (dd mm yy post : text)
    (sep1 sep2 : N) :
  date_shape (unicode E) [] dd mm yy post sep1 sep2 ->
  match_at (date_pattern E) (dd ++ sep1 :: mm ++ sep2 :: yy ++ post)
  = Some ([dd; mm; yy], post).
Proof.
  intros (_ & Hdd & Ldd & Hs1 & Hmm & Lmm & Hs2 & Hyy & Lyy & Hpost).
  unfold match_at, date_pattern. rewrite exec_cat.
  apply exec_digits_1_2;
    [exact Hdd | exact Ldd | apply separator_no_digit; exact Hs1 |].
  rewrite exec_cat, (exec_separator _ _ _ _ Hs1), exec_cat.
  apply exec_digits_1_2;
    [exact Hmm | exact Lmm | apply separator_no_digit; exact Hs2 |].
  rewrite exec_cat, (exec_separator _ _ _ _ Hs2).
  apply exec_digits_2_4; [exact Hyy | exact Lyy | exact Hpost |].
  reflexivity.
Qed.

Lemma date_pattern_not_here (E : environment) (c : N) (rest : text) :
  isdigit (unicode E) c = false ->
  match_at (date_pattern E) (c :: rest) = None.
Proof.
  intros Hc. unfold match_at, date_pattern, digit. rewrite exec_cat.
  cbn [exec]. rewrite Hc. reflexivity.
Qed.

Lemma re_search_date (E : environment) (pre dd mm yy post : text)
    (sep1 sep2 : N) :
  date_shape (unicode E) pre dd mm yy post sep1 sep2 ->
  re_search (date_pattern E) (pre ++ dd ++ sep1 :: mm ++ sep2 :: yy ++ post)
  = Some [dd; mm; yy].
Proof.
  intros (Hpre & Hrest). induction pre as [|c pre IH].
  - cbn [app].
    assert (Hhere : date_shape (unicode E) [] dd mm yy post sep1 sep2)
      by (split; [reflexivity|exact Hrest]).
    pose proof (date_pattern_here E dd mm yy post sep1 sep2 Hhere) as Hm.
    destruct (dd ++ sep1 :: mm ++ sep2 :: yy ++ post);
      cbn [re_search]; rewrite Hm; reflexivity.
  - cbn [forallb] in Hpre. apply andb_prop in Hpre as [Hc Hpre].
    apply negb_true_iff in Hc.
    cbn [app re_search]. rewrite (date_pattern_not_here E c _ Hc).
    exact (IH Hpre).
Qed.

Lemma parse_date_cases (E : environment) (now : datetime) (s : text) :
  valid_datetime now = true ->
  (forall t f d, strptime E t f = Return d -> valid_datetime d = true) ->
  exists d,
    _parse_date E now s = Return d /\
    valid_datetime d = true /\
    (blank (unicode E) s = true -> d = now) /\
    length date_formats = 8%nat /\
    (forall before f after d',
       blank (unicode E) s = false ->
       date_formats = before ++ f :: after ->
       (forall f', In f' before ->
                   strptime E (strip (unicode E) s) f' = Raise ValueError) ->
       strptime E (strip (unicode E) s) f = Return d' ->
       d = d') /\
    (blank (unicode E) s = false ->
     (forall f, In f date_formats ->
                strptime E (strip (unicode E) s) f = Raise ValueError) ->
     d = regex_fallback E now s).
Proof.
  intros Hnow Hstrptime.
  unfold _parse_date, parse_date_try.
  destruct (blank (unicode E) s) eqn:Hblank.
  { exists now. repeat split; try reflexivity; try exact Hnow; discriminate. }
  destruct (try_formats E (strip (unicode E) s) date_formats)
    as [[d|]|e] eqn:Htry.
  - exists d. split; [reflexivity|]. split.
    { destruct (try_formats_found _ _ _ _ Htry) as (f & _ & Hf). eauto. }
    split; [discriminate|]. split; [reflexivity|]. split.
    + intros before f after d' _ Hsplit Hbefore Hf.
      rewrite Hsplit in Htry.
      rewrite (try_formats_first E _ before after f d' Hbefore Hf) in Htry.
      congruence.
    + intros _ Hall. rewrite (try_formats_none E _ _ Hall) in Htry. discriminate.
  - exists (regex_fallback E now s). split.
    { unfold regex_fallback.
      destruct (re_search (date_pattern E) s) as [[|dd [|mm [|yy [|]]]]|];
        try reflexivity.
      destruct (datetime_new _ _ _); reflexivity. }
    split; [exact (regex_fallback_valid E now s Hnow)|].
    split; [discriminate|]. split; [reflexivity|]. split; [|reflexivity].
    intros before f after d' _ Hsplit Hbefore Hf.
    rewrite Hsplit in Htry.
    rewrite (try_formats_first E _ before after f d' Hbefore Hf) in Htry.
    discriminate.
  - exists now. split; [reflexivity|]. split; [exact Hnow|].
    split; [discriminate|]. split; [reflexivity|]. split.
    + intros before f after d' _ Hsplit Hbefore Hf.
      rewrite Hsplit in Htry.
      rewrite (try_formats_first E _ before after f d' Hbefore Hf) in Htry.
      discriminate.
    + intros _ Hall. rewrite (try_formats_none E _ _ Hall) in Htry. discriminate.
Qed.

(** C4. [_parse_date] always returns a valid [datetime]: it neither raises
    nor returns [None].  Blank input gives the current time; of the eight
    formats the first that parses decides; when none parses, the pattern
    [(\d{1,2})[/-](\d{1,2})[/-](\d{2,4})] is searched and its groups are read
    as day, month and year, a two-digit year after the prefix 20; whatever
    is left gives the current time. *)
Theorem parse_date_total (E : environment) (now : datetime) (s : text) :
  valid_datetime now = true ->
  (forall t f d, strptime E t f = Return d -> valid_datetime d = true) ->
  exists d,
    _parse_date E now s = Return d /\
    valid_datetime d = true /\
    (blank (unicode E) s = true -> d = now) /\
    length date_formats = 8%nat /\
    (forall before f after d',
       blank (unicode E) s = false ->
       date_formats = before ++ f :: after ->
       (forall f', In f' before ->
                   strptime E (strip (unicode E) s) f' = Raise ValueError) ->
       strptime E (strip (unicode E) s) f = Return d' ->
       d = d') /\
    (blank (unicode E) s = false ->
     (forall f, In f date_formats ->
                strptime E (strip (unicode E) s) f = Raise ValueError) ->
     d = regex_fallback E now s /\
     (re_search (date_pattern E) s = None -> d = now) /\
     forall pre dd mm yy post sep1 sep2,
       s = pre ++ dd ++ sep1 :: mm ++ sep2 :: yy ++ post ->
       date_shape (unicode E) pre dd mm yy post sep1 sep2 ->
       d = match datetime_new
                    (int (unicode E)
                       (if (length yy =? 2)%nat then py "20" ++ yy else yy))
                    (int (unicode E) mm) (int (unicode E) dd) with
           | Return v => v
           | Raise _ => now
           end).
Proof.
  intros Hnow Hstrptime.
  destruct (parse_date_cases E now s Hnow Hstrptime)
    as (d & Hrun & Hvalid & Hblank & Height & Hfirst & Hregex).
  exists d. split; [exact Hrun|]. split; [exact Hvalid|].
  split; [exact Hblank|]. split; [exact Height|]. split; [exact Hfirst|].
  intros Hnb Hall. specialize (Hregex Hnb Hall).
  split; [exact Hregex|]. split.
  - intros Hnone. rewrite Hregex. unfold regex_fallback. rewrite Hnone.
    reflexivity.
  - intros pre dd mm yy post sep1 sep2 -> Hshape.
    rewrite Hregex. unfold regex_fallback.
    rewrite (re_search_date E pre dd mm yy post sep1 sep2 Hshape).
    reflexivity.
Qed.

Lemma strptime_en_valid (U : unicode_db) (t : text) (f : string) (d : datetime) :
  strptime_en U t f = Return d -> valid_datetime d = true.
Proof.
  unfold strptime_en.
  destruct (format_regex U _ _) as [[r ds]|]; [|discriminate].
  destruct (match_at r t) as [[caps [|]]|]; try discriminate.
  destruct (read_fields U ds caps 1900 1 1) as [[[y m] dd]|]; [|discriminate].
  apply datetime_new_valid.
Qed.

Lemma parse_date_total_witness :
  _parse_date offline noon (py "15/06/21")
  = Return {| year := 2021; month := 6; day := 15;
              hour := 0; minute := 0; second := 0; microsecond := 0 |}.
Proof.
  destruct (parse_date_total offline noon (py "15/06/21"))
    as (d & Hrun & _ & _ & _ & _ & Hregex).
  - reflexivity.
  - intros t f d. apply strptime_en_valid.
  - destruct Hregex as (_ & _ & Hshape).
    + reflexivity.
    + intros f Hin. cbn [date_formats In] in Hin.
      repeat (destruct Hin as [<-|Hin]; [vm_compute; reflexivity|]).
      destruct Hin.
    + rewrite Hrun.
      rewrite (Hshape [] (py "15") (py "06") (py "21") [] 47%N 47%N).
      * vm_compute. reflexivity.
      * reflexivity.
      * unfold date_shape, is_separator. cbn. intuition lia.
Defined.

Example parse_date_iso :
  _parse_date offline noon (py " 2024-03-05 ")
  = Return {| year := 2024; month := 3; day := 5;
              hour := 0; minute := 0; second := 0; microsecond := 0 |}.
Proof. vm_compute. reflexivity. Qed.

Example parse_date_month_name :
  _parse_date offline noon (py "Mar 5, 2024")
  = Return {| year := 2024; month := 3; day := 5;
              hour := 0; minute := 0; second := 0; microsecond := 0 |}.
Proof. vm_compute. reflexivity. Qed.

Example parse_date_inside_text :
  _parse_date offline noon (py "Published 5-6-2023 10:00")
  = Return {| year := 2023; month := 6; day := 5;
              hour := 0; minute := 0; second := 0; microsecond := 0 |}.
Proof. vm_compute. reflexivity. Qed.

Example parse_date_impossible_day :
  _parse_date offline noon (py "99/99/2020") = Return noon.
Proof. vm_compute. reflexivity. Qed.

Example parse_date_garbage :
  _parse_date offline noon (py "yesterday, probably") = Return noon.
Proof. vm_compute. reflexivity. Qed.

(** ** SymbolLinker *)

Lemma isdigit_dot U : isdigit U 46 = false.
Proof. reflexivity. Qed.
Lemma isdigit_S U : isdigit U 83 = false.
Proof. reflexivity. Qed.
Lemma isdigit_R U : isdigit U 82 = false.
Proof. reflexivity. Qed.

Lemma symbol_match_at (E : environment) (s : text) :
  match_at (symbol_pattern E) s =
  match s with
  | d1 :: d2 :: d3 :: d4 :: p :: c1 :: c2 :: rest =>
      if isdigit (unicode E) d1 && isdigit (unicode E) d2 &&
         isdigit (unicode E) d3 && isdigit (unicode E) d4 &&
         (46 =? p)%N && (83 =? c1)%N && (82 =? c2)%N
      then Some ([[d1; d2; d3; d4]], rest) else None
  | _ => None
  end.
Proof.
  unfold match_at, symbol_pattern, digit.
  change (lit ".") with (Chr (N.eqb 46)).
  change (lit "S") with (Chr (N.eqb 83)).
  change (lit "R") with (Chr (N.eqb 82)).
  cbn [exec].
  destruct s as [|d1 s]; [reflexivity|].
  destruct (isdigit (unicode E) d1); [|destruct s as [|? [|? [|? [|? [|? [|? ?]]]]]]; reflexivity].
  destruct s as [|d2 s]; [reflexivity|].
  destruct (isdigit (unicode E) d2); [|destruct s as [|? [|? [|? [|? [|? ?]]]]]; reflexivity].
  destruct s as [|d3 s]; [reflexivity|].
  destruct (isdigit (unicode E) d3); [|destruct s as [|? [|? [|? [|? ?]]]]; reflexivity].
  destruct s as [|d4 s]; [reflexivity|].
  destruct (isdigit (unicode E) d4); [|destruct s as [|? [|? [|? ?]]]; reflexivity].
  destruct s as [|p s]; [reflexivity|].
  destruct (46 =? p)%N; [|destruct s as [|? [|? ?]]; reflexivity].
  destruct s as [|c1 s]; [reflexivity|].
  destruct (83 =? c1)%N; [|destruct s as [|? ?]; reflexivity].
  destruct s as [|c2 s]; [reflexivity|].
  destruct (82 =? c2)%N; [|reflexivity].
  cbn [andb app length].
  replace (S (S (S (S (S (S (S (length s))))))) - S (S (S (length s))))%nat
    with 4%nat by lia.
  reflexivity.
Qed.

Lemma symbol_match_here (E : environment) (d rest : text) :
  four_digits (unicode E) d ->
  match_at (symbol_pattern E) (d ++ dot_SR ++ rest) = Some ([d], rest).
Proof.
  intros [Hlen Hdig]. rewrite symbol_match_at.
  destruct d as [|d1 [|d2 [|d3 [|d4 [|]]]]]; try discriminate.
  cbn [forallb] in Hdig. cbn [app dot_SR].
  change (py ".SR") with [46; 83; 82]%N. cbn [app].
  apply andb_prop in Hdig as [-> Hdig]. apply andb_prop in Hdig as [-> Hdig].
  apply andb_prop in Hdig as [-> Hdig]. apply andb_prop in Hdig as [-> _].
  reflexivity.
Qed.

Lemma symbol_match_inv (E : environment) (s : text) (caps : list text)
    (rest : text) :
  match_at (symbol_pattern E) s = Some (caps, rest) ->
  exists d, four_digits (unicode E) d /\ s = d ++ dot_SR ++ rest /\ caps = [d].
Proof.
  rewrite symbol_match_at.
  destruct s as [|d1 [|d2 [|d3 [|d4 [|p [|c1 [|c2 s]]]]]]]; try discriminate.
  destruct (isdigit (unicode E) d1) eqn:H1; [|discriminate].
  destruct (isdigit (unicode E) d2) eqn:H2; [|discriminate].
  destruct (isdigit (unicode E) d3) eqn:H3; [|discriminate].
  destruct (isdigit (unicode E) d4) eqn:H4; [|discriminate].
  destruct (46 =? p)%N eqn:Hp; [|discriminate].
  destruct (83 =? c1)%N eqn:Hc1; [|discriminate].
  destruct (82 =? c2)%N eqn:Hc2; [|discriminate].
  cbn [andb]. intros H. injection H as <- <-.
  apply N.eqb_eq in Hp, Hc1, Hc2. subst p c1 c2.
  exists [d1; d2; d3; d4]. split; [|split; reflexivity].
  split; [reflexivity|]. cbn [forallb]. rewrite H1, H2, H3, H4. reflexivity.
Qed.

(** Two occurrences of the shape cannot overlap: the second one starts
    where the first has a digit, or a dot, or a letter. *)
Lemma symbols_do_not_overlap (U : unicode_db) (u d v e rest : text) :
  four_digits U d -> four_digits U e ->
  u ++ d ++ dot_SR ++ v = e ++ dot_SR ++ rest ->
  u = [] \/ (7 <= length u)%nat.
Proof.
  intros [Hd Hdd] [He Hee] Heq.
  destruct d as [|d1 [|d2 [|d3 [|d4 [|]]]]]; try discriminate.
  destruct e as [|e1 [|e2 [|e3 [|e4 [|]]]]]; try discriminate.
  cbn [forallb] in Hdd.
  apply andb_prop in Hdd as [D1 Hdd]. apply andb_prop in Hdd as [D2 Hdd].
  apply andb_prop in Hdd as [D3 Hdd]. apply andb_prop in Hdd as [D4 _].
  change dot_SR with [46; 83; 82]%N in Heq.
  destruct u as [|u1 [|u2 [|u3 [|u4 [|u5 [|u6 [|u7 u]]]]]]];
    [left; reflexivity | | | | | | | right; cbn [length]; lia];
    exfalso; cbn [app] in Heq; injection Heq as; subst;
    first [ rewrite isdigit_dot in D1 | rewrite isdigit_dot in D2
          | rewrite isdigit_dot in D3 | rewrite isdigit_dot in D4
          | rewrite isdigit_S in D1 | rewrite isdigit_R in D1 ];
    discriminate.
Qed.

(** [re.findall] misses no occurrence of the shape. *)
Lemma findall_symbol_complete (E : environment) (d v : text) :
  four_digits (unicode E) d ->
  forall (u : text) (skip : nat),
    (skip <= length u)%nat ->
    In [d] (findall_from (symbol_pattern E) skip (u ++ d ++ dot_SR ++ v)).
Proof.
  intros Hd. induction u as [|c u IH]; intros skip Hskip.
  - cbn [length] in Hskip. assert (skip = 0%nat) as -> by lia.
    cbn [app]. pose proof (symbol_match_here E d v Hd) as Hm.
    destruct (d ++ dot_SR ++ v) as [|c s] eqn:Hs.
    { destruct Hd as [Hlen _]. destruct d; discriminate. }
    cbn [findall_from]. rewrite Hm. left. reflexivity.
  - destruct skip as [|n].
    + cbn [app findall_from].
      destruct (match_at (symbol_pattern E) (c :: u ++ d ++ dot_SR ++ v))
        as [[caps rest]|] eqn:Hm.
      * right.
        destruct (symbol_match_inv E _ _ _ Hm) as (e & He & Heq & ->).
        destruct (symbols_do_not_overlap (unicode E) (c :: u) d v e rest Hd He Heq)
          as [Hnil|Hlen]; [discriminate|].
        apply IH.
        rewrite Heq. destruct He as [He _].
        rewrite !length_app, He. change (length dot_SR) with 3%nat.
        cbn [length] in Hlen. lia.
      * apply IH. lia.
    + cbn [app findall_from]. apply IH. cbn [length] in Hskip. lia.
Qed.

Lemma re_findall_symbol (E : environment) (u d v : text) :
  four_digits (unicode E) d ->
  In d (re_findall (symbol_pattern E) (u ++ d ++ dot_SR ++ v)).
Proof.
  intros Hd. unfold re_findall.
  apply (in_map (fun caps => nth 0 caps []) _ [d]).
  apply findall_symbol_complete; [exact Hd|lia].
Qed.

(** *** Sorting and duplicates *)

Lemma text_leb_total (a b : text) : text_leb a b = false -> text_leb b a = true.
Proof.
  revert b. induction a as [|x a IH]; intros [|y b]; cbn [text_leb];
    try discriminate; try reflexivity.
  intros H. apply orb_false_elim in H as [Hlt H].
  apply N.ltb_ge in Hlt.
  destruct (x =? y)%N eqn:Hxy.
  - apply N.eqb_eq in Hxy. subst y. cbn [andb] in H.
    rewrite N.eqb_refl, (IH b H). cbn [andb]. apply orb_true_r.
  - apply N.eqb_neq in Hxy.
    assert (Hyx : (y <? x)%N = true) by (apply N.ltb_lt; lia).
    rewrite Hyx. reflexivity.
Qed.

Lemma insert_sorted_perm (x : text) (l : list text) :
  Permutation (insert_sorted x l) (x :: l).
Proof.
  induction l as [|y l IH]; cbn [insert_sorted]; [reflexivity|].
  destruct (text_leb x y); [reflexivity|].
  rewrite IH. apply perm_swap.
Qed.

Lemma sorted_perm (l : list text) : Permutation (sorted l) l.
Proof.
  unfold sorted. induction l as [|x l IH]; cbn [foldr]; [reflexivity|].
  rewrite insert_sorted_perm, IH. reflexivity.
Qed.

Lemma insert_sorted_Sorted (x : text) (l : list text) :
  Sorted text_le l -> Sorted text_le (insert_sorted x l).
Proof.
  induction l as [|y l IH]; intros Hl; cbn [insert_sorted].
  - repeat constructor.
  - destruct (text_leb x y) eqn:Hxy.
    + constructor; [exact Hl|]. constructor. exact Hxy.
    + apply Sorted_inv in Hl as [Hl Hhd].
      constructor; [exact (IH Hl)|].
      destruct l as [|z l]; cbn [insert_sorted].
      * constructor. exact (text_leb_total _ _ Hxy).
      * destruct (text_leb x z).
        -- constructor. exact (text_leb_total _ _ Hxy).
        -- constructor. apply HdRel_inv in Hhd. exact Hhd.
Qed.

Lemma sorted_Sorted (l : list text) : Sorted text_le (sorted l).
Proof.
  unfold sorted. induction l as [|x l IH]; cbn [foldr]; [constructor|].
  apply insert_sorted_Sorted. exact IH.
Qed.

Lemma in_sorted_set (x : text) (l : list text) :
  In x (sorted (list_set l)) <-> In x l.
Proof.
  unfold list_set. split; intros H.
  - apply (Permutation_in _ (sorted_perm _)) in H.
    apply list_elem_of_In. apply list_elem_of_In in H.
    apply (proj1 (elem_of_remove_dups l x)). exact H.
  - apply (Permutation_in _ (Permutation_sym (sorted_perm _))).
    apply list_elem_of_In. apply list_elem_of_In in H.
    apply (proj2 (elem_of_remove_dups l x)). exact H.
Qed.

Lemma nodup_sorted_set (l : list text) : List.NoDup (sorted (list_set l)).
Proof.
  apply (Permutation_NoDup (Permutation_sym (sorted_perm _))).
  apply NoDup_ListNoDup, NoDup_remove_dups.
Qed.

(** *** Letter case and substrings *)

Lemma ascii_lower_ascii (c : N) :
  is_ascii (ascii_lower c) = true -> is_ascii c = true.
Proof.
  unfold is_ascii, ascii_lower.
  destruct ((65 <=? c)%N && (c <=? 90)%N); [|tauto].
  intros H. apply N.ltb_lt in H. apply N.ltb_lt. lia.
Qed.

Lemma lower_from_ascii (U : unicode_db) (w post before : text) :
  forallb is_ascii w = true ->
  lower_from U before (w ++ post)
  = (ascii_lower <$> w) ++ lower_from U (before ++ w) post.
Proof.
  revert before. induction w as [|c w IH]; intros before H.
  - cbn [app fmap list_fmap]. rewrite app_nil_r. reflexivity.
  - cbn [forallb] in H. apply andb_prop in H as [Hc Hw].
    cbn [app lower_from]. rewrite Hc, (IH _ Hw), <- app_assoc. reflexivity.
Qed.

Lemma lower_from_inside (U : unicode_db) (w post : text) :
  forallb is_ascii w = true ->
  forall pre before,
  exists x y,
    lower_from U before (pre ++ w ++ post) = x ++ (ascii_lower <$> w) ++ y.
Proof.
  intros Hw. induction pre as [|c pre IH]; intros before.
  - exists [], (lower_from U (before ++ w) post).
    cbn [app]. apply lower_from_ascii. exact Hw.
  - destruct (IH (before ++ [c])) as (x & y & Heq).
    cbn [app lower_from]. rewrite Heq.
    eexists (_ ++ x), y. rewrite <- app_assoc. reflexivity.
Qed.

Lemma lowered_is_ascii (w needle : text) :
  ascii_lower <$> w = needle -> forallb is_ascii needle = true ->
  forallb is_ascii w = true.
Proof.
  intros <-. induction w as [|c w IH]; [reflexivity|].
  cbn [fmap list_fmap forallb]. intros H. apply andb_prop in H as [Hc Hw].
  rewrite (ascii_lower_ascii c Hc). exact (IH Hw).
Qed.

Lemma startswith_app (n rest : text) : startswith (n ++ rest) n = true.
Proof.
  induction n as [|c n IH]; [destruct rest; reflexivity|].
  cbn [app startswith]. rewrite N.eqb_refl. exact IH.
Qed.

Lemma contains_app (n pre post : text) : contains n (pre ++ n ++ post) = true.
Proof.
  induction pre as [|c pre IH].
  - cbn [app]. destruct (n ++ post) eqn:Hs; cbn [contains];
      rewrite <- Hs, startswith_app; reflexivity.
  - cbn [app contains]. rewrite IH. apply orb_true_r.
Qed.

Lemma lower_contains (U : unicode_db) (needle s : text) :
  forallb is_ascii needle = true -> occurs_any_case needle s ->
  contains needle (lower U s) = true.
Proof.
  intros Hascii (pre & w & post & -> & Hw).
  destruct (lower_from_inside U w post (lowered_is_ascii w needle Hw Hascii)
              pre []) as (x & y & Heq).
  unfold lower. rewrite Heq, Hw. apply contains_app.
Qed.

Lemma aramco_found (tl : text) :
  contains (py "aramco") tl = true -> In (py "2222.SR") (names_found tl).
Proof.
  intros H. unfold names_found.
  apply (in_map snd _ (py "aramco", py "2222.SR")).
  apply filter_In. split; [left; reflexivity|exact H].
Qed.

Lemma in_extract_symbols (E : environment) (s x : text) :
  In x (_extract_stock_symbols E s) <->
  In x ((fun d => d ++ py ".SR") <$> re_findall (symbol_pattern E) s) \/
  In x (names_found (lower (unicode E) s)).
Proof.
  unfold _extract_stock_symbols. rewrite in_sorted_set, in_app_iff. reflexivity.
Qed.

(** C8. The symbols of a text are the tickers found by the pattern, each
    followed by [.SR], together with the tickers of the names found in the
    lower-cased text: without duplicates, in lexicographic order, and
    empty when there is neither.  A text in which [2222.SR] occurs, or
    [aramco] in any letter case, has [2222.SR] among them exactly once. *)
Theorem extract_symbols_union (E : environment) (s : text) :
  let symbols : list text := _extract_stock_symbols E s in
  let tickers : list text :=
    (fun d => d ++ py ".SR") <$> re_findall (symbol_pattern E) s in
  let named : list text := names_found (lower (unicode E) s) in
  (forall x, In x symbols <-> In x tickers \/ In x named) /\
  List.NoDup symbols /\
  Sorted text_le symbols /\
  (tickers = [] -> named = [] -> symbols = []) /\
  (occurs (py "2222.SR") s \/ occurs_any_case (py "aramco") s ->
   count_occ (List.list_eq_dec N.eq_dec) symbols (py "2222.SR") = 1%nat).
Proof.
  intros symbols tickers named.
  assert (Hin : forall x, In x symbols <-> In x tickers \/ In x named)
    by (intros x; apply in_extract_symbols).
  assert (Hnodup : List.NoDup symbols) by apply nodup_sorted_set.
  split; [exact Hin|]. split; [exact Hnodup|].
  split; [apply sorted_Sorted|]. split.
  - intros Ht Hn. unfold symbols, _extract_stock_symbols.
    fold tickers. fold named. rewrite Ht, Hn. reflexivity.
  - intros Hocc. apply NoDup_count_occ'; [exact Hnodup|].
    apply Hin. destruct Hocc as [(pre & post & ->)|Hany].
    + left. unfold tickers.
      apply (in_map (fun d => d ++ py ".SR") _ (py "2222")).
      change (py "2222.SR" ++ post) with (py "2222" ++ dot_SR ++ post).
      apply re_findall_symbol. split; reflexivity.
    + right. apply aramco_found, lower_contains; [reflexivity|exact Hany].
Qed.

Lemma extract_symbols_union_witness :
  count_occ (List.list_eq_dec N.eq_dec)
    (_extract_stock_symbols offline (py "Saudi ARAMCO (2222.SR) gains"))
    (py "2222.SR") = 1%nat.
Proof.
  apply (extract_symbols_union offline (py "Saudi ARAMCO (2222.SR) gains")).
  right. exists (py "Saudi "), (py "ARAMCO"), (py " (2222.SR) gains").
  split; reflexivity.
Defined.

Example extract_symbols_sample :
  _extract_stock_symbols offline
    (py "STC and Sabic rally; 2222.SR flat, Aramco (2222.SR) unchanged")
  = [py "2010.SR"; py "2222.SR"; py "7010.SR"].
Proof. vm_compute. reflexivity. Qed.

Example extract_symbols_none :
  _extract_stock_symbols offline (py "markets closed for the holiday") = [].
Proof. vm_compute. reflexivity. Qed.

Lemma forallb_drop {A} (p : A -> bool) (n : nat) (l : list A) :
  forallb p l = true -> forallb p (drop n l) = true.
Proof.
  intros H. rewrite <- (take_drop n l), forallb_app in H.
  apply andb_prop in H as [_ H]. exact H.
Qed.

(** C10. The pattern does not ask for anything before its four digits:
    when five or more digits run up to [.SR], the last four of them make a
    ticker of the result. *)
Theorem ticker_has_no_left_boundary (E : environment) (pre run post : text) :
  (5 <= length run)%nat ->
  forallb (isdigit (unicode E)) run = true ->
  In (drop (length run - 4) run ++ py ".SR")
     (_extract_stock_symbols E (pre ++ run ++ py ".SR" ++ post)).
Proof.
  intros Hlen Hdigits.
  apply in_extract_symbols. left.
  apply (in_map (fun d => d ++ py ".SR") _ (drop (length run - 4) run)).
  assert (Heq : pre ++ run ++ py ".SR" ++ post
                = (pre ++ take (length run - 4) run)
                    ++ drop (length run - 4) run ++ dot_SR ++ post).
  { rewrite <- (app_assoc pre). f_equal.
    rewrite (app_assoc (take _ run)), take_drop. reflexivity. }
  rewrite Heq. apply re_findall_symbol. split.
  - rewrite length_drop. lia.
  - apply forallb_drop. exact Hdigits.
Qed.

Lemma ticker_has_no_left_boundary_witness :
  In (py "2345.SR") (_extract_stock_symbols offline (py "12345.SR")).
Proof.
  apply (ticker_has_no_left_boundary offline [] (py "12345") []).
  - cbn. lia.
  - reflexivity.
Defined.

Example extract_symbols_five_digits :
  _extract_stock_symbols offline (py "12345.SR") = [py "2345.SR"].
Proof. vm_compute. reflexivity. Qed.

(** ** ArticleStore: the insert path *)

Lemma collection_after_db w stored : news_collection (after_db w stored) = stored.
Proof. reflexivity. Qed.

Lemma trace_after_db w stored : trace (after_db w stored) = trace w.
Proof. reflexivity. Qed.

#[local] Hint Rewrite collection_after_db trace_after_db : world.

Lemma text_eqb_eq (a b : text) : text_eqb a b = true <-> a = b.
Proof.
  revert b. induction a as [|x a IH]; intros [|y b]; cbn [text_eqb];
    try (split; intros; discriminate); [tauto|].
  rewrite andb_true_iff, N.eqb_eq, IH.
  split; [intros [-> ->]; reflexivity|intros H; injection H; auto].
Qed.

Lemma find_url_none (u : text) (stored : list article) :
  List.find (fun doc => text_eqb (url doc) u) stored = None ->
  ~ In u (urls stored).
Proof.
  intros Hnone Hin. unfold urls in Hin. apply in_map_iff in Hin as (doc & <- & Hdoc).
  pose proof (find_none _ _ Hnone doc Hdoc) as Hneq. cbn beta in Hneq.
  rewrite (proj2 (text_eqb_eq _ _) eq_refl) in Hneq. discriminate.
Qed.


Lemma find_one_run (E : environment) (u : text) (w : world) :
  find_one_by_url E u w =
  if mongo_fault E (db_ops w)
  then (Raise PyMongoError, after_db w (news_collection w))
  else (Return (List.find (fun doc => text_eqb (url doc) u) (news_collection w)),
        after_db w (news_collection w)).
Proof. unfold find_one_by_url, mongo. destruct (mongo_fault E _); reflexivity. Qed.

Lemma insert_one_run (E : environment) (doc : article) (w : world) :
  insert_one E doc w =
  if mongo_fault E (db_ops w)
  then (Raise PyMongoError, after_db w (news_collection w))
  else (Return (Some (length (news_collection w))),
        after_db w (news_collection w ++ [doc])).
Proof. unfold insert_one, mongo. destruct (mongo_fault E _); reflexivity. Qed.

Lemma nodup_urls_snoc (stored : list article) (doc : article) :
  List.NoDup (urls stored) -> ~ In (url doc) (urls stored) ->
  List.NoDup (urls (stored ++ [doc])).
Proof.
  intros Hnd Hnew. unfold urls in *. rewrite fmap_app. cbn [fmap list_fmap].
  apply NoDup_ListNoDup, NoDup_app. repeat split.
  - apply NoDup_ListNoDup. exact Hnd.
  - intros x Hx Hx'. apply list_elem_of_In in Hx.
    apply list_elem_of_singleton in Hx'. subst x. exact (Hnew Hx).
  - apply NoDup_singleton.
Qed.

(** Whatever the database does, the loop only appends to the collection,
    and never a url that is already there. *)
Lemma store_loop_invariant (E : environment) (articles : list article) :
  forall (count : Z) (w : world),
    List.NoDup (urls (news_collection w)) ->
    exists added,
      news_collection (snd (store_loop E articles count w))
        = news_collection w ++ added /\
      List.NoDup (urls (news_collection w ++ added)) /\
      incl added articles.
Proof.
  induction articles as [|a rest IH]; intros count w Hnd.
  - exists []. cbn [store_loop ret snd]. rewrite app_nil_r.
    split; [reflexivity|]. split; [exact Hnd|]. intros x [].
  - cbn [store_loop]. unfold bind at 1. rewrite find_one_run.
    destruct (mongo_fault E (db_ops w)).
    { exists []. cbn [snd]. autorewrite with world. rewrite app_nil_r.
      split; [reflexivity|]. split; [exact Hnd|]. intros x []. }
    destruct (List.find _ (news_collection w)) as [doc|] eqn:Hfind.
    + rewrite run_log.
      match goal with |- context [store_loop E rest ?c ?w1] =>
        destruct (IH c w1) as (added & Hcoll & Hnd' & Hincl) end.
      { autorewrite with world. exact Hnd. }
      exists added. rewrite Hcoll. autorewrite with world.
      split; [reflexivity|]. split; [exact Hnd'|].
      intros x Hx. right. exact (Hincl x Hx).
    + unfold bind at 1. rewrite insert_one_run. cbn [db_ops after_db].
      destruct (mongo_fault E (S (db_ops w))).
      { exists []. cbn [snd]. autorewrite with world. rewrite app_nil_r.
        split; [reflexivity|]. split; [exact Hnd|]. intros x []. }
      rewrite run_log.
      match goal with |- context [store_loop E rest ?c ?w1] =>
        destruct (IH c w1) as (added & Hcoll & Hnd' & Hincl) end.
      { autorewrite with world. apply nodup_urls_snoc; [exact Hnd|].
        exact (find_url_none _ _ Hfind). }
      exists (a :: added). rewrite Hcoll. autorewrite with world.
      rewrite <- app_assoc. cbn [app]. split; [reflexivity|]. split.
      * autorewrite with world in Hnd'. rewrite <- app_assoc in Hnd'. exact Hnd'.
      * intros x [<-|Hx]; [left; reflexivity|right; exact (Hincl x Hx)].
Qed.





Lemma store_news_run (E : environment) (articles : list article) (w : world) :
  articles <> [] ->
  store_news_in_db E articles w =
  match store_loop E articles 0 w with
  | (Return stored_count, w1) =>
      (Return stored_count,
       add_events w1 [Log INFO "Stored {} new articles in database" []])
  | (Raise e, w1) =>
      (Return 0,
       add_events w1
         [Log ERROR
            (if except_PyMongoError e then "MongoDB error storing news: "
             else "Error storing news in database: ") (str_exn E e)])
  end.
Proof.
  intros Hne. destruct articles as [|a rest]; [congruence|].
  unfold store_news_in_db, try_except. unfold bind at 1.
  destruct (store_loop E (a :: rest) 0 w) as [[stored_count|e] w1].
  - reflexivity.
  - cbn [except_Exception]. destruct e; reflexivity.
Qed.

Lemma store_news_collection (E : environment) (articles : list article)
    (w : world) :
  exists n,
    fst (store_news_in_db E articles w) = Return n /\
    news_collection (snd (store_news_in_db E articles w))
    = news_collection (snd (store_loop E articles 0 w)).
Proof.
  destruct articles as [|a rest]; [exists 0; split; reflexivity|].
  rewrite store_news_run by congruence.
  destruct (store_loop E (a :: rest) 0 w) as [[stored_count|e] w1]; eexists;
    split; reflexivity.
Qed.





Example store_news_skips_duplicates :
  let run := store_news_in_db offline
               [new_article; new_article_again; stored_before]
               (fresh [stored_before]) in
  fst run = Return 1 /\
  news_collection (snd run) = [stored_before; new_article] /\
  logged (trace (snd run))
  = [ (INFO, "Stored article: ", title new_article);
      (INFO, "Article already exists: ", title new_article_again);
      (INFO, "Article already exists: ", title stored_before);
      (INFO, "Stored {} new articles in database", []) ]%string.
Proof. vm_compute. repeat split; reflexivity. Qed.

(** C2. A failure while storing the second of three new articles: the
    first stays stored, the third is never tried, and the function reports
    0 stored articles after one ERROR record. *)
Theorem store_news_failure_aborts_batch :
  let run := store_news_in_db flaky_db
               [stored_before; new_article; third_article] (fresh []) in
  fst run = Return 0 /\
  news_collection (snd run) = [stored_before] /\
  db_ops (snd run) = 4%nat /\
  logged (trace (snd run))
  = [ (INFO, "Stored article: ", title stored_before);
      (ERROR, "MongoDB error storing news: ", py "error") ]%string.
Proof. vm_compute. repeat split; reflexivity. Qed.

(** ** ArticleStore: the read paths *)

Lemma insert_desc_perm {A} (key : A -> Z) (x : A) (l : list A) :
  Permutation (insert_desc key x l) (x :: l).
Proof.
  induction l as [|y l IH]; cbn [insert_desc]; [reflexivity|].
  destruct (key x <? key y); [|reflexivity].
  rewrite IH. apply perm_swap.
Qed.

Lemma sort_desc_perm {A} (key : A -> Z) (l : list A) :
  Permutation (sort_desc key l) l.
Proof.
  unfold sort_desc. induction l as [|x l IH]; cbn [foldr]; [reflexivity|].
  rewrite insert_desc_perm, IH. reflexivity.
Qed.

Lemma insert_desc_sorted (x : article) (l : list article) :
  Sorted not_older l -> Sorted not_older (insert_desc date_key x l).
Proof.
  induction l as [|y l IH]; intros Hl; cbn [insert_desc].
  - repeat constructor.
  - destruct (date_key x <? date_key y) eqn:Hxy.
    + apply Z.ltb_lt in Hxy. apply Sorted_inv in Hl as [Hl Hhd].
      constructor; [exact (IH Hl)|].
      destruct l as [|z l]; cbn [insert_desc].
      * constructor. unfold not_older. lia.
      * destruct (date_key x <? date_key z).
        -- constructor. apply HdRel_inv in Hhd. exact Hhd.
        -- constructor. unfold not_older. lia.
    + apply Z.ltb_ge in Hxy. constructor; [exact Hl|].
      constructor. exact Hxy.
Qed.

Lemma sort_desc_sorted (l : list article) :
  Sorted not_older (sort_desc date_key l).
Proof.
  unfold sort_desc. induction l as [|x l IH]; cbn [foldr]; [constructor|].
  apply insert_desc_sorted. exact IH.
Qed.



Lemma get_news_run (E : environment) (symbol : text) (days : Z) (limit : nat)
    (w : world) :
  exists w',
    get_news_for_symbol E symbol days limit w
    = (Return (retrieved E symbol days limit w), w').
Proof.
  unfold get_news_for_symbol, retrieved, try_except.
  unfold bind at 1. unfold datetime_now at 1.
  unfold bind at 1. unfold lift at 1.
  destruct (minus_days (clock E (clock_reads w)) days) as [start_date|e].
  - unfold bind at 1. unfold find_news, mongo. cbn [db_ops news_collection].
    destruct (mongo_fault E (db_ops w)).
    + cbn [except_Exception except_PyMongoError]. rewrite run_log.
      unfold ret. eauto.
    + rewrite run_log. unfold ret. eauto.
  - cbn [except_Exception].
    destruct (except_PyMongoError e); rewrite run_log; unfold ret; eauto.
Qed.


Lemma py_sum_numeric (l : list pyval) :
  Forall numeric l ->
  forall acc, exists t,
    py_sum l acc = Return t /\ (t == acc + total (value <$> l))%Q.
Proof.
  induction 1 as [|v l [q Hq] _ IH]; intros acc.
  - exists acc. split; [reflexivity|]. cbn. ring.
  - cbn [py_sum]. rewrite Hq. destruct (IH (acc + q)%Q) as (t & Ht & Heq).
    exists t. split; [exact Ht|]. rewrite Heq.
    cbn [fmap list_fmap total fold_right]. unfold value at 2. rewrite Hq.
    fold (total (value <$> l)). ring.
Qed.

Lemma average_numeric (l : list pyval) :
  l <> [] -> Forall numeric l ->
  exists q, average l = Return q /\ (q == mean (value <$> l))%Q.
Proof.
  intros Hne Hnum. destruct l as [|v l]; [congruence|].
  unfold average. destruct (py_sum_numeric _ Hnum 0%Q) as (t & -> & Heq).
  eexists. split; [reflexivity|]. unfold mean.
  rewrite Heq, length_fmap. field.
  cbn [length]. intros H. unfold Qeq in H. cbn [Qnum Qden inject_Z] in H. lia.
Qed.




(** The three ways [get_sentiment_summary] ends. *)
Lemma summary_run (E : environment) (symbol : text) (days : Z) (w : world) :
  let news := retrieved E symbol days 100 w in
  exists summary w',
    get_sentiment_summary E symbol days w = (Return summary, w') /\
    ((news = [] /\ summary = summary_without_articles symbol days) \/
     (news <> [] /\
      exists c p n u,
        average (score "compound" <$> news) = Return c /\
        average (score "positive" <$> news) = Return p /\
        average (score "negative" <$> news) = Return n /\
        average (score "neutral" <$> news) = Return u /\
        summary = summary_of symbol days news c p n u) \/
     (news <> [] /\
      exists e key,
        In key score_keys /\
        average (score key <$> news) = Raise e /\
        summary = summary_error E symbol days e)).
Proof.
  intros news. unfold get_sentiment_summary, try_except, summary_try.
  unfold bind at 1. destruct (get_news_run E symbol days 100 w) as [w1 ->].
  fold news. destruct news as [|a rest] eqn:Hnews.
  { unfold ret. do 2 eexists. split; [reflexivity|]. left. auto. }
  assert (Hne : a :: rest <> []) by congruence.
  unfold bind at 1. unfold lift at 1.
  destruct (average (score "compound" <$> a :: rest)) as [c|e] eqn:Hc.
  2:{ cbn [except_Exception]. rewrite run_log. unfold ret.
      do 2 eexists. split; [reflexivity|]. right. right.
      split; [exact Hne|]. exists e, "compound"%string.
      split; [cbn; tauto|]. split; [assumption|reflexivity]. }
  unfold bind at 1. unfold lift at 1.
  destruct (average (score "positive" <$> a :: rest)) as [p|e] eqn:Hp.
  2:{ cbn [except_Exception]. rewrite run_log. unfold ret.
      do 2 eexists. split; [reflexivity|]. right. right.
      split; [exact Hne|]. exists e, "positive"%string.
      split; [cbn; tauto|]. split; [assumption|reflexivity]. }
  unfold bind at 1. unfold lift at 1.
  destruct (average (score "negative" <$> a :: rest)) as [n|e] eqn:Hn.
  2:{ cbn [except_Exception]. rewrite run_log. unfold ret.
      do 2 eexists. split; [reflexivity|]. right. right.
      split; [exact Hne|]. exists e, "negative"%string.
      split; [cbn; tauto|]. split; [assumption|reflexivity]. }
  unfold bind at 1. unfold lift at 1.
  destruct (average (score "neutral" <$> a :: rest)) as [u|e] eqn:Hu.
  2:{ cbn [except_Exception]. rewrite run_log. unfold ret.
      do 2 eexists. split; [reflexivity|]. right. right.
      split; [exact Hne|]. exists e, "neutral"%string.
      split; [cbn; tauto|]. split; [assumption|reflexivity]. }
  rewrite run_log. unfold ret.
  do 2 eexists. split; [reflexivity|]. right. left.
  split; [exact Hne|]. exists c, p, n, u. auto.
Qed.

Lemma summary_of_lookups (symbol : text) (days : Z) (news : list article)
    (c p n u : Q) :
  let summary := summary_of symbol days news c p n u in
  summary !! "symbol" = Some (PStr symbol) /\
  summary !! "period_days" = Some (PInt days) /\
  summary !! "article_count" = Some (PInt (Z.of_nat (length news))) /\
  summary !! "average_sentiment"
  = Some (PDict {[ "compound" := PFloat c; "positive" := PFloat p;
                   "negative" := PFloat n; "neutral" := PFloat u ]}) /\
  summary !! "sentiment_trend" = Some (PStr (trend c)) /\
  summary !! "latest_articles"
  = Some (PList (latest_entry <$> take 5 news)) /\
  summary !! "error" = None.
Proof.
  unfold summary_of.
  generalize (trend c) (latest_entry <$> take 5 news) (Z.of_nat (length news)).
  intros tr latest count. repeat split; reflexivity.
Qed.





Lemma numeric_scores (key : string) (news : list article) :
  (forall a, In a news -> numeric (score key a)) ->
  Forall numeric (score key <$> news).
Proof.
  intros H. apply Forall_forall. intros v Hv.
  apply list_elem_of_In, in_map_iff in Hv as (a & <- & Ha). exact (H a Ha).
Qed.











(** ** The models at work *)

Example fetch_recovers :
  let run := fetch_news_from_source recovering aleqtisadiah (fresh []) in
  fst run
  = Return
      (Some
         [ {| title := py "Market update";
              url := py "https://www.aleqt.com/news/1";
              published_date :=
                {| year := 2024; month := 3; day := 5;
                   hour := 0; minute := 0; second := 0; microsecond := 0 |};
              source := "Aleqtisadiah"; language := "ar";
              content := py "Body text";
              title_en := None; content_en := None; sentiment := None;
              symbols := None; processed_at := None; error := None |} ]) /\
  sleeps (trace (snd run)) = [2] /\
  requests (trace (snd run))
  = [ py "https://www.aleqt.com/tags/31"; py "https://www.aleqt.com/tags/31";
      py "https://www.aleqt.com/news/1" ].
Proof. vm_compute. repeat split; reflexivity. Qed.

Example translate_long_text :
  let run := translate_text recovering (repeat 97%N (100 * 100)) "ar" "en" (fresh []) in
  (exists t, fst run = Return (Some t) /\ length t = (100 * 100 + 2)%nat) /\
  length <$> translations (trace (snd run)) = [4999; 4999; 2]%nat /\
  sleeps (trace (snd run)) = [1; 1; 1].
Proof.
  vm_compute. split; [|split; reflexivity].
  eexists. split; reflexivity.
Qed.

Example summary_error_report :
  let run := get_sentiment_summary offline (py "2222.SR") 7
               (fresh [odd_article]) in
  field "article_count" run = Some (PInt 0) /\
  field "error" run = Some (PStr (py "error")) /\
  field "average_sentiment" run = None /\
  field "latest_articles" run = None.
Proof. vm_compute. repeat split; reflexivity. Qed.

Example summary_of_the_week :
  let run := get_sentiment_summary offline (py "2222.SR") 7 (fresh week) in
  field "article_count" run = Some (PInt 3) /\
  field "sentiment_trend" run = Some (PStr (py "positive")) /\
  field "latest_articles" run
  = Some (PList [ latest_entry thursday_article;
                  latest_entry wednesday_article;
                  latest_entry tuesday_article ]).
Proof. vm_compute. repeat split; reflexivity. Qed.

(** * Further properties *)

(** ** Translator: slicing and retries *)

Lemma chunk_count_bounds (n c : nat) :
  (0 < c)%nat ->
  (n <= ((n + c - 1) / c) * c)%nat /\
  (forall k, k < (n + c - 1) / c -> k * c < n)%nat.
Proof.
  intros Hc.
  pose proof (Nat.div_mod_eq (n + c - 1) c) as Hdm.
  pose proof (Nat.mod_upper_bound (n + c - 1) c ltac:(lia)) as Hmod.
  split; [nia|]. intros k Hk. nia.
Qed.

Lemma concat_slices (c : nat) (s : text) (n : nat) :
  concat ((fun i => take c (drop i s)) <$> ((fun k => k * c)%nat <$> seq 0 n))
  = take (n * c) s.
Proof.
  induction n as [|n IH].
  - reflexivity.
  - rewrite seq_S, !fmap_app, concat_app, IH. cbn [fmap list_fmap concat].
    rewrite app_nil_r, Nat.add_0_l, take_take_drop. f_equal. lia.
Qed.

Lemma chunks_by_spec (c : nat) (s : text) :
  (0 < c)%nat ->
  concat (chunks_by c s) = s /\
  Forall (fun chunk => 1 <= length chunk <= c)%nat (chunks_by c s) /\
  length (chunks_by c s) = ((length s + c - 1) / c)%nat.
Proof.
  intros Hc. destruct (chunk_count_bounds (length s) c Hc) as [Hcover Hinside].
  unfold chunks_by, range_step. split; [|split].
  - rewrite concat_slices. apply take_ge. exact Hcover.
  - apply Forall_forall. intros chunk Hin.
    apply list_elem_of_fmap in Hin as (i & -> & Hi).
    apply list_elem_of_fmap in Hi as (k & -> & Hk).
    apply elem_of_seq in Hk. specialize (Hinside k ltac:(lia)).
    rewrite length_take, length_drop. lia.
  - rewrite !length_fmap, length_seq. reflexivity.
Qed.

(** X1. The slices [translate_text] makes of a long text are never empty,
    never longer than 4999 characters, as many as the length divided by
    4999 and rounded up, and put end to end they are the text. *)
Theorem chunks_of_partition (s : text) :
  concat (chunks_of s) = s /\
  Forall (fun chunk => 1 <= length chunk <= 4999)%nat (chunks_of s) /\
  length (chunks_of s) = ((length s + 4999 - 1) / 4999)%nat.
Proof. exact (chunks_by_spec 4999 s ltac:(lia)). Qed.

Lemma translate_calls_add_events w es :
  translate_calls (add_events w es) = translate_calls w.
Proof. reflexivity. Qed.

Lemma translate_calls_after_translate w c :
  translate_calls (after_translate w c) = S (translate_calls w).
Proof. reflexivity. Qed.

#[local] Hint Rewrite translate_calls_add_events
  translate_calls_after_translate : world.

Lemma translate_once_short (E : environment) (s : text) (src dest : string)
    (w : world) :
  blank (unicode E) s = false -> (length s < 5000)%nat ->
  translate_once E s src dest w
  = (translate E (translate_calls w) s src dest, after_translate w s).
Proof.
  intros Hblank Hlen. unfold translate_once. rewrite Hblank.
  apply Nat.ltb_lt in Hlen. rewrite Hlen. reflexivity.
Qed.

(** X2. For a text that is not blank and shorter than 5000 characters,
    [translate_text] returns the answer of the first of at most three
    calls that succeeds, having paused 2 seconds after the first failure
    and 4 after the second; after three failures it returns the text
    itself. *)
Theorem translate_text_retries (E : environment) (s : text)
    (src dest : string) (w : world) :
  blank (unicode E) s = false -> (length s < 5000)%nat ->
  let n := translate_calls w in
  let outcome_of_calls :=
    after_retries s (translate E n s src dest) (translate E (S n) s src dest)
      (translate E (S (S n)) s src dest) in
  exists w',
    translate_text E s src dest w = (Return (Some (fst outcome_of_calls)), w') /\
    sleeps (trace w') = sleeps (trace w) ++ snd outcome_of_calls.
Proof.
  intros Hblank Hlen n outcome_of_calls. subst outcome_of_calls n.
  unfold translate_text. cbn [translate_loop].
  rewrite (translate_once_short E s src dest w Hblank Hlen).
  destruct (translate E (translate_calls w) s src dest) as [t0|e0].
  { eexists. split; [reflexivity|]. cbn [after_retries snd].
    unfold sleeps. autorewrite with world. cbn [omap list_omap].
    reflexivity. }
  rewrite run_log. change (0 <? max_retries - 1) with true. cbv iota.
  rewrite run_log, run_sleep.
  rewrite (translate_once_short E s src dest _ Hblank Hlen).
  autorewrite with world.
  destruct (translate E (S (translate_calls w)) s src dest) as [t1|e1].
  { eexists. split; [reflexivity|]. cbn [after_retries snd].
    unfold sleeps. autorewrite with world. cbn [omap list_omap].
    rewrite !app_nil_r. reflexivity. }
  rewrite run_log. change (1 <? max_retries - 1) with true. cbv iota.
  rewrite run_log, run_sleep.
  rewrite (translate_once_short E s src dest _ Hblank Hlen).
  autorewrite with world.
  destruct (translate E (S (S (translate_calls w))) s src dest) as [t2|e2].
  { eexists. split; [reflexivity|]. cbn [after_retries snd].
    unfold sleeps. autorewrite with world. cbn [omap list_omap].
    rewrite !app_nil_r, <- !app_assoc. reflexivity. }
  rewrite run_log. change (2 <? max_retries - 1) with false. cbv iota.
  rewrite run_log. unfold ret.
  eexists. split; [reflexivity|]. cbn [after_retries snd].
  unfold sleeps. autorewrite with world. cbn [omap list_omap].
  rewrite !app_nil_r, <- !app_assoc. reflexivity.
Qed.

Lemma translate_text_retries_witness :
  exists w',
    translate_text slow_start arabic_sample "ar" "en" (fresh [])
    = (Return (Some (py "Results")), w') /\
    sleeps (trace w') = [2].
Proof.
  destruct (translate_text_retries slow_start arabic_sample "ar" "en" (fresh []))
    as (w' & Hrun & Hsleeps).
  - reflexivity.
  - cbn. lia.
  - exists w'. split; [exact Hrun|exact Hsleeps].
Defined.






(** ** What each operation leaves alone *)

Section Frames.
Context {X : Type} (part : world -> X).

Lemma untouched_ret {A} (a : A) : untouched part (ret a).
Proof. intros w. reflexivity. Qed.

Lemma untouched_lift {A} (o : outcome A) : untouched part (lift o).
Proof. intros w. reflexivity. Qed.

Lemma untouched_bind {A B} (m : M A) (k : A -> M B) :
  untouched part m -> (forall a, untouched part (k a)) ->
  untouched part (bind m k).
Proof.
  intros Hm Hk w. unfold bind. specialize (Hm w).
  destruct (m w) as [[a|e] w1]; cbn [snd] in *.
  - rewrite Hk. exact Hm.
  - exact Hm.
Qed.

Lemma untouched_try_except {A} (m : M A) (catches : exn -> bool)
    (handler : exn -> M A) :
  untouched part m -> (forall e, untouched part (handler e)) ->
  untouched part (try_except m catches handler).
Proof.
  intros Hm Hh w. unfold try_except. specialize (Hm w).
  destruct (m w) as [[a|e] w1]; cbn [snd] in *; [exact Hm|].
  destruct (catches e); cbn [snd]; [|exact Hm].
  rewrite Hh. exact Hm.
Qed.

Hypothesis untouched_log : forall l m a, untouched part (log l m a).

Lemma untouched_analyze_sentiment (E : environment) (s : text) :
  untouched part (analyze_sentiment E s).
Proof.
  unfold analyze_sentiment. destruct (analyze_sentiment_try E s).
  - apply untouched_ret.
  - apply untouched_bind; [apply untouched_log|intros _; apply untouched_ret].
Qed.

Section Translation.
Variable E : environment.
Hypothesis untouched_sleep : forall n, untouched part (sleep n).
Hypothesis part_translate :
  forall chunk src dest, untouched part (translator_translate E chunk src dest).

Lemma untouched_translate_chunks (chunks : list text) (src dest : string) :
  untouched part (translate_chunks E chunks src dest).
Proof.
  induction chunks as [|chunk rest IH]; cbn [translate_chunks].
  - apply untouched_ret.
  - apply untouched_bind; [apply part_translate|intros t].
    apply untouched_bind; [apply untouched_sleep|intros _].
    apply untouched_bind; [exact IH|intros ts]. apply untouched_ret.
Qed.

Lemma untouched_translate_once (s : text) (src dest : string) :
  untouched part (translate_once E s src dest).
Proof.
  unfold translate_once. destruct (blank _ s); [apply untouched_ret|].
  destruct (length s <? 5000)%nat; [apply part_translate|].
  apply untouched_bind; [apply untouched_translate_chunks|intros ts].
  apply untouched_ret.
Qed.

Lemma untouched_translate_loop (s : text) (src dest : string) :
  forall (attempts : list Z) (retry_delay : Z),
    untouched part (translate_loop E attempts retry_delay s src dest).
Proof.
  induction attempts as [|attempt rest IH]; intros retry_delay;
    cbn [translate_loop]; [apply untouched_ret|].
  intros w. pose proof (untouched_translate_once s src dest w) as Honce.
  destruct (translate_once E s src dest w) as [[t|e] w1]; cbn [snd] in *;
    [exact Honce|].
  rewrite <- Honce. revert w1 Honce. intros w1 _. revert w1.
  change (untouched part
    (log ERROR "Error translating text (attempt {}/{}): " (str_exn E e) ;;
     if attempt <? max_retries - 1 then
       log INFO "Retrying translation in {} seconds..." [] ;;
       sleep retry_delay ;;
       translate_loop E rest (retry_delay * 2) s src dest
     else
       log ERROR "Failed to translate text after {} attempts" [] ;;
       ret (Some s))).
  apply untouched_bind; [apply untouched_log|intros _].
  destruct (attempt <? max_retries - 1).
  - apply untouched_bind; [apply untouched_log|intros _].
    apply untouched_bind; [apply untouched_sleep|intros _]. apply IH.
  - apply untouched_bind; [apply untouched_log|intros _]. apply untouched_ret.
Qed.

Lemma untouched_translate_text (s : text) (src dest : string) :
  untouched part (translate_text E s src dest).
Proof. apply untouched_translate_loop. Qed.
Hypothesis part_clock : untouched part (datetime_now E).

Lemma untouched_process_news_article (a : article) :
  untouched part (process_news_article E a).
Proof.
  intros w. unfold process_news_article.
  match goal with
  | |- context [match ?m w with _ => _ end] => set (translated := m)
  end.
  assert (Htr : untouched part translated).
  { subst translated. destruct (String.eqb (language a) "ar").
    - apply untouched_bind; [apply untouched_log|intros _].
      apply untouched_bind; [apply untouched_translate_text|intros t].
      apply untouched_bind; [apply untouched_translate_text|intros c].
      apply untouched_ret.
    - apply untouched_ret. }
  specialize (Htr w).
  destruct (translated w) as [[[[a1 t] c]|e] w1]; cbn [snd] in *;
    [|exact Htr].
  destruct (concat_with_space t c) as [text_for_analysis|e]; cbn [snd];
    [|exact Htr].
  rewrite <- Htr. clear Htr. revert w1.
  match goal with
  | |- forall w1, part (snd (?m w1)) = part w1 => change (untouched part m)
  end.
  apply untouched_bind; [apply untouched_log|intros _].
  apply untouched_bind; [apply untouched_analyze_sentiment|intros scores].
  apply untouched_bind; [apply part_clock|intros now].
  apply untouched_ret.
Qed.
End Translation.

Section Fetching.
Variable E : environment.
Hypothesis part_http : forall target, untouched part (http_get E target).
Hypothesis part_clock : untouched part (datetime_now E).

Lemma untouched_fetch_article_content (target : text) :
  untouched part (_fetch_article_content E target).
Proof.
  unfold _fetch_article_content. apply untouched_try_except.
  - destruct (is_empty target); [apply untouched_ret|].
    apply untouched_bind; [apply part_http|intros body]. apply untouched_lift.
  - intros e. apply untouched_bind; [apply untouched_log|intros _].
    apply untouched_ret.
Qed.

Lemma untouched_extract_article (src : news_source) (st : strategy)
    (element : text) :
  untouched part (extract_article E src st element).
Proof.
  unfold extract_article.
  destruct (soup_select_one E element (title_selector st)) as [title_elem|];
    [|apply untouched_ret].
  cbv zeta.
  apply untouched_bind; [apply untouched_fetch_article_content|intros body].
  apply untouched_bind; [apply part_clock|intros now].
  apply untouched_bind; [apply untouched_lift|intros published].
  apply untouched_ret.
Qed.

Lemma untouched_extract_articles (src : news_source) (st : strategy)
    (news_elements : list text) :
  untouched part (extract_articles E src st news_elements).
Proof.
  induction news_elements as [|element rest IH]; cbn [extract_articles];
    [apply untouched_ret|].
  apply untouched_bind.
  - apply untouched_try_except; [apply untouched_extract_article|intros e].
    apply untouched_bind; [apply untouched_log|intros _]. apply untouched_ret.
  - intros found. apply untouched_bind; [exact IH|intros articles].
    apply untouched_ret.
Qed.

Lemma untouched_fetch_once (src : news_source) :
  untouched part (fetch_once E src).
Proof.
  unfold fetch_once.
  apply untouched_bind; [apply untouched_log|intros _].
  apply untouched_bind; [apply part_http|intros body].
  apply untouched_bind.
  - destruct (source_strategy (src_name src)) as [st|];
      [apply untouched_extract_articles|apply untouched_ret].
  - intros articles. apply untouched_bind; [apply untouched_log|intros _].
    apply untouched_ret.
Qed.

Hypothesis untouched_sleep : forall n, untouched part (sleep n).

Lemma untouched_fetch_loop (src : news_source) :
  forall (attempts : list Z) (retry_delay : Z),
    untouched part (fetch_loop E attempts retry_delay src).
Proof.
  induction attempts as [|attempt rest IH]; intros retry_delay;
    cbn [fetch_loop]; [apply untouched_ret|].
  intros w. pose proof (untouched_fetch_once src w) as Honce.
  destruct (fetch_once E src w) as [[articles|e] w1]; cbn [snd] in *;
    [exact Honce|].
  destruct (except_RequestException e); [|exact Honce].
  rewrite <- Honce. clear Honce. revert w1.
  match goal with
  | |- forall w1, part (snd (?m w1)) = part w1 => change (untouched part m)
  end.
  apply untouched_bind; [apply untouched_log|intros _].
  destruct (attempt <? max_retries - 1).
  - apply untouched_bind; [apply untouched_log|intros _].
    apply untouched_bind; [apply untouched_sleep|intros _]. apply IH.
  - apply untouched_bind; [apply untouched_log|intros _]. apply untouched_ret.
Qed.

Lemma untouched_fetch_news_from_source (src : news_source) :
  untouched part (fetch_news_from_source E src).
Proof. apply untouched_fetch_loop. Qed.
End Fetching.
End Frames.

(** ** Scoring and processing *)

Lemma analyze_sentiment_cases (E : environment) (s : text) (w : world) :
  exists scores w',
    analyze_sentiment E s w = (Return scores, w') /\
    (forall key, In key score_keys -> exists q, scores !! key = Some (PFloat q)) /\
    (forall w0, fst (analyze_sentiment E s w0) = Return scores) /\
    ((scores !! "error" = None /\ w' = w) \/
     (exists e,
        scores !! "error" = Some (PStr (str_exn E e)) /\
        scores !! "compound" = Some (PFloat 0) /\
        scores !! "positive" = Some (PFloat 0) /\
        scores !! "negative" = Some (PFloat 0) /\
        scores !! "neutral" = Some (PFloat 1) /\
        w' = add_events w [Log ERROR "Error analyzing sentiment: " (str_exn E e)])).
Proof.
  unfold analyze_sentiment.
  destruct (analyze_sentiment_try E s) as [scores|e] eqn:Htry.
  - exists scores, w. split; [reflexivity|]. split; [|split].
    + unfold analyze_sentiment_try in Htry.
      destruct (blank _ s).
      * injection Htry as <-. intros key Hin.
        cbn in Hin. destruct Hin as [<-|[<-|[<-|[<-|[]]]]]; eexists; reflexivity.
      * destruct (polarity_scores E s) as [[[[c p] n] u]|]; [|discriminate].
        destruct (textblob_sentiment E s) as [[tp ts]|]; [|discriminate].
        injection Htry as <-. intros key Hin.
        cbn in Hin. destruct Hin as [<-|[<-|[<-|[<-|[]]]]]; eexists; reflexivity.
    + intros w0. reflexivity.
    + left. split; [|reflexivity].
      unfold analyze_sentiment_try in Htry.
      destruct (blank _ s).
      * injection Htry as <-. reflexivity.
      * destruct (polarity_scores E s) as [[[[c p] n] u]|]; [|discriminate].
        destruct (textblob_sentiment E s) as [[tp ts]|]; [|discriminate].
        injection Htry as <-. reflexivity.
  - rewrite run_log. unfold ret. do 2 eexists. split; [reflexivity|].
    split; [|split].
    + intros key Hin.
      cbn in Hin. destruct Hin as [<-|[<-|[<-|[<-|[]]]]]; eexists; reflexivity.
    + intros w0. reflexivity.
    + right. exists e. repeat split; reflexivity.
Qed.

(** X4. [analyze_sentiment] never raises and always gives the four scores
    the summary reads, as numbers; without an [error] entry it has logged
    nothing, and with one (a scorer raised) the scores are the neutral
    ones and one error is logged. *)
Theorem analyze_sentiment_scores (E : environment) (s : text) (w : world) :
  exists scores w',
    analyze_sentiment E s w = (Return scores, w') /\
    (forall key, In key score_keys -> exists q, scores !! key = Some (PFloat q)) /\
    ((scores !! "error" = None /\ w' = w) \/
     (exists e,
        scores !! "error" = Some (PStr (str_exn E e)) /\
        scores !! "compound" = Some (PFloat 0) /\
        scores !! "positive" = Some (PFloat 0) /\
        scores !! "negative" = Some (PFloat 0) /\
        scores !! "neutral" = Some (PFloat 1) /\
        logged (trace w')
        = logged (trace w)
          ++ [(ERROR, "Error analyzing sentiment: "%string, str_exn E e)])).
Proof.
  destruct (analyze_sentiment_cases E s w)
    as (scores & w' & Hrun & Hkeys & _ & Hcases).
  exists scores, w'. split; [exact Hrun|]. split; [exact Hkeys|].
  destruct Hcases as [Hquiet|(e & Herr & Hc & Hp & Hn & Hu & ->)];
    [left; exact Hquiet|].
  right. exists e. repeat (split; [assumption|]).
  unfold logged, add_events. cbn [trace]. rewrite omap_app. reflexivity.
Qed.

Lemma well_scored_sentiment (a : article) (scores : gmap string pyval) :
  sentiment a = Some scores ->
  (forall key, In key score_keys -> exists q, scores !! key = Some (PFloat q)) ->
  well_scored a.
Proof.
  intros Hs Hkeys key Hin. destruct (Hkeys key Hin) as [q Hq].
  unfold score. rewrite Hs. cbn [from_option id]. rewrite Hq. exists q. reflexivity.
Qed.

Lemma process_news_article_run (E : environment) (a : article) (w : world) :
  exists t c scores now w',
    process_news_article E a w
    = (Return
         {| title := title a; url := url a;
            published_date := published_date a; source := source a;
            language := language a; content := content a;
            title_en := Some (PStr t); content_en := Some (PStr c);
            sentiment := Some scores;
            symbols := Some (_extract_stock_symbols E (t ++ py " " ++ c));
            processed_at := Some now; error := error a |}, w') /\
    (forall key, In key score_keys -> exists q, scores !! key = Some (PFloat q)) /\
    fst (analyze_sentiment E (t ++ py " " ++ c) w) = Return scores /\
    (String.eqb (language a) "ar" = false ->
     t = title a /\ c = content a /\
     translate_calls w' = translate_calls w /\
     clock_reads w' = S (clock_reads w) /\
     sleeps (trace w') = sleeps (trace w)).
Proof.
  unfold process_news_article.
  destruct (String.eqb (language a) "ar") eqn:Hlang.
  - rewrite run_log. unfold bind at 1.
    destruct (translate_loop_total E (title a) "ar" "en" [0; 1; 2] 2
                (add_events w [Log INFO "Translating article: " (title a)]))
      as (t & w1 & Ht); [congruence | reflexivity |].
    unfold translate_text at 1. rewrite Ht. unfold bind at 1.
    destruct (translate_loop_total E (content a) "ar" "en" [0; 1; 2] 2 w1)
      as (c & w2 & Hc); [congruence | reflexivity |].
    unfold translate_text at 1. rewrite Hc. unfold ret at 1.
    cbn [opt_str concat_with_space]. rewrite run_log. unfold bind at 1.
    destruct (analyze_sentiment_cases E (t ++ py " " ++ c)
                (add_events w2 [Log INFO "Analyzing sentiment for article: "
                                  (title a)]))
      as (scores & w3 & Hrun & Hkeys & Hany & _).
    rewrite Hrun. unfold bind at 1, datetime_now at 1, ret.
    exists t, c, scores. do 2 eexists. split; [reflexivity|].
    split; [exact Hkeys|]. split; [apply Hany|]. discriminate.
  - unfold ret at 1. cbn [concat_with_space]. rewrite run_log. unfold bind at 1.
    destruct (analyze_sentiment_cases E (title a ++ py " " ++ content a)
                (add_events w [Log INFO "Analyzing sentiment for article: "
                                 (title a)]))
      as (scores & w3 & Hrun & Hkeys & Hany & Hcases).
    rewrite Hrun. unfold bind at 1, datetime_now at 1, ret.
    exists (title a), (content a), scores. do 2 eexists.
    split; [reflexivity|]. split; [exact Hkeys|]. split; [apply Hany|].
    intros _. split; [reflexivity|]. split; [reflexivity|].
    cbn [translate_calls clock_reads trace].
    destruct Hcases as [[_ ->]|(e & _ & _ & _ & _ & _ & ->)];
      unfold sleeps; autorewrite with world; cbn [omap list_omap];
      rewrite ?app_nil_r; auto.
Qed.

(** X5. [process_news_article] never raises and never sets [error]: what
    the article had from the fetch is kept, both translations are
    strings, the sentiment is that of the translated title, a space and
    the translated content, with its four scores numbers, the symbols are
    those found in that same text, and a processing time is set.  The
    call leaves the database and the network alone. *)
Theorem process_news_article_result (E : environment) (a : article) (w : world) :
  exists a' w' t c scores,
    process_news_article E a w = (Return a', w') /\
    title a' = title a /\ url a' = url a /\
    published_date a' = published_date a /\ source a' = source a /\
    language a' = language a /\ content a' = content a /\
    error a' = error a /\
    title_en a' = Some (PStr t) /\ content_en a' = Some (PStr c) /\
    fst (analyze_sentiment E (t ++ py " " ++ c) w) = Return scores /\
    sentiment a' = Some scores /\ well_scored a' /\
    symbols a' = Some (_extract_stock_symbols E (t ++ py " " ++ c)) /\
    is_Some (processed_at a') /\
    news_collection w' = news_collection w /\ db_ops w' = db_ops w /\
    http_calls w' = http_calls w.
Proof.
  destruct (process_news_article_run E a w)
    as (t & c & scores & now & w' & Hrun & Hkeys & Hscores & _).
  eexists. exists w', t, c, scores. split; [exact Hrun|]. cbn.
  repeat (split; [reflexivity|]). split; [exact Hscores|].
  split; [reflexivity|].
  split; [eapply well_scored_sentiment; [reflexivity|exact Hkeys]|].
  split; [reflexivity|]. split; [eexists; reflexivity|].
  pose proof (untouched_process_news_article news_collection) as Hc.
  pose proof (untouched_process_news_article db_ops) as Hd.
  pose proof (untouched_process_news_article http_calls) as Hh.
  specialize (Hc ltac:(intros ? ? ? w0; reflexivity) E
                ltac:(intros ? w0; reflexivity)
                ltac:(intros ? ? ? w0; reflexivity)
                ltac:(intros w0; reflexivity) a w).
  specialize (Hd ltac:(intros ? ? ? w0; reflexivity) E
                ltac:(intros ? w0; reflexivity)
                ltac:(intros ? ? ? w0; reflexivity)
                ltac:(intros w0; reflexivity) a w).
  specialize (Hh ltac:(intros ? ? ? w0; reflexivity) E
                ltac:(intros ? w0; reflexivity)
                ltac:(intros ? ? ? w0; reflexivity)
                ltac:(intros w0; reflexivity) a w).
  rewrite Hrun in Hc, Hd, Hh. auto.
Qed.

(** X6. An article whose language is not [ar] is processed without a call
    of the translation service and without a pause: its English title and
    content are the title and the content themselves. *)
Theorem process_without_translation (E : environment) (a : article) (w : world) :
  language a <> "ar"%string ->
  exists a' w',
    process_news_article E a w = (Return a', w') /\
    title_en a' = Some (PStr (title a)) /\
    content_en a' = Some (PStr (content a)) /\
    symbols a'
    = Some (_extract_stock_symbols E (title a ++ py " " ++ content a)) /\
    translate_calls w' = translate_calls w /\
    sleeps (trace w') = sleeps (trace w).
Proof.
  intros Hlang. apply String.eqb_neq in Hlang.
  destruct (process_news_article_run E a w)
    as (t & c & scores & now & w' & Hrun & _ & _ & Hsame).
  destruct (Hsame Hlang) as (-> & -> & Hcalls & _ & Hsleeps).
  eexists. exists w'. split; [exact Hrun|]. cbn. auto.
Qed.

Lemma process_without_translation_witness :
  exists a' w',
    process_news_article offline stored_before (fresh []) = (Return a', w') /\
    title_en a' = Some (PStr (py "Aramco results")) /\
    symbols a' = Some [py "2222.SR"] /\
    translate_calls w' = 0%nat.
Proof.
  destruct (process_without_translation offline stored_before (fresh []))
    as (a' & w' & Hrun & Ht & _ & Hs & Hcalls & _).
  - discriminate.
  - exists a', w'. split; [exact Hrun|]. split; [exact Ht|].
    split; [rewrite Hs; vm_compute; reflexivity|exact Hcalls].
Defined.

(** ** Fetching *)

Lemma http_get_cases (E : environment) (target : text) (w : world) :
  (exists body, http_get E target w = (Return body, after_request w target)) \/
  http_get E target w = (Raise RequestException, after_request w target).
Proof.
  unfold http_get.
  destruct (requests_get E (http_calls w) target) as [|code body];
    [right; reflexivity|].
  destruct ((400 <=? code) && (code <? 600));
    [right; reflexivity|left; eexists; reflexivity].
Qed.

Lemma fetch_article_content_cases (E : environment) (target : text) (w : world) :
  exists body w',
    _fetch_article_content E target w = (Return body, w') /\
    (is_empty target = true -> body = [] /\ w' = w) /\
    (is_empty target = false ->
     requests (trace w') = requests (trace w) ++ [target] /\
     http_calls w' = S (http_calls w) /\
     (request_fails (requests_get E (http_calls w) target) = true -> body = [])).
Proof.
  unfold _fetch_article_content, try_except.
  destruct (is_empty target) eqn:Hempty.
  - exists [], w. split; [reflexivity|]. split; [auto|discriminate].
  - unfold bind at 1, http_get at 1.
    fold (after_request w target).
    destruct (requests_get E (http_calls w) target) as [|code page].
    + cbn [except_Exception]. rewrite run_log. unfold ret.
      do 2 eexists. split; [reflexivity|]. split; [discriminate|].
      intros _. unfold requests. autorewrite with world.
      cbn [omap list_omap]. rewrite !app_nil_r. auto.
    + cbn [request_fails].
      destruct ((400 <=? code) && (code <? 600)).
      * cbn [except_Exception]. rewrite run_log. unfold ret.
        do 2 eexists. split; [reflexivity|]. split; [discriminate|].
        intros _. unfold requests. autorewrite with world.
        cbn [omap list_omap]. rewrite !app_nil_r. auto.
      * unfold lift. destruct (page_content E page) as [body|e].
        -- do 2 eexists. split; [reflexivity|]. split; [discriminate|].
           intros _. unfold requests. autorewrite with world.
           cbn [omap list_omap]. split; [reflexivity|].
           split; [reflexivity|discriminate].
        -- cbn [except_Exception]. rewrite run_log. unfold ret.
           do 2 eexists. split; [reflexivity|]. split; [discriminate|].
           intros _. unfold requests. autorewrite with world.
           cbn [omap list_omap]. rewrite !app_nil_r. auto.
Qed.

(** X7. [_fetch_article_content] never raises.  Without a url it answers
    the empty string and asks nothing of the network; with one it makes
    exactly one request, without a retry, and a request that fails gives
    the empty string. *)
Theorem fetch_article_content_result (E : environment) (target : text)
    (w : world) :
  exists body w',
    _fetch_article_content E target w = (Return body, w') /\
    (target = [] -> body = [] /\ w' = w) /\
    (target <> [] ->
     requests (trace w') = requests (trace w) ++ [target] /\
     http_calls w' = S (http_calls w) /\
     (request_fails (requests_get E (http_calls w) target) = true -> body = [])).
Proof.
  destruct (fetch_article_content_cases E target w)
    as (body & w' & Hrun & Hempty & Hfull).
  exists body, w'. split; [exact Hrun|]. split.
  - intros ->. apply Hempty. reflexivity.
  - intros Hne. apply Hfull. destruct target; [congruence|reflexivity].
Qed.

Lemma sleeps_log (l : level) (m : string) (a : text) :
  untouched (fun w => sleeps (trace w)) (log l m a).
Proof.
  intros w. unfold sleeps. cbn [log emit snd trace].
  rewrite omap_app. apply app_nil_r.
Qed.

Lemma sleeps_http_get (E : environment) (target : text) :
  untouched (fun w => sleeps (trace w)) (http_get E target).
Proof.
  intros w.
  destruct (http_get_cases E target w) as [[body ->]| ->]; cbn [snd];
    unfold sleeps; autorewrite with world; apply app_nil_r.
Qed.

Lemma sleeps_datetime_now (E : environment) :
  untouched (fun w => sleeps (trace w)) (datetime_now E).
Proof. intros w. reflexivity. Qed.

Lemma source_strategy_site (name : string) (st : strategy) (u : text) :
  source_strategy name = Some st ->
  startswith (site st ++ u) (py "http") = true.
Proof.
  unfold source_strategy. intros H.
  repeat match type of H with
         | (if ?b then _ else _) = _ => destruct b
         end;
    try discriminate; injection H as <-; reflexivity.
Qed.

Lemma extract_article_shape (E : environment) (src : news_source)
    (st : strategy) (name : string) (element : text) (w w' : world)
    (a : article) :
  source_strategy name = Some st ->
  extract_article E src st element w = (Return (Some a), w') ->
  fetched_from src a.
Proof.
  intros Hst. unfold extract_article.
  destruct (soup_select_one E element (title_selector st)) as [title_elem|];
    [|discriminate].
  cbv zeta. unfold bind at 1.
  destruct (_fetch_article_content E _ w) as [[body|e] w1]; [|discriminate].
  unfold bind at 1, datetime_now at 1.
  unfold bind at 1, lift at 1.
  destruct (_parse_date E _ _) as [published|e]; [|discriminate].
  unfold ret. intros H. injection H as <- _. unfold fetched_from.
  cbn [source language url title_en content_en sentiment symbols processed_at
       error].
  repeat (split; [reflexivity|]). split; [|repeat split].
  destruct (default [] (elem_href E title_elem)) as [|c u] eqn:Hu.
  - left. reflexivity.
  - right. cbn [is_empty negb andb].
    destruct (startswith (c :: u) (py "http")) eqn:Hs; cbn [negb];
      [exact Hs|]. apply (source_strategy_site name st _ Hst).
Qed.

Lemma extract_articles_total (E : environment) (src : news_source)
    (st : strategy) (name : string) :
  source_strategy name = Some st ->
  forall (news_elements : list text) (w : world),
    exists articles w',
      extract_articles E src st news_elements w = (Return articles, w') /\
      Forall (fetched_from src) articles /\
      (length articles <= length news_elements)%nat.
Proof.
  intros Hst. induction news_elements as [|element rest IH]; intros w.
  - exists [], w. split; [reflexivity|]. split; [constructor|reflexivity].
  - cbn [extract_articles]. unfold bind at 1, try_except at 1.
    destruct (extract_article E src st element w) as [[found|e] w1] eqn:Hone.
    + destruct (IH w1) as (articles & w' & Hrun & Hall & Hlen).
      unfold bind at 1. rewrite Hrun. unfold ret.
      destruct found as [a|].
      * do 2 eexists. split; [reflexivity|]. split.
        -- constructor; [|exact Hall].
           exact (extract_article_shape E src st name element w w1 a Hst Hone).
        -- cbn [length]. lia.
      * do 2 eexists. split; [reflexivity|]. split; [exact Hall|].
        cbn [length]. lia.
    + cbn [except_Exception]. rewrite run_log. unfold ret at 1.
      destruct (IH (add_events w1
                      [Log ERROR "Error extracting article from {}: "
                         (py (src_name src))]))
        as (articles & w' & Hrun & Hall & Hlen).
      unfold bind at 1. rewrite Hrun. unfold ret.
      do 2 eexists. split; [reflexivity|]. split; [exact Hall|].
      cbn [length]. lia.
Qed.

Lemma fetch_once_cases (E : environment) (src : news_source) (w : world) :
  exists w',
    sleeps (trace w') = sleeps (trace w) /\
    ((exists articles,
        fetch_once E src w = (Return articles, w') /\
        Forall (fetched_from src) articles /\
        (source_strategy (src_name src) = None -> articles = [])) \/
     fetch_once E src w = (Raise RequestException, w')).
Proof.
  pose proof (untouched_fetch_once (fun w => sleeps (trace w)) sleeps_log E
                (sleeps_http_get E) (sleeps_datetime_now E) src w) as Hsleeps.
  cbv beta in Hsleeps.
  destruct (fetch_once E src w) as [out w'] eqn:Hrun. cbn [snd] in Hsleeps.
  exists w'. split; [exact Hsleeps|].
  unfold fetch_once in Hrun. rewrite run_log in Hrun. unfold bind at 1 in Hrun.
  destruct (http_get_cases E (src_url src)
              (add_events w [Log INFO "Fetching news from {}" (py (src_name src))]))
    as [[body Hget]|Hget]; rewrite Hget in Hrun.
  - unfold bind at 1 in Hrun.
    destruct (source_strategy (src_name src)) as [st|] eqn:Hst.
    + destruct (extract_articles_total E src st (src_name src) Hst
                  (soup_select E body (list_selector st))
                  (after_request
                     (add_events w
                        [Log INFO "Fetching news from {}" (py (src_name src))])
                     (src_url src)))
        as (articles & w1 & Hext & Hall & _).
      rewrite Hext in Hrun. rewrite run_log in Hrun. unfold ret in Hrun.
      injection Hrun as <- <-. left. exists articles.
      split; [reflexivity|]. split; [exact Hall|discriminate].
    + unfold ret at 1 in Hrun. rewrite run_log in Hrun. unfold ret in Hrun.
      injection Hrun as <- <-. left. exists [].
      split; [reflexivity|]. split; [constructor|reflexivity].
  - injection Hrun as <- <-. right. reflexivity.
Qed.

Lemma fetch_news_cases (E : environment) (src : news_source) (w : world) :
  exists articles w' pauses,
    fetch_news_from_source E src w = (Return (Some articles), w') /\
    Forall (fetched_from src) articles /\
    sleeps (trace w') = sleeps (trace w) ++ pauses /\
    (pauses = [] \/ pauses = [2] \/ pauses = [2; 4]) /\
    (source_strategy (src_name src) = None -> articles = []).
Proof.
  unfold fetch_news_from_source. cbn [fetch_loop].
  destruct (fetch_once_cases E src w)
    as (w1 & Hs1 & [(l & Hrun & Hall & Hnone)|Hrun]); rewrite Hrun.
  { exists l, w1, []. rewrite app_nil_r. auto 6. }
  cbn [except_RequestException]. rewrite run_log.
  change (0 <? max_retries - 1) with true. cbv iota.
  rewrite run_log, run_sleep.
  match goal with
  | |- context [fetch_once E src ?w2] =>
      destruct (fetch_once_cases E src w2)
        as (w3 & Hs3 & [(l & Hrun3 & Hall & Hnone)|Hrun3]); rewrite Hrun3
  end.
  { exists l, w3, [2]. split; [reflexivity|]. split; [exact Hall|].
    split; [|auto]. rewrite Hs3. unfold sleeps. autorewrite with world.
    cbn [omap list_omap]. fold (sleeps (trace w1)). rewrite Hs1.
    rewrite !app_nil_r. reflexivity. }
  cbn [except_RequestException]. rewrite run_log.
  change (1 <? max_retries - 1) with true. cbv iota.
  rewrite run_log, run_sleep.
  match goal with
  | |- context [fetch_once E src ?w4] =>
      destruct (fetch_once_cases E src w4)
        as (w5 & Hs5 & [(l & Hrun5 & Hall & Hnone)|Hrun5]); rewrite Hrun5
  end.
  { exists l, w5, [2; 4]. split; [reflexivity|]. split; [exact Hall|].
    split; [|auto]. rewrite Hs5. unfold sleeps. autorewrite with world.
    cbn [omap list_omap]. fold (sleeps (trace w3)). rewrite Hs3.
    unfold sleeps. autorewrite with world.
    cbn [omap list_omap]. fold (sleeps (trace w1)). rewrite Hs1.
    rewrite !app_nil_r, <- !app_assoc. reflexivity. }
  cbn [except_RequestException]. rewrite run_log.
  change (2 <? max_retries - 1) with false. cbv iota.
  rewrite run_log. unfold ret.
  exists []. eexists. exists [2; 4].
  split; [reflexivity|]. split; [constructor|].
  split; [|auto]. unfold sleeps. autorewrite with world.
  cbn [omap list_omap]. fold (sleeps (trace w5)). rewrite Hs5.
  unfold sleeps. autorewrite with world.
  cbn [omap list_omap]. fold (sleeps (trace w3)). rewrite Hs3.
  unfold sleeps. autorewrite with world.
  cbn [omap list_omap]. fold (sleeps (trace w1)). rewrite Hs1.
  rewrite !app_nil_r, <- !app_assoc. reflexivity.
Qed.


(** ** Storing under faults *)

Lemma db_ops_add_events w es : db_ops (add_events w es) = db_ops w.
Proof. reflexivity. Qed.

Lemma db_ops_after_db w stored : db_ops (after_db w stored) = S (db_ops w).
Proof. reflexivity. Qed.

#[local] Hint Rewrite db_ops_add_events db_ops_after_db : world.

Lemma store_loop_count (E : environment) (articles : list article) :
  forall (count : Z) (w : world) (out : outcome Z) (w' : world),
    store_loop E articles count w = (out, w') ->
    exists added,
      news_collection w' = news_collection w ++ added /\
      incl added articles /\
      (length added <= length articles)%nat /\
      (db_ops w <= db_ops w' <= db_ops w + 2 * length articles)%nat /\
      clock_reads w' = clock_reads w /\
      forall n, out = Return n -> n = count + Z.of_nat (length added).
Proof.
  induction articles as [|a rest IH]; intros count w out w' Hrun.
  - injection Hrun as <- <-. exists []. cbn [length]. rewrite app_nil_r.
    split; [reflexivity|]. split; [intros x []|]. split; [lia|].
    split; [lia|]. split; [reflexivity|].
    intros n Hn. injection Hn as <-. lia.
  - cbn [store_loop] in Hrun. unfold bind at 1 in Hrun.
    rewrite find_one_run in Hrun.
    destruct (mongo_fault E (db_ops w)).
    { injection Hrun as <- <-. exists []. cbn [length].
      autorewrite with world. rewrite app_nil_r.
      split; [reflexivity|]. split; [intros x []|]. split; [lia|].
      split; [lia|]. split; [reflexivity|]. discriminate. }
    destruct (List.find _ (news_collection w)) as [doc|] eqn:Hfind.
    + rewrite run_log in Hrun.
      destruct (IH _ _ _ _ Hrun) as (added & Hcoll & Hincl & Hlen & Hops & Hclock & Hn).
      exists added. autorewrite with world in *.
      split; [exact Hcoll|]. split; [intros x Hx; right; exact (Hincl x Hx)|].
      cbn [length]. split; [lia|]. split; [lia|].
      split; [exact Hclock|exact Hn].
    + unfold bind at 1 in Hrun. rewrite insert_one_run in Hrun.
      cbn [db_ops after_db] in Hrun.
      destruct (mongo_fault E (S (db_ops w))).
      { injection Hrun as <- <-. exists []. cbn [length].
        autorewrite with world. rewrite app_nil_r.
        split; [reflexivity|]. split; [intros x []|]. split; [lia|].
        split; [lia|]. split; [reflexivity|]. discriminate. }
      rewrite run_log in Hrun.
      destruct (IH _ _ _ _ Hrun) as (added & Hcoll & Hincl & Hlen & Hops & Hclock & Hn).
      exists (a :: added). autorewrite with world in *.
      rewrite <- app_assoc in Hcoll. cbn [app length].
      split; [exact Hcoll|].
      split; [intros x [<-|Hx]; [left; reflexivity|right; exact (Hincl x Hx)]|].
      split; [lia|]. split; [lia|]. split; [exact Hclock|].
      intros n Hout. specialize (Hn n Hout). lia.
Qed.

Lemma store_news_cases (E : environment) (articles : list article)
    (w : world) :
  exists n w' added,
    store_news_in_db E articles w = (Return n, w') /\
    news_collection w' = news_collection w ++ added /\
    incl added articles /\
    (length added <= length articles)%nat /\
    (n = Z.of_nat (length added) \/ n = 0) /\
    (db_ops w <= db_ops w' <= db_ops w + 2 * length articles)%nat /\
    (articles = [] -> w' = w).
Proof.
  destruct articles as [|a rest].
  { exists 0, w, []. rewrite app_nil_r. cbn [length].
    split; [reflexivity|]. split; [reflexivity|]. split; [intros x []|].
    split; [lia|]. split; [auto|]. split; [lia|auto]. }
  rewrite store_news_run by congruence.
  destruct (store_loop E (a :: rest) 0 w) as [out w1] eqn:Hloop.
  destruct (store_loop_count E (a :: rest) 0 w out w1 Hloop)
    as (added & Hcoll & Hincl & Hlen & Hops & _ & Hn).
  destruct out as [stored_count|e].
  - do 2 eexists. exists added. split; [reflexivity|].
    autorewrite with world. split; [exact Hcoll|]. split; [exact Hincl|].
    split; [exact Hlen|].
    split; [left; rewrite (Hn _ eq_refl); lia|]. split; [exact Hops|].
    discriminate.
  - do 2 eexists. exists added. split; [reflexivity|].
    autorewrite with world. split; [exact Hcoll|]. split; [exact Hincl|].
    split; [exact Hlen|].
    split; [right; reflexivity|]. split; [exact Hops|]. discriminate.
Qed.

(** X9. Whatever the database does, [store_news_in_db] returns a count and
    never raises.  The count is never more than what was added: it is the
    number of documents added, or 0 when an operation failed, though the
    documents added before the failure stay.  What is added comes from
    the batch and is no more than the batch has, with at most two
    database operations for each article; an empty batch does nothing at
    all. *)
Theorem store_news_in_db_count (E : environment) (articles : list article)
    (w : world) :
  exists n w' added,
    store_news_in_db E articles w = (Return n, w') /\
    news_collection w' = news_collection w ++ added /\
    incl added articles /\
    (length added <= length articles)%nat /\
    (n = Z.of_nat (length added) \/ n = 0) /\
    (db_ops w <= db_ops w' <= db_ops w + 2 * length articles)%nat /\
    (articles = [] -> w' = w).
Proof. exact (store_news_cases E articles w). Qed.

(** ** Reading *)

Section ReadFrames.
Context {X : Type} (part : world -> X) (E : environment).
Hypothesis part_log : forall l m a, untouched part (log l m a).
Hypothesis part_clock : untouched part (datetime_now E).
Hypothesis part_db : forall w, part (after_db w (news_collection w)) = part w.



End ReadFrames.

Lemma in_limit_to {A} (limit : nat) (l : list A) (x : A) :
  In x (limit_to limit l) -> In x l.
Proof.
  destruct limit as [|n]; [tauto|]. cbn [limit_to]. intros H.
  rewrite <- (take_drop (S n) l). apply in_or_app. left. exact H.
Qed.

Lemma minus_days_return (d : datetime) (days start_date : Z) :
  minus_days d days = Return start_date ->
  start_date = to_micros d - days * micros_per_day.
Proof.
  unfold minus_days.
  generalize (to_micros d - days * micros_per_day). intros z.
  destruct ((to_micros datetime_min <=? z) && (z <=? to_micros datetime_max));
    congruence.
Qed.

Lemma retrieved_sound (E : environment) (symbol : text) (days : Z)
    (limit : nat) (w : world) (a : article) :
  In a (retrieved E symbol days limit w) ->
  In a (news_collection w) /\ has_symbol symbol a = true /\
  to_micros (clock E (clock_reads w)) - days * micros_per_day <= date_key a /\
  date_key a <= to_micros (clock E (clock_reads w)).
Proof.
  unfold retrieved.
  destruct (minus_days (clock E (clock_reads w)) days) as [start_date|e]
    eqn:Hstart; [|intros []].
  destruct (mongo_fault E (db_ops w)); [intros []|].
  intros H. apply in_limit_to in H.
  apply (Permutation_in _ (sort_desc_perm date_key _)) in H.
  apply filter_In in H as [Hin Hq]. unfold matches_query in Hq.
  apply andb_prop in Hq as [Hq Hle]. apply andb_prop in Hq as [Hsym Hge].
  apply minus_days_return in Hstart.
  apply Z.leb_le in Hge, Hle.
  split; [exact Hin|]. split; [exact Hsym|]. rewrite <- Hstart.
  split; assumption.
Qed.



Lemma retrieved_fault (E : environment) (symbol : text) (days : Z)
    (limit : nat) (w : world) :
  mongo_fault E (db_ops w) = true -> retrieved E symbol days limit w = [].
Proof.
  intros Hfault. unfold retrieved. rewrite Hfault.
  destruct (minus_days _ days); reflexivity.
Qed.

(** X11. A database that fails is not told apart from one without news:
    [get_news_for_symbol] returns the empty list, and
    [get_sentiment_summary] the summary of a symbol without articles,
    count 0 and trend neutral, with no [error] entry. *)
Theorem database_failure_reads_as_no_news (E : environment) (symbol : text)
    (days : Z) (w : world) :
  mongo_fault E (db_ops w) = true ->
  (forall limit, exists w',
     get_news_for_symbol E symbol days limit w = (Return [], w')) /\
  exists summary w',
    get_sentiment_summary E symbol days w = (Return summary, w') /\
    summary = summary_without_articles symbol days /\
    summary !! "article_count" = Some (PInt 0) /\
    summary !! "sentiment_trend" = Some (PStr (py "neutral")) /\
    summary !! "error" = None.
Proof.
  intros Hfault. split.
  - intros limit. destruct (get_news_run E symbol days limit w) as [w' Hrun].
    rewrite (retrieved_fault E symbol days limit w Hfault) in Hrun. eauto.
  - destruct (summary_run E symbol days w) as (summary & w' & Hrun & Hcases).
    cbv zeta in Hcases.
    rewrite (retrieved_fault E symbol days 100 w Hfault) in Hcases.
    destruct Hcases as [[_ ->]|[[Hne _]|[Hne _]]]; try congruence.
    exists (summary_without_articles symbol days), w'.
    split; [exact Hrun|]. repeat split; reflexivity.
Qed.

Lemma database_failure_reads_as_no_news_witness :
  exists w',
    get_sentiment_summary db_down (py "2222.SR") 7 (fresh week)
    = (Return (summary_without_articles (py "2222.SR") 7), w').
Proof.
  destruct (database_failure_reads_as_no_news db_down (py "2222.SR") 7
              (fresh week) eq_refl)
    as (_ & summary & w' & Hrun & -> & _).
  exists w'. exact Hrun.
Defined.


(** ** Writing, then reading *)

Lemma summary_well_scored (E : environment) (symbol : text) (days : Z)
    (w : world) :
  Forall well_scored (news_collection w) ->
  exists summary w',
    get_sentiment_summary E symbol days w = (Return summary, w') /\
    summary !! "error" = None.
Proof.
  intros Hscored.
  destruct (summary_run E symbol days w) as (summary & w' & Hrun & Hcases).
  cbv zeta in Hcases. exists summary, w'. split; [exact Hrun|].
  destruct Hcases as [[_ ->]|[(_ & c & p & n & u & _ & _ & _ & _ & ->)
                             |(Hne & e & key & Hkey & Havg & _)]].
  - reflexivity.
  - apply summary_of_lookups.
  - exfalso.
    destruct (average_numeric (score key <$> retrieved E symbol days 100 w))
      as (q & Hq & _).
    + destruct (retrieved E symbol days 100 w); [congruence|discriminate].
    + apply numeric_scores. intros a Ha.
      apply retrieved_sound in Ha as [Hin _].
      rewrite List.Forall_forall in Hscored. exact (Hscored a Hin key Hkey).
    + congruence.
Qed.

(** X13. When the four scores of every stored document are numbers (an
    absent score counts as 0.0), [get_sentiment_summary] never gives the
    error report. *)
Theorem summary_of_well_scored (E : environment) (symbol : text) (days : Z)
    (w : world) :
  Forall well_scored (news_collection w) ->
  exists summary w',
    get_sentiment_summary E symbol days w = (Return summary, w') /\
    summary !! "error" = None.
Proof. exact (summary_well_scored E symbol days w). Qed.

Lemma week_well_scored : Forall well_scored (news_collection (fresh week)).
Proof.
  repeat constructor; intros key Hin; cbn in Hin;
    destruct Hin as [<-|[<-|[<-|[<-|[]]]]]; eexists; reflexivity.
Qed.

Lemma summary_of_well_scored_witness :
  exists summary w',
    get_sentiment_summary offline (py "2222.SR") 7 (fresh week)
    = (Return summary, w') /\
    summary !! "error" = None.
Proof.
  exact (summary_of_well_scored offline (py "2222.SR") 7 (fresh week)
           week_well_scored).
Defined.




(** ** The symbols of a text, without the matcher *)

Lemma findall_symbol_sound (E : environment) :
  forall (s : text) (skip : nat) (caps : list text),
    In caps (findall_from (symbol_pattern E) skip s) ->
    exists u d v,
      s = u ++ d ++ dot_SR ++ v /\ four_digits (unicode E) d /\ caps = [d].
Proof.
  induction s as [|c s IH]; intros skip caps Hin.
  - destruct skip; cbn [findall_from] in Hin; [|destruct Hin].
    rewrite symbol_match_at in Hin. destruct Hin.
  - destruct skip as [|n]; cbn [findall_from] in Hin.
    + destruct (match_at (symbol_pattern E) (c :: s)) as [[caps0 rest]|] eqn:Hm.
      * destruct Hin as [<-|Hin].
        -- apply symbol_match_inv in Hm as (d & Hd & Hs & ->).
           exists [], d, rest. auto.
        -- destruct (IH _ _ Hin) as (u & d & v & -> & Hd & ->).
           exists (c :: u), d, v. auto.
      * destruct (IH _ _ Hin) as (u & d & v & -> & Hd & ->).
        exists (c :: u), d, v. auto.
    + destruct (IH _ _ Hin) as (u & d & v & -> & Hd & ->).
      exists (c :: u), d, v. auto.
Qed.

Lemma startswith_prefix (s p : text) :
  startswith s p = true -> exists post, s = p ++ post.
Proof.
  revert s. induction p as [|c p IH]; intros s H; [exists s; reflexivity|].
  destruct s as [|x s]; [discriminate|]. cbn [startswith] in H.
  apply andb_prop in H as [Hc H]. apply N.eqb_eq in Hc as ->.
  destruct (IH s H) as [post ->]. exists post. reflexivity.
Qed.

Lemma contains_occurs (needle s : text) :
  contains needle s = true <-> occurs needle s.
Proof.
  split.
  - induction s as [|c s IH]; cbn [contains]; intros H.
    + rewrite orb_false_r in H. apply startswith_prefix in H as [post ->].
      exists [], post. reflexivity.
    + apply orb_prop in H as [H|H].
      * apply startswith_prefix in H as [post ->]. exists [], post. reflexivity.
      * destruct (IH H) as (pre & post & ->). exists (c :: pre), post.
        reflexivity.
  - intros (pre & post & ->). apply contains_app.
Qed.

Lemma in_names_found (tl x : text) :
  In x (names_found tl) <->
  exists name, In (name, x) stock_name_mapping /\ occurs name tl.
Proof.
  unfold names_found. split.
  - intros H. apply in_map_iff in H as ([name y] & Hy & H). cbn [snd] in Hy.
    subst y. apply filter_In in H as [Hin Hc]. cbn [fst] in Hc.
    exists name. split; [exact Hin|]. apply contains_occurs. exact Hc.
  - intros (name & Hin & Hocc).
    apply (in_map snd _ (name, x)). apply filter_In. split; [exact Hin|].
    cbn [fst]. apply contains_occurs. exact Hocc.
Qed.

(** X15. The symbols of a text, said without the pattern matcher: a string
    is among them exactly when it is four decimal digits followed by
    [.SR] and occurs in the text, or is the ticker of a name of the
    mapping that occurs in the lower-cased text. *)
Theorem extract_symbols_exact (E : environment) (s x : text) :
  In x (_extract_stock_symbols E s) <->
  (exists d, four_digits (unicode E) d /\ x = d ++ dot_SR /\ occurs x s) \/
  (exists name,
     In (name, x) stock_name_mapping /\ occurs name (lower (unicode E) s)).
Proof.
  rewrite in_extract_symbols, in_names_found. split.
  - intros [H|H]; [left|right; exact H].
    apply in_map_iff in H as (d & <- & H). unfold re_findall in H.
    apply in_map_iff in H as (caps & Hd & H).
    apply findall_symbol_sound in H as (u & d' & v & -> & Hfour & ->).
    cbn [nth] in Hd. subst d'. exists d. split; [exact Hfour|].
    split; [reflexivity|]. exists u, v. rewrite <- app_assoc. reflexivity.
  - intros [(d & Hd & -> & (pre & post & ->))|H]; [left|right; exact H].
    apply (in_map (fun d => d ++ py ".SR") _ d).
    rewrite <- app_assoc. apply re_findall_symbol. exact Hd.
Qed.

(** X16. Every symbol returned has seven characters: four decimal digits
    and [.SR]. *)
Theorem extract_symbols_shape (E : environment) (s x : text) :
  In x (_extract_stock_symbols E s) ->
  length x = 7%nat /\
  exists d, four_digits (unicode E) d /\ x = d ++ dot_SR.
Proof.
  intros H. apply in_extract_symbols in H as [H|H].
  - apply in_map_iff in H as (d & <- & H). unfold re_findall in H.
    apply in_map_iff in H as (caps & Hd & H).
    apply findall_symbol_sound in H as (u & d' & v & _ & Hfour & ->).
    cbn [nth] in Hd. subst d'. split.
    + rewrite length_app. destruct Hfour as [-> _]. reflexivity.
    + exists d. split; [exact Hfour|reflexivity].
  - apply in_names_found in H as (name & Hin & _).
    assert (Hall : Forall (fun entry : text * text =>
                     length (snd entry) = 7%nat /\
                     drop 4 (snd entry) = dot_SR /\
                     forallb (fun c => is_ascii c && (48 <=? c)%N && (c <=? 57)%N)
                       (take 4 (snd entry)) = true)
                     stock_name_mapping)
      by (repeat constructor).
    rewrite List.Forall_forall in Hall.
    destruct (Hall _ Hin) as (Hlen & Hdrop & Hdigits). cbn [snd] in *.
    split; [exact Hlen|]. exists (take 4 x). split.
    + split; [rewrite length_take; lia|].
      apply forallb_forall. intros c Hc.
      rewrite forallb_forall in Hdigits. specialize (Hdigits c Hc).
      apply andb_prop in Hdigits as [Hd Hhi]. apply andb_prop in Hd as [Ha Hlo].
      unfold isdigit. rewrite Ha, Hlo, Hhi. reflexivity.
    + rewrite <- Hdrop, take_drop. reflexivity.
Qed.

Lemma extract_symbols_shape_witness :
  length (py "2010.SR") = 7%nat /\
  exists d, four_digits ascii_only d /\ py "2010.SR" = d ++ dot_SR.
Proof.
  apply (extract_symbols_shape offline (py "Sabic outlook") (py "2010.SR")).
  vm_compute. left. reflexivity.
Defined.

(** ** The collection job *)

Lemma run_call_log {A} (l : level) (m : string) (a : text) (k : unit -> J A)
    (r : results) (w : world) :
  jbind (call (log l m a)) k r w = k tt r (add_events w [Log l m a]).
Proof. reflexivity. Qed.

Lemma run_update {A} (f : results -> results) (k : unit -> J A)
    (r : results) (w : world) :
  jbind (update f) k r w = k tt (f r) w.
Proof. reflexivity. Qed.

Lemma collect_source_run (E : environment) (src : news_source) (r : results)
    (w : world) :
  exists articles w',
    fetch_news_from_source E src
      (add_events w [Log INFO "Collecting news from {}" (py (src_name src))])
    = (Return (Some articles), w') /\
    collect_source E src r w
    = (Return articles,
       add_total (Z.of_nat (length articles))
         (set_source (src_name src) (Z.of_nat (length articles)) r), w').
Proof.
  destruct (fetch_news_cases E src
              (add_events w [Log INFO "Collecting news from {}" (py (src_name src))]))
    as (articles & w' & pauses & Hrun & _).
  exists articles, w'. split; [exact Hrun|].
  unfold collect_source, jtry. rewrite run_call_log.
  unfold jbind at 1, call at 1. rewrite Hrun.
  rewrite !run_update. reflexivity.
Qed.

Lemma process_one_run (E : environment) (a : article) (r : results) (w : world) :
  exists a' w',
    process_news_article E a w = (Return a', w') /\
    process_one E a r w = (Return [a'], add_processed 1 r, w').
Proof.
  destruct (process_news_article_run E a w)
    as (t & c & scores & now & w' & Hrun & _).
  do 2 eexists. split; [exact Hrun|].
  unfold process_one, jtry. unfold jbind at 1, call at 1. rewrite Hrun.
  rewrite run_update. reflexivity.
Qed.

Lemma http_get_frame {X} (part : world -> X) (E : environment) :
  (forall w u, part (after_request w u) = part w) ->
  forall target, untouched part (http_get E target).
Proof.
  intros Hpart target w.
  destruct (http_get_cases E target w) as [[body ->]| ->]; apply Hpart.
Qed.

Lemma fetch_news_frame (E : environment) (src : news_source) (w : world) :
  news_collection (snd (fetch_news_from_source E src w)) = news_collection w /\
  db_ops (snd (fetch_news_from_source E src w)) = db_ops w /\
  translate_calls (snd (fetch_news_from_source E src w)) = translate_calls w.
Proof.
  split; [|split].
  - apply (untouched_fetch_news_from_source news_collection);
      [intros ? ? ? w0; reflexivity
      |apply http_get_frame; reflexivity
      |intros w0; reflexivity
      |intros ? w0; reflexivity].
  - apply (untouched_fetch_news_from_source db_ops);
      [intros ? ? ? w0; reflexivity
      |apply http_get_frame; reflexivity
      |intros w0; reflexivity
      |intros ? w0; reflexivity].
  - apply (untouched_fetch_news_from_source translate_calls);
      [intros ? ? ? w0; reflexivity
      |apply http_get_frame; reflexivity
      |intros w0; reflexivity
      |intros ? w0; reflexivity].
Qed.

Lemma process_frame (E : environment) (a : article) (w : world) :
  news_collection (snd (process_news_article E a w)) = news_collection w /\
  db_ops (snd (process_news_article E a w)) = db_ops w /\
  http_calls (snd (process_news_article E a w)) = http_calls w.
Proof.
  split; [|split].
  - apply (untouched_process_news_article news_collection);
      [intros ? ? ? w0; reflexivity
      |intros ? w0; reflexivity
      |intros ? ? ? w0; reflexivity
      |intros w0; reflexivity].
  - apply (untouched_process_news_article db_ops);
      [intros ? ? ? w0; reflexivity
      |intros ? w0; reflexivity
      |intros ? ? ? w0; reflexivity
      |intros w0; reflexivity].
  - apply (untouched_process_news_article http_calls);
      [intros ? ? ? w0; reflexivity
      |intros ? w0; reflexivity
      |intros ? ? ? w0; reflexivity
      |intros w0; reflexivity].
Qed.

Lemma collect_loop_run (E : environment) :
  forall (srcs : list news_source) (all_articles : list article)
         (r : results) (w : world),
    List.NoDup (src_name <$> srcs) ->
    exists fetched r' w',
      collect_loop E srcs all_articles r w
      = (Return (all_articles ++ fetched), r', w') /\
      total_articles r' = total_articles r + Z.of_nat (length fetched) /\
      Z.of_nat (length fetched) = foldr Z.add 0 (count_of r' <$> srcs) /\
      (forall src, In src srcs -> is_Some (sources r' !! src_name src)) /\
      (forall k, ~ In k (src_name <$> srcs) ->
                 sources r' !! k = sources r !! k) /\
      processed_articles r' = processed_articles r /\
      stored_articles r' = stored_articles r /\ errors r' = errors r /\
      news_collection w' = news_collection w /\ db_ops w' = db_ops w.
Proof.
  induction srcs as [|src rest IH]; intros all_articles r w Hnd.
  - exists [], r, w. cbn [collect_loop]. unfold jret. rewrite app_nil_r.
    split; [reflexivity|]. cbn [length fmap list_fmap foldr].
    split; [lia|]. split; [reflexivity|]. split; [intros src []|]. auto 8.
  - cbn [fmap list_fmap] in Hnd. apply List.NoDup_cons_iff in Hnd as [Hfresh Hnd].
    cbn [collect_loop]. unfold jbind at 1.
    destruct (collect_source_run E src r w) as (articles & w1 & Hfetch & ->).
    destruct (IH (all_articles ++ articles)
                (add_total (Z.of_nat (length articles))
                   (set_source (src_name src) (Z.of_nat (length articles)) r))
                w1 Hnd)
      as (fetched & r' & w' & -> & Htotal & Hsum & Hsome & Hkeep & Hp & Hs & He
          & Hc & Hd).
    pose proof (fetch_news_frame E src
                  (add_events w
                     [Log INFO "Collecting news from {}" (py (src_name src))]))
      as (Hfc & Hfd & _).
    rewrite Hfetch in Hfc, Hfd. cbn [snd] in Hfc, Hfd.
    assert (Hsrc : sources r' !! src_name src
                   = Some (Z.of_nat (length articles))).
    { rewrite (Hkeep _ Hfresh). cbn [sources add_total set_source].
      apply lookup_insert_eq. }
    exists (articles ++ fetched), r', w'. rewrite <- app_assoc.
    split; [reflexivity|].
    cbn [total_articles add_total set_source] in Htotal.
    split; [rewrite length_app; lia|]. split.
    { cbn [fmap list_fmap foldr]. unfold count_of at 1. rewrite Hsrc.
      cbn [from_option id]. cbn [fmap] in Hsum. rewrite <- Hsum, length_app. lia. }
    split.
    { intros s [<-|Hin]; [rewrite Hsrc; eexists; reflexivity|exact (Hsome s Hin)]. }
    split.
    { intros k Hk. cbn [fmap list_fmap] in Hk.
      rewrite Hkeep by (intros Hin; apply Hk; right; exact Hin).
      cbn [sources add_total set_source]. apply lookup_insert_ne.
      intros Heq. apply Hk. left. exact Heq. }
    cbn in Hp, Hs, He. rewrite Hc, Hd, Hfc, Hfd.
    autorewrite with world. auto 6.
Qed.

Lemma process_loop_run (E : environment) :
  forall (all_articles processed_articles0 : list article)
         (r : results) (w : world),
    exists processed r' w',
      process_loop E all_articles processed_articles0 r w
      = (Return (processed_articles0 ++ processed), r', w') /\
      length processed = length all_articles /\
      Forall well_scored processed /\
      processed_articles r'
      = processed_articles r + Z.of_nat (length all_articles) /\
      total_articles r' = total_articles r /\
      stored_articles r' = stored_articles r /\
      sources r' = sources r /\ errors r' = errors r /\
      news_collection w' = news_collection w /\ db_ops w' = db_ops w.
Proof.
  induction all_articles as [|a rest IH]; intros done r w.
  - exists [], r, w. cbn [process_loop]. unfold jret. rewrite app_nil_r.
    cbn [length]. split; [reflexivity|]. split; [reflexivity|].
    split; [constructor|]. split; [lia|]. auto 8.
  - cbn [process_loop]. unfold jbind at 1.
    destruct (process_one_run E a r w) as (a' & w1 & Hrun & ->).
    destruct (IH (done ++ [a']) (add_processed 1 r) w1)
      as (processed & r' & w' & -> & Hlen & Hall & Hp & Ht & Hs & Hsrc & He
          & Hc & Hd).
    pose proof (process_frame E a w) as (Hpc & Hpd & _).
    rewrite Hrun in Hpc, Hpd. cbn [snd] in Hpc, Hpd.
    exists (a' :: processed), r', w'. rewrite <- app_assoc.
    split; [reflexivity|]. cbn [length]. split; [lia|]. split.
    { constructor; [|exact Hall].
      destruct (process_news_article_run E a w)
        as (t & c & scores & now & w2 & Hrun2 & Hkeys & _).
      rewrite Hrun in Hrun2. injection Hrun2 as -> _.
      eapply well_scored_sentiment; [reflexivity|exact Hkeys]. }
    cbn in Hp, Ht, Hs, Hsrc, He. rewrite Hc, Hd.
    split; [lia|]. auto 8.
Qed.

Lemma news_sources_distinct : List.NoDup (src_name <$> news_sources).
Proof.
  repeat constructor; cbn; intros H;
    repeat (destruct H as [H|H]; [discriminate|]); exact H.
Qed.

Lemma collect_cases (E : environment) (w : world) :
  exists r w' added,
    collect_and_analyze_news E w = (Return r, w') /\
    errors r = [] /\
    processed_articles r = total_articles r /\
    total_articles r = foldr Z.add 0 (count_of r <$> news_sources) /\
    (forall src, In src news_sources -> is_Some (sources r !! src_name src)) /\
    0 <= stored_articles r <= processed_articles r /\
    news_collection w' = news_collection w ++ added /\
    (stored_articles r = Z.of_nat (length added) \/ stored_articles r = 0) /\
    Forall well_scored added /\
    (List.NoDup (urls (news_collection w)) ->
     List.NoDup (urls (news_collection w'))).
Proof.
  unfold collect_and_analyze_news, collect_job, jtry. unfold jbind at 1.
  destruct (collect_loop_run E news_sources [] no_results w
              news_sources_distinct)
    as (fetched & r1 & w1 & -> & Htotal & Hsum & Hsome & _ & Hp1 & _ & He1
        & Hc1 & _).
  cbn [app]. unfold jbind at 1.
  destruct (process_loop_run E fetched [] r1 w1)
    as (processed & r2 & w2 & -> & Hlen & Hscored & Hp2 & Ht2 & _ & Hsrc2
        & He2 & Hc2 & _).
  cbn [app]. unfold jbind at 1, call at 1.
  destruct (store_news_cases E processed w2)
    as (n & w3 & added & Hstore & Hcoll & Hincl & Hadded & Hn & _).
  pose proof (store_news_collection E processed w2) as (n' & _ & Hsame).
  pose proof (store_loop_invariant E processed 0 w2) as Hinv.
  rewrite Hstore in *. cbn [snd] in Hsame.
  rewrite run_update, run_call_log. unfold the_results.
  do 2 eexists. exists added. split; [reflexivity|].
  cbn [errors processed_articles total_articles stored_articles sources
       set_stored count_of].
  cbn in Htotal, Hp1, He1.
  split; [congruence|]. split; [lia|].
  split.
  { rewrite Ht2, Htotal, Hsum. unfold count_of. cbn [sources set_stored].
    rewrite Hsrc2. reflexivity. }
  split; [intros src Hin; rewrite Hsrc2; exact (Hsome src Hin)|].
  split; [destruct Hn as [-> | ->]; lia|].
  autorewrite with world. split; [congruence|]. split; [exact Hn|].
  split.
  { rewrite List.Forall_forall in *. intros a Ha. exact (Hscored a (Hincl a Ha)). }
  intros Hnd. rewrite <- Hc1, <- Hc2 in Hnd.
  destruct (Hinv Hnd) as (added' & Heq & Hnd' & _).
  rewrite Hsame, Heq. exact Hnd'.
Qed.


Lemma fetch_news_down (E : environment) (src : news_source) (w : world) :
  source_down E src ->
  exists w',
    fetch_news_from_source E src w = (Return (Some []), w') /\
    http_calls w' = (http_calls w + 3)%nat /\
    sleeps (trace w') = sleeps (trace w) ++ [2; 4].
Proof.
  intros Hdown. unfold fetch_news_from_source. cbn [fetch_loop].
  rewrite (fetch_once_down E src w Hdown).
  cbn [except_RequestException]. rewrite run_log.
  change (0 <? max_retries - 1) with true. cbv iota.
  rewrite run_log, run_sleep.
  rewrite (fetch_once_down E src _ Hdown).
  cbn [except_RequestException]. rewrite run_log.
  change (1 <? max_retries - 1) with true. cbv iota.
  rewrite run_log, run_sleep.
  rewrite (fetch_once_down E src _ Hdown).
  cbn [except_RequestException]. rewrite run_log.
  change (2 <? max_retries - 1) with false. cbv iota.
  rewrite run_log. unfold ret.
  eexists. split; [reflexivity|].
  unfold sleeps. autorewrite with world. cbn [omap list_omap].
  rewrite !app_nil_r, <- !app_assoc. split; [lia|reflexivity].
Qed.

Lemma collect_loop_down (E : environment) :
  forall (srcs : list news_source),
    (forall src, In src srcs -> source_down E src) ->
    forall (all_articles : list article) (r : results) (w : world),
      exists w',
        collect_loop E srcs all_articles r w
        = (Return all_articles,
           foldl (fun r src => add_total 0 (set_source (src_name src) 0 r))
             r srcs, w') /\
        http_calls w' = (http_calls w + 3 * length srcs)%nat /\
        sleeps (trace w')
        = sleeps (trace w) ++ concat ((fun _ => [2; 4]) <$> srcs) /\
        news_collection w' = news_collection w /\ db_ops w' = db_ops w.
Proof.
  induction srcs as [|src rest IH]; intros Hdown all_articles r w.
  - exists w. cbn [collect_loop foldl length fmap list_fmap concat].
    rewrite app_nil_r. unfold jret. split; [reflexivity|]. split; [lia|]. auto.
  - cbn [collect_loop]. unfold jbind at 1.
    destruct (collect_source_run E src r w) as (articles & w1 & Hfetch & ->).
    destruct (fetch_news_down E src
                (add_events w
                   [Log INFO "Collecting news from {}" (py (src_name src))])
                (Hdown src (or_introl eq_refl)))
      as (w1' & Hrun & Hcalls & Hsleeps).
    pose proof (fetch_news_frame E src
                  (add_events w
                     [Log INFO "Collecting news from {}" (py (src_name src))]))
      as (Hfc & Hfd & _).
    rewrite Hfetch in Hrun, Hfc, Hfd. cbn [snd] in Hfc, Hfd.
    injection Hrun as -> <-.
    destruct (IH (fun s Hs => Hdown s (or_intror Hs)) (all_articles ++ [])
                (add_total (Z.of_nat (length (@nil article)))
                   (set_source (src_name src)
                      (Z.of_nat (length (@nil article))) r)) w1)
      as (w' & -> & Hcalls' & Hsleeps' & Hc & Hd).
    exists w'. rewrite app_nil_r. cbn [foldl length Z.of_nat].
    split; [reflexivity|].
    autorewrite with world in Hcalls. split; [cbn [length]; lia|].
    split.
    { rewrite Hsleeps', Hsleeps. unfold sleeps. autorewrite with world.
      cbn [omap list_omap fmap list_fmap concat].
      rewrite !app_nil_r, <- !app_assoc. reflexivity. }
    rewrite Hc, Hd, Hfc, Hfd. autorewrite with world. auto.
Qed.

(** X18. With every source unreachable the job makes three requests to
    each, fifteen in all, pausing 2 and 4 seconds for each source, and
    reports nothing but zeros: no article, a count of 0 for each source,
    and an empty [errors] list.  The database is not touched. *)
Theorem collect_with_network_down (E : environment) (w : world) :
  (forall src, In src news_sources -> source_down E src) ->
  exists r w',
    collect_and_analyze_news E w = (Return r, w') /\
    total_articles r = 0 /\ processed_articles r = 0 /\
    stored_articles r = 0 /\ errors r = [] /\
    (forall src, In src news_sources -> sources r !! src_name src = Some 0) /\
    http_calls w' = (http_calls w + 15)%nat /\
    sleeps (trace w') = sleeps (trace w) ++ [2; 4; 2; 4; 2; 4; 2; 4; 2; 4] /\
    news_collection w' = news_collection w /\ db_ops w' = db_ops w.
Proof.
  intros Hdown.
  unfold collect_and_analyze_news, collect_job, jtry. unfold jbind at 1.
  destruct (collect_loop_down E news_sources Hdown [] no_results w)
    as (w1 & -> & Hcalls & Hsleeps & Hc & Hd).
  unfold jbind at 1. cbn [process_loop]. unfold jret at 1.
  unfold jbind at 1, call at 1. cbn [store_news_in_db]. unfold ret at 1.
  rewrite run_update, run_call_log. unfold the_results.
  do 2 eexists. split; [reflexivity|].
  split; [reflexivity|]. split; [reflexivity|]. split; [reflexivity|].
  split; [reflexivity|]. split.
  { intros src Hin. cbn in Hin.
    destruct Hin as [<-|[<-|[<-|[<-|[<-|[]]]]]]; reflexivity. }
  autorewrite with world. split; [exact Hcalls|]. split; [|auto].
  unfold sleeps. autorewrite with world. cbn [omap list_omap].
  fold (sleeps (trace w1)). rewrite Hsleeps, app_nil_r. reflexivity.
Qed.

Lemma collect_with_network_down_witness :
  exists r w',
    collect_and_analyze_news offline (fresh []) = (Return r, w') /\
    total_articles r = 0 /\ errors r = [] /\
    http_calls w' = 15%nat /\ db_ops w' = 0%nat.
Proof.
  destruct (collect_with_network_down offline (fresh []))
    as (r & w' & Hrun & Ht & _ & _ & He & _ & Hcalls & _ & _ & Hd).
  - intros src _ n. reflexivity.
  - exists r, w'. auto.
Defined.

(** ** From an article to a query *)

(** X19. [translate_text] returns a string whatever the service does: it
    neither raises nor returns [None].  Blank text gives the empty string
    with no call and no log; in every case the database, the network and
    the clock are left alone. *)
Theorem translate_text_total (E : environment) (s : text) (src dest : string)
    (w : world) :
  exists t w',
    translate_text E s src dest w = (Return (Some t), w') /\
    (blank (unicode E) s = true -> t = [] /\ w' = w) /\
    news_collection w' = news_collection w /\ db_ops w' = db_ops w /\
    http_calls w' = http_calls w /\ clock_reads w' = clock_reads w.
Proof.
  destruct (translate_loop_total E s src dest [0; 1; 2] 2 w)
    as (t & w' & Hrun); [congruence | reflexivity |].
  fold (translate_text E s src dest) in Hrun.
  exists t, w'. split; [exact Hrun|]. split.
  - intros Hblank. revert Hrun. unfold translate_text. cbn [translate_loop].
    unfold translate_once. rewrite Hblank. unfold ret. intros H.
    injection H as <- <-. auto.
  - pose proof (untouched_translate_text news_collection
                  ltac:(intros ? ? ? w0; reflexivity) E
                  ltac:(intros ? w0; reflexivity)
                  ltac:(intros ? ? ? w0; reflexivity) s src dest w) as Hc.
    pose proof (untouched_translate_text db_ops
                  ltac:(intros ? ? ? w0; reflexivity) E
                  ltac:(intros ? w0; reflexivity)
                  ltac:(intros ? ? ? w0; reflexivity) s src dest w) as Hd.
    pose proof (untouched_translate_text http_calls
                  ltac:(intros ? ? ? w0; reflexivity) E
                  ltac:(intros ? w0; reflexivity)
                  ltac:(intros ? ? ? w0; reflexivity) s src dest w) as Hh.
    pose proof (untouched_translate_text clock_reads
                  ltac:(intros ? ? ? w0; reflexivity) E
                  ltac:(intros ? w0; reflexivity)
                  ltac:(intros ? ? ? w0; reflexivity) s src dest w) as Hk.
    rewrite Hrun in Hc, Hd, Hh, Hk. auto.
Qed.




(** X21. After a run of the collection job on a database whose documents
    have numeric scores, [get_sentiment_summary] gives no error report,
    for any symbol and period, whatever went wrong during the run. *)
Theorem summary_after_collection (E : environment) (symbol : text) (days : Z)
    (w : world) :
  Forall well_scored (news_collection w) ->
  exists r w1 summary w2,
    collect_and_analyze_news E w = (Return r, w1) /\
    get_sentiment_summary E symbol days w1 = (Return summary, w2) /\
    summary !! "error" = None.
Proof.
  intros Hscored.
  destruct (collect_cases E w)
    as (r & w1 & added & Hrun & _ & _ & _ & _ & _ & Hcoll & _ & Hadded & _).
  destruct (summary_well_scored E symbol days w1) as (summary & w2 & Hsum & Herr).
  - rewrite Hcoll. apply Forall_app. split; assumption.
  - exists r, w1, summary, w2. auto.
Qed.

Lemma summary_after_collection_witness :
  exists r w1 summary w2,
    collect_and_analyze_news recovering (fresh week) = (Return r, w1) /\
    get_sentiment_summary recovering (py "2222.SR") 7 w1 = (Return summary, w2) /\
    summary !! "error" = None.
Proof.
  exact (summary_after_collection recovering (py "2222.SR") 7 (fresh week)
           week_well_scored).
Defined.

Lemma strongly_sorted_app {A} (R : A -> A -> Prop) (l1 l2 : list A) :
  StronglySorted R (l1 ++ l2) ->
  forall a b, In a l1 -> In b l2 -> R a b.
Proof.
  induction l1 as [|x l1 IH]; intros Hs a b Ha Hb; [destruct Ha|].
  cbn [app] in Hs. apply StronglySorted_inv in Hs as [Hs Hall].
  destruct Ha as [<-|Ha]; [|exact (IH Hs a b Ha Hb)].
  rewrite List.Forall_forall in Hall. apply Hall. apply in_or_app. right.
  exact Hb.
Qed.

Lemma not_older_trans (a b c : article) :
  not_older a b -> not_older b c -> not_older a c.
Proof. unfold not_older. lia. Qed.

(** X22. When the limit cuts the result of [get_news_for_symbol], the
    newest documents are kept: a stored document of the symbol within the
    window that is not returned is not newer than any that is. *)
Theorem get_news_keeps_newest (E : environment) (symbol : text) (days : Z)
    (limit : nat) (w w' : world) (news : list article) (a b : article) :
  get_news_for_symbol E symbol days limit w = (Return news, w') ->
  In a news -> In b (in_window E symbol days w) -> ~ In b news ->
  date_key b <= date_key a.
Proof.
  intros Hrun Ha Hb Hnot.
  destruct (get_news_run E symbol days limit w) as [w0 Hget].
  rewrite Hget in Hrun. injection Hrun as <- _.
  unfold retrieved, in_window in *.
  destruct (minus_days (clock E (clock_reads w)) days) as [start_date|e];
    [|destruct Ha].
  destruct (mongo_fault E (db_ops w)); [destruct Ha|].
  set (hits := List.filter _ (news_collection w)) in *.
  apply (Permutation_in _ (Permutation_sym (sort_desc_perm date_key hits)))
    in Hb.
  destruct limit as [|n]; cbn [limit_to] in *; [contradiction|].
  rewrite <- (take_drop (S n) (sort_desc date_key hits)) in Hb.
  apply in_app_or in Hb as [Hb|Hb]; [contradiction|].
  assert (Hs : StronglySorted not_older (sort_desc date_key hits)).
  { apply Sorted_StronglySorted; [|apply sort_desc_sorted].
    intros x y z. apply not_older_trans. }
  rewrite <- (take_drop (S n) (sort_desc date_key hits)) in Hs.
  exact (strongly_sorted_app not_older _ _ Hs a b Ha Hb).
Qed.

Lemma get_news_keeps_newest_witness :
  exists news w',
    get_news_for_symbol offline (py "2222.SR") 7 2 (fresh week)
    = (Return news, w') /\
    In wednesday_article news /\ ~ In tuesday_article news /\
    date_key tuesday_article <= date_key wednesday_article.
Proof.
  destruct (get_news_run offline (py "2222.SR") 7 2 (fresh week)) as [w' Hrun].
  assert (Ha : In wednesday_article
                 (retrieved offline (py "2222.SR") 7 2 (fresh week)))
    by (vm_compute; right; left; reflexivity).
  assert (Hb : In tuesday_article
                 (in_window offline (py "2222.SR") 7 (fresh week)))
    by (vm_compute; left; reflexivity).
  assert (Hnot : ~ In tuesday_article
                     (retrieved offline (py "2222.SR") 7 2 (fresh week)))
    by (vm_compute; intros [H|[H|[]]]; discriminate).
  exists (retrieved offline (py "2222.SR") 7 2 (fresh week)), w'.
  split; [exact Hrun|]. split; [exact Ha|]. split; [exact Hnot|].
  exact (get_news_keeps_newest offline (py "2222.SR") 7 2 (fresh week) w'
           _ wednesday_article tuesday_article Hrun Ha Hb Hnot).
Defined.

(** ** Further edges *)

(** X23. The names of the mapping are looked for in the lower-cased text,
    as substrings: a name written in any mix of upper and lower case,
    also inside a longer word, puts its ticker among the symbols. *)
Theorem named_company_found (E : environment) (s name ticker : text) :
  In (name, ticker) stock_name_mapping -> occurs_any_case name s ->
  In ticker (_extract_stock_symbols E s).
Proof.
  intros Hin Hocc. apply in_extract_symbols. right.
  apply in_names_found. exists name. split; [exact Hin|].
  apply contains_occurs. apply lower_contains; [|exact Hocc].
  assert (Hall : Forall (fun entry : text * text =>
                           forallb is_ascii (fst entry) = true)
                   stock_name_mapping) by (repeat constructor).
  rewrite List.Forall_forall in Hall. exact (Hall _ Hin).
Qed.

Lemma named_company_found_witness :
  In (py "7010.SR") (_extract_stock_symbols offline (py "A poSTCard from Riyadh")).
Proof.
  apply (named_company_found offline (py "A poSTCard from Riyadh")
           (py "stc") (py "7010.SR")).
  - do 5 right. left. reflexivity.
  - exists (py "A po"), (py "STC"), (py "ard from Riyadh").
    split; reflexivity.
Defined.

Section FetchedArticles.
Variables (E : environment) (src : news_source) (P : article -> Prop).
Hypothesis extracted :
  forall st element w w' a,
    extract_article E src st element w = (Return (Some a), w') -> P a.



End FetchedArticles.



Lemma filter_none {A} (f : A -> bool) (l : list A) :
  (forall x, In x l -> f x = false) -> List.filter f l = [].
Proof.
  induction l as [|x l IH]; intros H; [reflexivity|].
  cbn [List.filter]. rewrite (H x (or_introl eq_refl)).
  apply IH. intros y Hy. apply H. right. exact Hy.
Qed.

(** X25. A negative number of days asks for a window that ends before it
    starts: [get_news_for_symbol] returns the empty list, and
    [get_sentiment_summary] the summary of a symbol without articles. *)
Theorem negative_days_give_nothing (E : environment) (symbol : text)
    (days : Z) (w : world) :
  days < 0 ->
  (forall limit, exists w',
     get_news_for_symbol E symbol days limit w = (Return [], w')) /\
  exists w',
    get_sentiment_summary E symbol days w
    = (Return (summary_without_articles symbol days), w').
Proof.
  intros Hdays.
  assert (Hnone : forall limit, retrieved E symbol days limit w = []).
  { intros limit. unfold retrieved.
    destruct (minus_days (clock E (clock_reads w)) days) as [start_date|e]
      eqn:Hstart; [|reflexivity].
    destruct (mongo_fault E (db_ops w)); [reflexivity|].
    apply minus_days_return in Hstart.
    rewrite filter_none; [destruct limit; reflexivity|].
    intros a _. unfold matches_query.
    destruct (has_symbol symbol a); [|reflexivity]. cbn [andb].
    apply andb_false_iff.
    destruct (Z.leb_spec start_date (date_key a)) as [Hge|]; [|auto].
    right. apply Z.leb_gt.
    assert (0 < micros_per_day) by reflexivity. nia. }
  split.
  - intros limit. destruct (get_news_run E symbol days limit w) as [w' Hrun].
    rewrite Hnone in Hrun. eauto.
  - destruct (summary_run E symbol days w) as (summary & w' & Hrun & Hcases).
    cbv zeta in Hcases. rewrite Hnone in Hcases.
    destruct Hcases as [[_ ->]|[[Hne _]|[Hne _]]]; try congruence.
    exists w'. exact Hrun.
Qed.

Lemma negative_days_give_nothing_witness :
  exists w',
    get_sentiment_summary offline (py "2222.SR") (-7) (fresh week)
    = (Return (summary_without_articles (py "2222.SR") (-7)), w').
Proof.
  destruct (negative_days_give_nothing offline (py "2222.SR") (-7) (fresh week))
    as [_ Hsummary]; [reflexivity|exact Hsummary].
Defined.
